(** * Cal-Building-Insights: filter engine, interaction handlers, histograms
      and export of [src/index.tsx], embedded shallowly.

    Conventions of the embedding.
    - A JavaScript [number] stored in a record is a finite, non-NaN double
      ([getNumericValue] maps NaN and missing values to 0); it is read as the
      rational it denotes, so arithmetic on it is exact.  Filter bounds may
      also be [Infinity] / [-Infinity] (the default ranges are
      [[0, Infinity]]), hence the type [number].
    - A JavaScript string is a [string]; case folding and trimming are the
      ASCII ones.
    - Module-level mutable variables ([allBuildingData],
      [filteredBuildingData], [currentFilters], [chartInteractionState]) and
      the pieces of the DOM that the handlers touch are the fields of
      [AppState]; every handler is a function on [AppState]. *)

From Stdlib Require Import List String Ascii Bool Arith ZArith QArith Qround Lia.
From Stdlib Require Import Permutation Numbers.DecimalString Lqa Sorted.
Import ListNotations.

Local Open Scope string_scope.
Local Open Scope list_scope.
Local Open Scope bool_scope.
Local Open Scope nat_scope.

(* ================================================================== *)
(** * JavaScript values used by the program *)
(* ================================================================== *)

Module JS.

(** ** Numbers *)

Inductive number : Type :=
| NegInfinity
| Fin (q : Q)
| Infinity.

Definition Qltb (x y : Q) : bool :=
  (Qnum x * QDen y <? Qnum y * QDen x)%Z.

Definition Qeqb (x y : Q) : bool :=
  (Qnum x * QDen y =? Qnum y * QDen x)%Z.

(** [a < b] *)
Definition lt (a b : number) : bool :=
  match a, b with
  | NegInfinity, NegInfinity => false
  | NegInfinity, _ => true
  | Fin _, NegInfinity => false
  | Fin x, Fin y => Qltb x y
  | Fin _, Infinity => true
  | Infinity, _ => false
  end.

(** [a > b] *)
Definition gt (a b : number) : bool := lt b a.

(** The order on numbers as a proposition, for specifications. *)
Definition le (a b : number) : Prop :=
  match a, b with
  | NegInfinity, _ => True
  | Fin _, NegInfinity => False
  | Fin x, Fin y => (x <= y)%Q
  | Fin _, Infinity => True
  | Infinity, Infinity => True
  | Infinity, _ => False
  end.

(** ** Strings *)

Definition lower_ascii (c : ascii) : ascii :=
  let n := nat_of_ascii c in
  if (65 <=? n) && (n <=? 90) then ascii_of_nat (n + 32) else c.

(** [s.toLowerCase()] *)
Fixpoint toLowerCase (s : string) : string :=
  match s with
  | EmptyString => EmptyString
  | String c s' => String (lower_ascii c) (toLowerCase s')
  end.

(** [s.includes(sub)] *)
Fixpoint includes (s sub : string) : bool :=
  String.prefix sub s
  || match s with
     | EmptyString => false
     | String _ s' => includes s' sub
     end.

Definition is_space (c : ascii) : bool :=
  let n := nat_of_ascii c in
  (n =? 32) || ((9 <=? n) && (n <=? 13)).

Fixpoint trimStart (s : string) : string :=
  match s with
  | EmptyString => EmptyString
  | String c s' => if is_space c then trimStart s' else s
  end.

Fixpoint trimEnd (s : string) : string :=
  match s with
  | EmptyString => EmptyString
  | String c s' =>
      match trimEnd s' with
      | EmptyString => if is_space c then EmptyString else String c EmptyString
      | t => String c t
      end
  end.

(** [s.trim()] *)
Definition trim (s : string) : string := trimEnd (trimStart s).

(** Truthiness of a string: the empty string is falsy. *)
Definition truthy (s : string) : bool := negb (String.eqb s "").

(** [arr.includes(x)] on an array of strings. *)
Definition Array_includes (arr : list string) (x : string) : bool :=
  existsb (String.eqb x) arr.

End JS.

Import JS.

(* ================================================================== *)
(** * Data model *)
(* ================================================================== *)

Module Building.

Record BuildingData : Type := mkBuildingData {
department : string;
departmentName : string;
propertyId : string;
propertyName : string;
yearEnding : string;
address1 : string;
city : string;
stateProvince : string;
postalCode : string;
propertyGFA : Q;
primaryPropertyType : string;
yearBuilt : Q;
electricityRenewableUsedOnsite : Q;
electricityGridPurchase : Q;
naturalGasUseTherms : Q;
propaneUseKbtu : Q;
waterUseKgal : Q;
percentGreenPower : Q;
greenPowerKWh : Q;
siteEnergyUseKbtu : Q;
leedCertified : string;
location : string;
totalElectricityUseKWh : Q;
elecUsedPerSqrFt : Q;
siteEnergyUsedPerSqrFt : Q;
waterUsedPerSqrFt : Q;
hasRenewable : Q
}.

End Building.

Import Building.

Module Filter.

Record FilterState : Type := mkFilterState {
  departments : list string;
  propertyTypes : list string;
  yearRange : number * number;
  energyRange : number * number;
  gfaRange : number * number;
  leedCertified : option string;
  searchTerm : string;
  selectedCity : option string
}.

End Filter.

Import Filter.

(** The initial value of [currentFilters]. *)
Definition initialFilters : FilterState :=
  {| departments := [];
     propertyTypes := [];
     yearRange := (Fin 1900, Fin 2025);
     energyRange := (Fin 0, Infinity);
     gfaRange := (Fin 0, Infinity);
     Filter.leedCertified := None;
     searchTerm := "";
     selectedCity := None |}.

(* ================================================================== *)
(** * Filter engine *)
(* ================================================================== *)

(** [leedStatus && leedStatus !== 'no' && leedStatus !== 'not applicable'
     && leedStatus !== ''] for
    [leedStatus = item.leedCertified ? item.leedCertified.trim().toLowerCase() : ""]. *)
Definition isLeedCertified (item : BuildingData) : bool :=
  let leedStatus :=
    if truthy item.(Building.leedCertified)
    then toLowerCase (trim item.(Building.leedCertified)) else "" in
  truthy leedStatus
  && negb (String.eqb leedStatus "no")
  && negb (String.eqb leedStatus "not applicable")
  && negb (String.eqb leedStatus "").

(** [`${item.propertyName} ${item.departmentName} ${item.address1} ${item.city}`.toLowerCase()] *)
Definition searchableText (item : BuildingData) : string :=
  toLowerCase (item.(propertyName) ++ " " ++ item.(departmentName) ++ " "
               ++ item.(address1) ++ " " ++ item.(city)).

(** The callback of [data.filter] in [applyFilters]: each [if] of the source
    that returns [false], in order. *)
Definition keep (currentFilters : FilterState) (item : BuildingData) : bool :=
  if (0 <? List.length currentFilters.(departments))
     && negb (Array_includes currentFilters.(departments) item.(departmentName))
  then false
  else if (0 <? List.length currentFilters.(propertyTypes))
     && negb (Array_includes currentFilters.(propertyTypes) item.(primaryPropertyType))
  then false
  else if lt (Fin item.(yearBuilt)) (fst currentFilters.(yearRange))
     || gt (Fin item.(yearBuilt)) (snd currentFilters.(yearRange))
  then false
  else if lt (Fin item.(siteEnergyUseKbtu)) (fst currentFilters.(energyRange))
     || gt (Fin item.(siteEnergyUseKbtu)) (snd currentFilters.(energyRange))
  then false
  else if lt (Fin item.(propertyGFA)) (fst currentFilters.(gfaRange))
     || gt (Fin item.(propertyGFA)) (snd currentFilters.(gfaRange))
  then false
  else if match currentFilters.(Filter.leedCertified) with
          | Some f =>
              truthy f
              && ((String.eqb f "certified" && negb (isLeedCertified item))
                  || (String.eqb f "not-certified" && isLeedCertified item))
          | None => false
          end
  then false
  else if truthy currentFilters.(searchTerm)
     && negb (includes (searchableText item)
                       (toLowerCase currentFilters.(searchTerm)))
  then false
  else if match currentFilters.(selectedCity) with
          | Some c => truthy c && negb (String.eqb item.(city) c)
          | None => false
          end
  then false
  else true.

(** [applyFilters(data)], with the global [currentFilters] made a parameter. *)
Definition applyFilters (currentFilters : FilterState)
    (data : list BuildingData) : list BuildingData :=
  filter (keep currentFilters) data.

(* ------------------------------------------------------------------ *)
(** ** The filter contract in the words of the specification *)

Module FilterSpec.

(** [l1] is [l2] with some elements dropped: same order, no element used
    twice. *)
Inductive Subsequence {A : Type} : list A -> list A -> Prop :=
| sub_nil : Subsequence [] []
| sub_skip x l1 l2 : Subsequence l1 l2 -> Subsequence l1 (x :: l2)
| sub_take x l1 l2 : Subsequence l1 l2 -> Subsequence (x :: l1) (x :: l2).

(** [out] is [inp] restricted to the positions whose element satisfies [P]:
    an element is taken when it satisfies [P] and dropped when it does not. *)
Inductive Selection {A : Type} (P : A -> Prop) : list A -> list A -> Prop :=
| sel_nil : Selection P [] []
| sel_drop x out inp : ~ P x -> Selection P out inp -> Selection P out (x :: inp)
| sel_take x out inp : P x -> Selection P out inp -> Selection P (x :: out) (x :: inp).

(** [sub] occurs in [s] as a contiguous substring. *)
Definition Substring (sub s : string) : Prop :=
  exists a b, s = (a ++ sub ++ b)%string.

Definition inRange (x : Q) (r : number * number) : Prop :=
  le (fst r) (Fin x) /\ le (Fin x) (snd r).

(** Department membership; an empty selection is no restriction. *)
Definition departmentOk (f : FilterState) (r : BuildingData) : Prop :=
  f.(departments) = [] \/ In r.(departmentName) f.(departments).

Definition propertyTypeOk (f : FilterState) (r : BuildingData) : Prop :=
  f.(propertyTypes) = [] \/ In r.(primaryPropertyType) f.(propertyTypes).

(** LEED tri-state: any / certified / not-certified. *)
Definition leedOk (f : FilterState) (r : BuildingData) : Prop :=
  (f.(Filter.leedCertified) = Some "certified" -> isLeedCertified r = true)
  /\ (f.(Filter.leedCertified) = Some "not-certified"
      -> isLeedCertified r = false).

(** Case-insensitive substring search over the name, department, address
    and city of the record (joined by single spaces). *)
Definition searchOk (f : FilterState) (r : BuildingData) : Prop :=
  f.(searchTerm) = ""
  \/ Substring (toLowerCase f.(searchTerm))
       (toLowerCase (r.(propertyName) ++ " " ++ r.(departmentName) ++ " "
                     ++ r.(address1) ++ " " ++ r.(city))).

(** Exact city match; no city ([null] or the empty option of the select)
    is no restriction. *)
Definition cityOk (f : FilterState) (r : BuildingData) : Prop :=
  forall c, f.(selectedCity) = Some c -> c <> "" -> r.(city) = c.

Definition satisfiesAll (f : FilterState) (r : BuildingData) : Prop :=
  departmentOk f r
  /\ propertyTypeOk f r
  /\ inRange r.(yearBuilt) f.(yearRange)
  /\ inRange r.(siteEnergyUseKbtu) f.(energyRange)
  /\ inRange r.(propertyGFA) f.(gfaRange)
  /\ leedOk f r
  /\ searchOk f r
  /\ cityOk f r.

End FilterSpec.

Import FilterSpec.

(* ================================================================== *)
(** * Application state *)
(* ================================================================== *)

Module App.

Inductive NotificationType : Type := success | error | warning | info.

(** One call of [showNotification(message, type)]. *)
Record Notification : Type := mkNotification {
  message : string;
  kind : NotificationType
}.

Record ChartInteractionState : Type := mkChartInteractionState {
  selectedItems : list BuildingData;
  highlightedCategories : list string;
  comparisonMode : bool;
  drillDownLevel : nat;
  currentView : string;
  showPercentages : bool
}.

(** A file handed to the browser through a temporary [<a download>]. *)
Record Download : Type := mkDownload {
  filename : string;
  mimeType : string;
  content : string
}.

(** The module-level variables and the parts of the page the handlers
    change: the [#drill-down-panel] element (with the label and chart id
    written into its buttons), the open building-details modals, the
    notifications shown and the files downloaded, oldest first. *)
Record AppState : Type := mkAppState {
  allBuildingData : list BuildingData;
  filteredBuildingData : list BuildingData;
  currentFilters : FilterState;
  chartInteractionState : ChartInteractionState;
  drillDownPanel : option (string * string);
  modals : list BuildingData;
  notifications : list Notification;
  downloads : list Download
}.

End App.

Import App.

Definition initialInteractionState : ChartInteractionState :=
  {| selectedItems := [];
     highlightedCategories := [];
     comparisonMode := false;
     drillDownLevel := 0;
     currentView := "overview";
     showPercentages := true |}.

(** ** Field updates *)

Definition set_departments (v : list string) (f : FilterState) : FilterState :=
  {| departments := v;
     propertyTypes := f.(propertyTypes);
     yearRange := f.(yearRange);
     energyRange := f.(energyRange);
     gfaRange := f.(gfaRange);
     Filter.leedCertified := f.(Filter.leedCertified);
     searchTerm := f.(searchTerm);
     selectedCity := f.(selectedCity) |}.

Definition set_propertyTypes (v : list string) (f : FilterState) : FilterState :=
  {| departments := f.(departments);
     propertyTypes := v;
     yearRange := f.(yearRange);
     energyRange := f.(energyRange);
     gfaRange := f.(gfaRange);
     Filter.leedCertified := f.(Filter.leedCertified);
     searchTerm := f.(searchTerm);
     selectedCity := f.(selectedCity) |}.

Definition set_yearRange (v : number * number) (f : FilterState) : FilterState :=
  {| departments := f.(departments);
     propertyTypes := f.(propertyTypes);
     yearRange := v;
     energyRange := f.(energyRange);
     gfaRange := f.(gfaRange);
     Filter.leedCertified := f.(Filter.leedCertified);
     searchTerm := f.(searchTerm);
     selectedCity := f.(selectedCity) |}.

Definition set_energyRange (v : number * number) (f : FilterState) : FilterState :=
  {| departments := f.(departments);
     propertyTypes := f.(propertyTypes);
     yearRange := f.(yearRange);
     energyRange := v;
     gfaRange := f.(gfaRange);
     Filter.leedCertified := f.(Filter.leedCertified);
     searchTerm := f.(searchTerm);
     selectedCity := f.(selectedCity) |}.

Definition set_selectedCity (v : option string) (f : FilterState) : FilterState :=
  {| departments := f.(departments);
     propertyTypes := f.(propertyTypes);
     yearRange := f.(yearRange);
     energyRange := f.(energyRange);
     gfaRange := f.(gfaRange);
     Filter.leedCertified := f.(Filter.leedCertified);
     searchTerm := f.(searchTerm);
     selectedCity := v |}.

Definition set_currentFilters (v : FilterState) (s : AppState) : AppState :=
  {| allBuildingData := s.(allBuildingData);
     filteredBuildingData := s.(filteredBuildingData);
     currentFilters := v;
     chartInteractionState := s.(chartInteractionState);
     drillDownPanel := s.(drillDownPanel);
     modals := s.(modals);
     notifications := s.(notifications);
     downloads := s.(downloads) |}.

Definition set_drillDownPanel (v : option (string * string)) (s : AppState)
  : AppState :=
  {| allBuildingData := s.(allBuildingData);
     filteredBuildingData := s.(filteredBuildingData);
     currentFilters := s.(currentFilters);
     chartInteractionState := s.(chartInteractionState);
     drillDownPanel := v;
     modals := s.(modals);
     notifications := s.(notifications);
     downloads := s.(downloads) |}.

Definition set_modals (v : list BuildingData) (s : AppState) : AppState :=
  {| allBuildingData := s.(allBuildingData);
     filteredBuildingData := s.(filteredBuildingData);
     currentFilters := s.(currentFilters);
     chartInteractionState := s.(chartInteractionState);
     drillDownPanel := s.(drillDownPanel);
     modals := v;
     notifications := s.(notifications);
     downloads := s.(downloads) |}.

Definition set_selectedItems (v : list BuildingData) (s : AppState) : AppState :=
  {| allBuildingData := s.(allBuildingData);
     filteredBuildingData := s.(filteredBuildingData);
     currentFilters := s.(currentFilters);
     chartInteractionState :=
       {| selectedItems := v;
          highlightedCategories := s.(chartInteractionState).(highlightedCategories);
          comparisonMode := s.(chartInteractionState).(comparisonMode);
          drillDownLevel := s.(chartInteractionState).(drillDownLevel);
          currentView := s.(chartInteractionState).(currentView);
          showPercentages := s.(chartInteractionState).(showPercentages) |};
     drillDownPanel := s.(drillDownPanel);
     modals := s.(modals);
     notifications := s.(notifications);
     downloads := s.(downloads) |}.

(** [showNotification(message, type)]: the notification is appended to the
    page. *)
Definition showNotification (msg : string) (type : NotificationType)
    (s : AppState) : AppState :=
  {| allBuildingData := s.(allBuildingData);
     filteredBuildingData := s.(filteredBuildingData);
     currentFilters := s.(currentFilters);
     chartInteractionState := s.(chartInteractionState);
     drillDownPanel := s.(drillDownPanel);
     modals := s.(modals);
     notifications := s.(notifications) ++ [mkNotification msg type];
     downloads := s.(downloads) |}.

(** The browser receives one more file. *)
Definition download (d : Download) (s : AppState) : AppState :=
  {| allBuildingData := s.(allBuildingData);
     filteredBuildingData := s.(filteredBuildingData);
     currentFilters := s.(currentFilters);
     chartInteractionState := s.(chartInteractionState);
     drillDownPanel := s.(drillDownPanel);
     modals := s.(modals);
     notifications := s.(notifications);
     downloads := s.(downloads) ++ [d] |}.

(** [updateFilteredData()]: recompute the active set from the full dataset,
    remove the drill-down panel and every modal.  The re-rendering of charts
    and of the filter status reads the state and is not part of it. *)
Definition updateFilteredData (s : AppState) : AppState :=
  {| allBuildingData := s.(allBuildingData);
     filteredBuildingData := applyFilters s.(currentFilters) s.(allBuildingData);
     currentFilters := s.(currentFilters);
     chartInteractionState := s.(chartInteractionState);
     drillDownPanel := None;
     modals := [];
     notifications := s.(notifications);
     downloads := s.(downloads) |}.

(* ================================================================== *)
(** * Interaction state manager *)
(* ================================================================== *)

(** [handleDepartmentClick(departmentName)] *)
Definition handleDepartmentClick (departmentName : string) (s : AppState)
  : AppState :=
  let cf := s.(currentFilters) in
  let cf' :=
    if Array_includes cf.(departments) departmentName
    then set_departments
           (filter (fun d => negb (String.eqb d departmentName)) cf.(departments)) cf
    else set_departments (cf.(departments) ++ [departmentName]) cf in
  updateFilteredData (set_currentFilters cf' s).

(** What one department click does to the selection: the two branches of
    [handleDepartmentClick] as a function on the array. *)
Definition toggled (name : string) (l : list string) : list string :=
  if Array_includes l name
  then filter (fun d => negb (String.eqb d name)) l
  else l ++ [name].

(** [handlePropertyTypeClick(propertyType)] *)
Definition handlePropertyTypeClick (propertyType : string) (s : AppState)
  : AppState :=
  let cf := s.(currentFilters) in
  let cf' :=
    if Array_includes cf.(propertyTypes) propertyType
    then set_propertyTypes
           (filter (fun t => negb (String.eqb t propertyType)) cf.(propertyTypes)) cf
    else set_propertyTypes (cf.(propertyTypes) ++ [propertyType]) cf in
  updateFilteredData (set_currentFilters cf' s).

(** [showBuildingDetailsModal(building)]: one more modal on the page. *)
Definition showBuildingDetailsModal (building : BuildingData) (s : AppState)
  : AppState :=
  set_modals (s.(modals) ++ [building]) s.

(** [handleScatterPointClick(point, dataIndex)]; [point] is not used. *)
Definition handleScatterPointClick (dataIndex : nat) (s : AppState) : AppState :=
  match nth_error s.(filteredBuildingData) dataIndex with
  | Some buildingData => showBuildingDetailsModal buildingData s
  | None => s
  end.

(** [handleGreenPowerBinClick(binLabel)] *)
Definition handleGreenPowerBinClick (binLabel : string) (s : AppState)
  : AppState :=
  let cf := s.(currentFilters) in
  let cf' :=
    if String.eqb binLabel "0% Usage" then set_energyRange (Fin 0, Fin 0) cf
    else if String.eqb binLabel "1-25%" then set_energyRange (Fin 1, Fin 25) cf
    else cf in
  updateFilteredData (set_currentFilters cf' s).

(** The [switch (label)] on the building-age bins in [getRelatedBuildings]. *)
Definition inAgeBin (label : string) (year : Q) : bool :=
  if String.eqb label "Pre-1900" then Qltb 0 year && Qltb year 1900
  else if String.eqb label "1900-1919" then negb (Qltb year 1900) && Qltb year 1920
  else if String.eqb label "1920-1939" then negb (Qltb year 1920) && Qltb year 1940
  else if String.eqb label "1940-1959" then negb (Qltb year 1940) && Qltb year 1960
  else if String.eqb label "1960-1979" then negb (Qltb year 1960) && Qltb year 1980
  else if String.eqb label "1980-1999" then negb (Qltb year 1980) && Qltb year 2000
  else if String.eqb label "2000-Present" then negb (Qltb year 2000)
  else if String.eqb label "Unknown/Pre-1899" then Qeqb year 0 || Qeqb year 1899
  else false.

(** The [switch (label)] on the green-power bins in [getRelatedBuildings]. *)
Definition inGreenPowerBin (label : string) (greenPercent : Q) : bool :=
  if String.eqb label "0% Usage" then Qeqb greenPercent 0
  else if String.eqb label "1-25%"
       then Qltb 0 greenPercent && negb (Qltb 25 greenPercent)
  else if String.eqb label "26-50%"
       then Qltb 25 greenPercent && negb (Qltb 50 greenPercent)
  else if String.eqb label "51-75%"
       then Qltb 50 greenPercent && negb (Qltb 75 greenPercent)
  else if String.eqb label "76-100%"
       then Qltb 75 greenPercent && negb (Qltb 100 greenPercent)
  else false.

(** [getRelatedBuildings(label, chartId)] *)
Definition getRelatedBuildings (label chartId : string) (s : AppState)
  : list BuildingData :=
  if negb (truthy label) || negb (truthy chartId) then []
  else if includes chartId "deptDistribution"
  then filter (fun b => String.eqb b.(departmentName) label) s.(filteredBuildingData)
  else if includes chartId "propertyTypes"
  then filter (fun b => String.eqb b.(primaryPropertyType) label) s.(filteredBuildingData)
  else if includes chartId "cityDistribution"
  then filter (fun b => String.eqb b.(city) label) s.(filteredBuildingData)
  else if includes chartId "buildingAge"
  then filter (fun b => inAgeBin label b.(yearBuilt)) s.(filteredBuildingData)
  else if includes chartId "greenPower"
  then filter (fun b => inGreenPowerBin label b.(percentGreenPower)) s.(filteredBuildingData)
  else [].

(** [showDrillDownPanel(label, value, chartId)]; [value] is not used.  An
    existing panel is removed; a new one appears only when the clicked
    category has buildings. *)
Definition showDrillDownPanel (label chartId : string) (s : AppState)
  : AppState :=
  match getRelatedBuildings label chartId s with
  | [] => set_drillDownPanel None s
  | _ :: _ => set_drillDownPanel (Some (label, chartId)) s
  end.

(** An element of a chart as Chart.js reports it to [onClick]. *)
Record InteractionItem : Type := mkInteractionItem {
  index : nat;
  datasetIndex : nat
}.

(** [handleChartClick(event, elements, canvasId)].  [labels] is
    [event.chart.data.labels]; a missing label is read as the empty string,
    which every callee treats as it treats [undefined].  The clicked value is
    only passed on to callees that ignore it. *)
Definition handleChartClick (labels : list string)
    (elements : list InteractionItem) (canvasId : string) (s : AppState)
  : AppState :=
  match elements with
  | [] => s
  | element :: _ =>
      let dataIndex := element.(index) in
      let label := nth dataIndex labels "" in
      let s1 :=
        if includes canvasId "deptDistribution"
        then handleDepartmentClick label s
        else if includes canvasId "propertyTypes"
        then handlePropertyTypeClick label s
        else if includes canvasId "energyVsGfa"
        then handleScatterPointClick dataIndex s
        else if includes canvasId "greenPowerDistribution"
        then handleGreenPowerBinClick label s
        else s in
      showDrillDownPanel label canvasId s1
  end.

(** [createVisualizationContainer(id, title).canvasId] *)
Definition canvasIdOf (id : string) : string := "chart-" ++ id.

(** The canvas of the geography chart ("Property Counts by City"). *)
Definition cityChartId : string := canvasIdOf "cityDistribution".

(** The [switch (label)] of the building-age branch of [filterToCategory]. *)
Definition ageBinRange (label : string) (f : FilterState) : FilterState :=
  if String.eqb label "Pre-1900" then set_yearRange (Fin 1800, Fin 1899) f
  else if String.eqb label "1900-1919" then set_yearRange (Fin 1900, Fin 1919) f
  else if String.eqb label "1920-1939" then set_yearRange (Fin 1920, Fin 1939) f
  else if String.eqb label "1940-1959" then set_yearRange (Fin 1940, Fin 1959) f
  else if String.eqb label "1960-1979" then set_yearRange (Fin 1960, Fin 1979) f
  else if String.eqb label "1980-1999" then set_yearRange (Fin 1980, Fin 1999) f
  else if String.eqb label "2000-Present" then set_yearRange (Fin 2000, Fin 2025) f
  else if String.eqb label "Unknown/Pre-1899" then set_yearRange (Fin 0, Fin 1899) f
  else f.

(** [window.filterToCategory(label, chartId)], the action of the drill-down
    panel's "Filter to This Category" button. *)
Definition filterToCategory (label chartId : string) (s : AppState) : AppState :=
  let cf := s.(currentFilters) in
  let s1 :=
    if includes chartId "dept" || includes chartId "Department"
    then showNotification ("Filtered to department: " ++ label) success
           (set_currentFilters (set_departments [label] cf) s)
    else if includes chartId "type" || includes chartId "propertyTypes"
    then showNotification ("Filtered to property type: " ++ label) success
           (set_currentFilters (set_propertyTypes [label] cf) s)
    else if includes chartId "city" || includes chartId "cityDistribution"
    then showNotification ("Filtered to city: " ++ label) success
           (set_currentFilters (set_selectedCity (Some label) cf) s)
    else if includes chartId "buildingAge"
    then showNotification ("Filtered to building age: " ++ label) success
           (set_currentFilters (ageBinRange label cf) s)
    else if includes chartId "greenPower"
    then if String.eqb label "0% Usage"
         then set_currentFilters (set_energyRange (Fin 0, Fin 0) cf) s
         else if String.eqb label "1-25%"
         then showNotification
                ("Green power filtering for " ++ label ++ " not yet implemented")
                warning s
         else s
    else s in
  set_drillDownPanel None (updateFilteredData s1).

(** ** Comparison set *)

(** [arr.findIndex(p)], [-1] when no element satisfies [p]. *)
Fixpoint findIndexFrom {A : Type} (p : A -> bool) (arr : list A) (i : Z) : Z :=
  match arr with
  | [] => (-1)%Z
  | x :: rest => if p x then i else findIndexFrom p rest (i + 1)%Z
  end.

Definition findIndex {A : Type} (p : A -> bool) (arr : list A) : Z :=
  findIndexFrom p arr 0%Z.

(** The double-quote character of the notification texts. *)
Definition dq : string := String (ascii_of_nat 34) EmptyString.

(** [window.addToComparison(propertyId)]; [updateComparisonPanel] only
    re-renders the panel from [selectedItems]. *)
Definition addToComparison (id : string) (s : AppState) : AppState :=
  match find (fun b => String.eqb b.(propertyId) id) s.(allBuildingData) with
  | Some building =>
      let existingIndex :=
        findIndex (fun item => String.eqb item.(propertyId) id)
                  s.(chartInteractionState).(selectedItems) in
      if (existingIndex =? -1)%Z
      then showNotification
             ("Added " ++ dq ++ building.(propertyName) ++ dq ++ " to comparison")
             success
             (set_selectedItems
                (s.(chartInteractionState).(selectedItems) ++ [building]) s)
      else showNotification
             (dq ++ building.(propertyName) ++ dq ++ " is already in comparison")
             warning s
  | None => s
  end.

(** The number of entries of a comparison list that carry the identifier. *)
Definition entriesFor (id : string) (items : list BuildingData) : nat :=
  List.length (filter (fun item => String.eqb item.(propertyId) id) items).

(** [arr.splice(index, 1)] for [0 <= index]: the array without that slot. *)
Fixpoint removeAt {A : Type} (i : nat) (arr : list A) : list A :=
  match arr, i with
  | [], _ => []
  | _ :: rest, O => rest
  | x :: rest, S j => x :: removeAt j rest
  end.

(** [window.removeFromComparison(propertyId)] *)
Definition removeFromComparison (id : string) (s : AppState) : AppState :=
  let items := s.(chartInteractionState).(selectedItems) in
  let i := findIndex (fun item => String.eqb item.(propertyId) id) items in
  if negb (i =? -1)%Z
  then match nth_error items (Z.to_nat i) with
       | Some removed =>
           showNotification
             ("Removed " ++ dq ++ removed.(propertyName) ++ dq ++ " from comparison")
             info (set_selectedItems (removeAt (Z.to_nat i) items) s)
       | None => s
       end
  else s.

(** [window.clearAllComparison()] *)
Definition clearAllComparison (s : AppState) : AppState :=
  showNotification "Cleared all comparison items" info (set_selectedItems [] s).

(** ** Reset *)

Definition Qmin2 (a b : Q) : Q := if Qltb b a then b else a.
Definition Qmax2 (a b : Q) : Q := if Qltb a b then b else a.

(** [Math.min(...(y :: ys))] and [Math.max(...(y :: ys))] on a non-empty
    argument list. *)
Definition Math_min (y : Q) (ys : list Q) : Q := fold_left Qmin2 ys y.
Definition Math_max (y : Q) (ys : list Q) : Q := fold_left Qmax2 ys y.

(** [window.resetAllFilters()], the function behind both reset buttons.
    The form controls it also resets are not part of the state. *)
Definition resetAllFilters (s : AppState) : AppState :=
  let defaults :=
    {| departments := [];
       propertyTypes := [];
       yearRange := (Fin 1900, Fin 2025);
       energyRange := (Fin 0, Infinity);
       gfaRange := (Fin 0, Infinity);
       Filter.leedCertified := None;
       searchTerm := "";
       selectedCity := None |} in
  let yearInputs :=
    if 0 <? List.length s.(allBuildingData)
    then filter (fun y => Qltb 1800 y && Qltb y 2030)
                (map yearBuilt s.(allBuildingData))
    else [] in
  let cf :=
    match yearInputs with
    | y :: ys =>
        let minYear := Math_min y ys in
        let maxYear := Math_max y ys in
        set_yearRange (Fin minYear, Fin maxYear) defaults
    | [] => defaults
    end in
  showNotification "All filters have been reset" success
    (updateFilteredData (set_currentFilters cf s)).

(* ================================================================== *)
(** * Numeric histograms *)
(* ================================================================== *)

Module Histogram.

(** A [Record<string, number>] used as a counter: keys in insertion order. *)
Definition Bins : Type := list (string * nat).

(** [bins[label] = (bins[label] || 0) + 1] *)
Fixpoint increment (label : string) (bins : Bins) : Bins :=
  match bins with
  | [] => [(label, 1)]
  | (k, v) :: rest =>
      if String.eqb k label then (k, v + 1) :: rest
      else (k, v) :: increment label rest
  end.

(** [Object.values(bins)] summed. *)
Definition total (bins : Bins) : nat :=
  fold_right (fun kv acc => snd kv + acc) 0 bins.

(** [bins[label] || 0] *)
Fixpoint countOf (label : string) (bins : Bins) : nat :=
  match bins with
  | [] => 0
  | (k, v) :: rest => if String.eqb k label then v else countOf label rest
  end.

(** The [forEach] loop that fills a counter: one [increment] per value, at
    the label [labelOf] gives it. *)
Definition fill {V : Type} (labelOf : V -> string) (values : list V)
    (bins : Bins) : Bins :=
  fold_left (fun bins v => increment (labelOf v) bins) values bins.

(** How often [label] is the label of a value of [values]. *)
Definition occurrences {V : Type} (labelOf : V -> string) (label : string)
    (values : list V) : nat :=
  List.length (filter (fun v => String.eqb (labelOf v) label) values).

(** Decimal digits of an integer: [`${n}`] for an integer [n]. *)
Definition Number_toString (n : Z) : string :=
  NilEmpty.string_of_int (Z.to_int n).

Definition string_rev (s : string) : string :=
  string_of_list_ascii (rev (list_ascii_of_string s)).

(** Walks the digits from the least significant one and writes a comma after
    every third digit that is followed by another one; [k] digits of the
    current group are already written. *)
Fixpoint groupDigits (revDigits : string) (k : nat) : string :=
  match revDigits with
  | EmptyString => EmptyString
  | String c rest =>
      match rest with
      | EmptyString => String c EmptyString
      | String _ _ =>
          if k =? 2 then String c (String "," (groupDigits rest 0))
          else String c (groupDigits rest (S k))
      end
  end.

(** [n.toLocaleString()] for an integer [n], with the en-US grouping. *)
Definition toLocaleString (n : Z) : string :=
  let digits := Number_toString (Z.abs n) in
  let grouped := string_rev (groupDigits (string_rev digits) 0) in
  if (n <? 0)%Z then "-" ++ grouped else grouped.

(** [key.split('-')[0]] *)
Fixpoint beforeDash (s : string) : string :=
  match s with
  | EmptyString => EmptyString
  | String c rest => if Ascii.eqb c "-" then EmptyString else String c (beforeDash rest)
  end.

(** [s.replace(/,/g, '')] *)
Fixpoint removeCommas (s : string) : string :=
  match s with
  | EmptyString => EmptyString
  | String c rest =>
      if Ascii.eqb c "," then removeCommas rest else String c (removeCommas rest)
  end.

Definition digitValue (c : ascii) : option Z :=
  let n := nat_of_ascii c in
  if (48 <=? n) && (n <=? 57) then Some (Z.of_nat (n - 48)) else None.

(** Reads the longest prefix of digits; [None] when there is none. *)
Fixpoint readDigits (s : string) (acc : option Z) : option Z :=
  match s with
  | EmptyString => acc
  | String c rest =>
      match digitValue c with
      | Some d =>
          readDigits rest
            (Some (match acc with Some a => 10 * a + d | None => d end)%Z)
      | None => acc
      end
  end.

(** [parseInt(s)]; [None] is [NaN]. *)
Definition parseInt (s : string) : option Z :=
  match trimStart s with
  | String "-" rest => option_map Z.opp (readDigits rest None)
  | String "+" rest => readDigits rest None
  | t => readDigits t None
  end.

(** The comparator of the sort in [renderWaterUsageCharts]:
    [parseInt(keyA.split('-')[0].replace(/,/g, ''))
     - parseInt(keyB.split('-')[0].replace(/,/g, ''))];
    a [NaN] difference counts as 0, as [Array.prototype.sort] reads it. *)
Definition compareBins (a b : string * nat) : Z :=
  match parseInt (removeCommas (beforeDash (fst a))),
        parseInt (removeCommas (beforeDash (fst b))) with
  | Some x, Some y => (x - y)%Z
  | _, _ => 0%Z
  end.

(** [Array.prototype.sort] is stable: an entry goes behind those that do not
    compare greater than it. *)
Fixpoint insertSorted (e : string * nat) (sorted : Bins) : Bins :=
  match sorted with
  | [] => [e]
  | h :: rest =>
      if (0 <? compareBins e h)%Z then h :: insertSorted e rest
      else e :: sorted
  end.

(** [Object.fromEntries(Object.entries(bins).sort(compareBins))] *)
Definition sortBins (bins : Bins) : Bins :=
  fold_right insertSorted [] bins.

(** [Math.ceil(max / numBins) || fallback] *)
Definition binSizeFor (max : Q) (numBins fallback : Z) : Z :=
  let c := Qceiling (max / inject_Z numBins) in
  if (c =? 0)%Z then fallback else c.

(** [Math.floor(value / binSize) * binSize] *)
Definition binStartOf (value : Q) (binSize : Z) : Z :=
  (Qfloor (value / inject_Z binSize) * binSize)%Z.

Definition waterBinLabel (value : Q) (binSize : Z) : string :=
  let binStart := binStartOf value binSize in
  let binEnd := (binStart + binSize - 1)%Z in
  toLocaleString binStart ++ "-" ++ toLocaleString binEnd ++ " kgal".

(** [data.filter(d => d.waterUseKgal > 0)] *)
Definition waterUsePositive (data : list BuildingData) : list BuildingData :=
  filter (fun d => Qltb 0 d.(waterUseKgal)) data.

(** [waterBins] as [renderWaterUsageCharts] hands it to the chart. *)
Definition waterBins (data : list BuildingData) : Bins :=
  match waterUsePositive data with
  | d0 :: ds =>
      let maxWaterUse := Math_max d0.(waterUseKgal) (map waterUseKgal ds) in
      let numBins := 10%Z in
      let binSize := binSizeFor maxWaterUse numBins 100 in
      let filled :=
        fold_left
          (fun bins d => increment (waterBinLabel d.(waterUseKgal) binSize) bins)
          (d0 :: ds) [] in
      sortBins filled
  | [] => [("No Water Usage Data", 0)]
  end.

Definition intensityBinLabel (intensity : Q) (binSize : Z) : string :=
  let binStart := binStartOf intensity binSize in
  let binEnd := (binStart + binSize - 1)%Z in
  Number_toString binStart ++ "-" ++ Number_toString binEnd.

(** [data.filter(d => d.siteEnergyUsedPerSqrFt > 0
     && d.siteEnergyUsedPerSqrFt < 1000 && d.propertyGFA > 100)
     .map(d => d.siteEnergyUsedPerSqrFt)] *)
Definition energyIntensityData (data : list BuildingData) : list Q :=
  map siteEnergyUsedPerSqrFt
    (filter (fun d => Qltb 0 d.(siteEnergyUsedPerSqrFt)
                      && Qltb d.(siteEnergyUsedPerSqrFt) 1000
                      && Qltb 100 d.(propertyGFA)) data).

(** [energyIntensityBins] of [renderEfficiencyAnalysis]. *)
Definition energyIntensityBins (data : list BuildingData) : Bins :=
  match energyIntensityData data with
  | i0 :: rest =>
      let maxIntensity := Math_max i0 rest in
      let binSize := binSizeFor maxIntensity 15 10 in
      fold_left
        (fun bins intensity => increment (intensityBinLabel intensity binSize) bins)
        (i0 :: rest) []
  | [] => []
  end.

End Histogram.

(* ================================================================== *)
(** * Export *)
(* ================================================================== *)

Module Reporting.

Inductive Format : Type := csv | json.

Inductive JsError : Type := TypeError (msg : string).

(** How a handler ends: normally, or with an exception that nothing
    catches; the state is the one reached at that point. *)
Inductive Outcome : Type :=
| Returns (s : AppState)
| Throws (e : JsError) (s : AppState).

(** A property value of a record. *)
Inductive Value : Type :=
| Str (v : string)
| Num (v : Q).

(** [Object.keys(item)] *)
Definition Object_keys (item : BuildingData) : list string :=
  [ "department"; "departmentName"; "propertyId"; "propertyName"; "yearEnding";
    "address1"; "city"; "stateProvince"; "postalCode"; "propertyGFA";
    "primaryPropertyType"; "yearBuilt"; "electricityRenewableUsedOnsite";
    "electricityGridPurchase"; "naturalGasUseTherms"; "propaneUseKbtu";
    "waterUseKgal"; "percentGreenPower"; "greenPowerKWh"; "siteEnergyUseKbtu";
    "leedCertified"; "location"; "totalElectricityUseKWh"; "elecUsedPerSqrFt";
    "siteEnergyUsedPerSqrFt"; "waterUsedPerSqrFt"; "hasRenewable" ].

(** [Object.values(item)] *)
Definition Object_values (item : BuildingData) : list Value :=
  [ Str item.(department); Str item.(departmentName); Str item.(propertyId);
    Str item.(propertyName); Str item.(yearEnding); Str item.(address1);
    Str item.(city); Str item.(stateProvince); Str item.(postalCode);
    Num item.(propertyGFA); Str item.(primaryPropertyType);
    Num item.(yearBuilt); Num item.(electricityRenewableUsedOnsite);
    Num item.(electricityGridPurchase); Num item.(naturalGasUseTherms);
    Num item.(propaneUseKbtu); Num item.(waterUseKgal);
    Num item.(percentGreenPower); Num item.(greenPowerKWh);
    Num item.(siteEnergyUseKbtu); Str item.(Building.leedCertified);
    Str item.(location); Num item.(totalElectricityUseKWh);
    Num item.(elecUsedPerSqrFt); Num item.(siteEnergyUsedPerSqrFt);
    Num item.(waterUsedPerSqrFt); Num item.(hasRenewable) ].

(** [arr.join(sep)] *)
Fixpoint join (sep : string) (arr : list string) : string :=
  match arr with
  | [] => EmptyString
  | [x] => x
  | x :: rest => x ++ sep ++ join sep rest
  end.

Definition newline : string := String (ascii_of_nat 10) EmptyString.

Definition isAlnum (c : ascii) : bool :=
  let n := nat_of_ascii c in
  ((48 <=? n) && (n <=? 57)) || ((65 <=? n) && (n <=? 90))
  || ((97 <=? n) && (n <=? 122)).

(** [label.replace(/[^a-zA-Z0-9]/g, '_')] *)
Fixpoint sanitize (label : string) : string :=
  match label with
  | EmptyString => EmptyString
  | String c rest => String (if isAlnum c then c else "_"%char) (sanitize rest)
  end.

Section Serializers.

(** The two serializers of the JavaScript runtime that the export relies
    on: the text of a number inside [join], and [JSON.stringify(data, null, 2)]. *)
Variable numberText : Q -> string.
Variable JSON_stringify : list BuildingData -> string.

(** [typeof val === 'string' && val.includes(',') ? `"${val}"` : val],
    as [join] then writes it. *)
Definition csvCell (val : Value) : string :=
  match val with
  | Str v => if includes v "," then dq ++ v ++ dq else v
  | Num v => numberText v
  end.

(** [[headers, ...rows].join('\n')] for a first record [first]. *)
Definition csvContent (first : BuildingData) (data : list BuildingData) : string :=
  let headers := join "," (Object_keys first) in
  let rows := map (fun item => join "," (map csvCell (Object_values item))) data in
  join newline (headers :: rows).

(** [exportFilteredData(format)].  [Object.keys(data[0])] throws a
    [TypeError] when [data[0]] is [undefined]. *)
Definition exportFilteredData (format : Format) (s : AppState) : Outcome :=
  let data := s.(filteredBuildingData) in
  match format with
  | csv =>
      match nth_error data 0 with
      | None => Throws (TypeError "Cannot convert undefined or null to object") s
      | Some first =>
          Returns (download
                     {| filename := "california_buildings_filtered.csv";
                        mimeType := "text/csv";
                        content := csvContent first data |} s)
      end
  | json =>
      Returns (download
                 {| filename := "california_buildings_filtered.json";
                    mimeType := "application/json";
                    content := JSON_stringify data |} s)
  end.

(** [window.exportBuildingsList(label, chartId)] *)
Definition exportBuildingsList (label chartId : string) (s : AppState) : Outcome :=
  let buildings := getRelatedBuildings label chartId s in
  if List.length buildings =? 0
  then Returns (showNotification "No buildings to export" warning s)
  else
    match nth_error buildings 0 with
    | None => Throws (TypeError "Cannot convert undefined or null to object") s
    | Some first =>
        Returns
          (showNotification
             ("Exported "
              ++ Histogram.Number_toString (Z.of_nat (List.length buildings))
              ++ " buildings for " ++ label)
             success
             (download
                {| filename := "buildings_" ++ sanitize label ++ ".csv";
                   mimeType := "text/csv";
                   content := csvContent first buildings |} s))
    end.

End Serializers.

End Reporting.

(* ================================================================== *)
(** * Sample records *)
(* ================================================================== *)

Module Samples.

(** A record as [fetchDataAndParse] builds it, with the fields that the
    filters and charts read given and every other field at its default. *)
Definition building (id name dept ptype cty : string)
    (year gfa energy water intensity : Q) (leed : string) : BuildingData :=
  {| department := "";
     departmentName := dept;
     propertyId := id;
     propertyName := name;
     yearEnding := "";
     address1 := "";
     city := cty;
     stateProvince := "";
     postalCode := "";
     propertyGFA := gfa;
     primaryPropertyType := ptype;
     yearBuilt := year;
     electricityRenewableUsedOnsite := 0;
     electricityGridPurchase := 0;
     naturalGasUseTherms := 0;
     propaneUseKbtu := 0;
     waterUseKgal := water;
     percentGreenPower := 0;
     greenPowerKWh := 0;
     siteEnergyUseKbtu := energy;
     Building.leedCertified := leed;
     location := "";
     totalElectricityUseKWh := 0;
     elecUsedPerSqrFt := 0;
     siteEnergyUsedPerSqrFt := intensity;
     waterUsedPerSqrFt := 0;
     hasRenewable := 0 |}.

Definition capitol : BuildingData :=
  building "P1" "State Capitol" "General Services" "Office" "Sacramento"
           1950 50000 120000 2500 48 "Gold".

Definition depot : BuildingData :=
  building "P2" "Supply Depot" "Transportation" "Warehouse" "Davis"
           0 8000 300 0 0 "".

Definition lab : BuildingData :=
  building "P3" "Water Lab" "Water Resources" "Laboratory" "Sacramento"
           1987 12000 90000 11999 120 "No".

Definition dataset : list BuildingData := [capitol; depot; lab].

(** Nothing selected, every range wide open. *)
Definition openFilters : FilterState :=
  {| departments := [];
     propertyTypes := [];
     yearRange := (NegInfinity, Infinity);
     energyRange := (Fin 0, Infinity);
     gfaRange := (Fin 0, Infinity);
     Filter.leedCertified := None;
     searchTerm := "";
     selectedCity := None |}.

(** The page right after loading [data]: [filteredBuildingData] is a copy of
    the dataset, nothing selected or shown. *)
Definition loaded (data : list BuildingData) (f : FilterState) : AppState :=
  {| allBuildingData := data;
     filteredBuildingData := data;
     currentFilters := f;
     chartInteractionState := initialInteractionState;
     drillDownPanel := None;
     modals := [];
     notifications := [];
     downloads := [] |}.

End Samples.

(* ================================================================== *)
(** * Normalizer *)
(* ================================================================== *)

Module Normalizer.

(** A double as [parseFloat] and JSON deliver it: [NaN] or a number. *)
Inductive Double : Type :=
| NaN
| Val (n : number).

(** A property value of a parsed JSON item, by [typeof]. *)
Inductive RawValue : Type :=
| Undefined
| Null
| RawNumber (d : Double)
| RawString (s : string)
| RawOther.

(** [isNaN(d) ? 0 : d] *)
Definition orZero (d : Double) : Double :=
  match d with
  | NaN => Val (Fin 0)
  | Val n => Val n
  end.

Section Parsing.

(** [parseFloat] of the JavaScript runtime. *)
Variable parseFloat : string -> Double.

(** [getNumericValue(value)] *)
Definition getNumericValue (value : RawValue) : Double :=
  match value with
  | Undefined => Val (Fin 0)
  | Null => Val (Fin 0)
  | RawNumber d => orZero d
  | RawString s =>
      if String.eqb (trim s) "" then Val (Fin 0)
      else orZero (parseFloat (Histogram.removeCommas s))
  | RawOther => Val (Fin 0)
  end.

End Parsing.

End Normalizer.

(* ================================================================== *)
(** * Aggregations of the chart renderers *)
(* ================================================================== *)

Module Aggregation.

Import Histogram.

(** [Array.prototype.sort(compare)], which is stable: an element goes behind
    those it does not have to precede.  [after e h] is [compare(e, h) > 0]. *)
Fixpoint insertBy {A : Type} (after : A -> A -> bool) (e : A) (sorted : list A)
  : list A :=
  match sorted with
  | [] => [e]
  | h :: rest => if after e h then h :: insertBy after e rest else e :: sorted
  end.

Definition sortWith {A : Type} (after : A -> A -> bool) (arr : list A) : list A :=
  fold_right (insertBy after) [] arr.

(** The value of a key that is an array index (a canonical decimal numeral
    below [2^32 - 1]); such keys are enumerated first. *)
Definition arrayIndex (key : string) : option Z :=
  match readDigits key None with
  | Some v =>
      if String.eqb (Number_toString v) key && (v <=? 4294967294)%Z
      then Some v else None
  | None => None
  end.

Definition isArrayIndex (key : string) : bool :=
  match arrayIndex key with
  | Some _ => true
  | None => false
  end.

Definition indexOf (key : string) : Z :=
  match arrayIndex key with
  | Some v => v
  | None => 0%Z
  end.

(** [Object.entries(counts)]: array-index keys in ascending order, then the
    other keys in insertion order. *)
Definition Object_entries (counts : Bins) : Bins :=
  sortWith (fun e h => (indexOf (fst h) <? indexOf (fst e))%Z)
    (filter (fun kv => isArrayIndex (fst kv)) counts)
  ++ filter (fun kv => negb (isArrayIndex (fst kv))) counts.

(** [s || fallback] *)
Definition orLabel (s fallback : string) : string :=
  if truthy s then s else fallback.

(** [data.reduce((acc, item) => { acc[k] = (acc[k] || 0) + 1; return acc }, {})]
    for the key [k = labelOf(item)].  Keys are taken to be none of the names
    that every object inherits ([constructor], [toString], ...). *)
Definition countBy (labelOf : BuildingData -> string) (data : list BuildingData)
  : Bins :=
  fold_left (fun acc item => increment (labelOf item) acc) data [].

(** The property names every object literal inherits from
    [Object.prototype]: for such a key [acc[k]] finds the inherited member
    instead of a count. *)
Definition inheritedNames : list string :=
  ["constructor"; "__proto__"; "hasOwnProperty"; "isPrototypeOf";
   "propertyIsEnumerable"; "toLocaleString"; "toString"; "valueOf";
   "__defineGetter__"; "__defineSetter__"; "__lookupGetter__";
   "__lookupSetter__"].

(** No record is labelled with an inherited name. *)
Definition ownKeys (labelOf : BuildingData -> string) (data : list BuildingData)
  : bool :=
  forallb
    (fun item => negb (existsb (String.eqb (labelOf item)) inheritedNames))
    data.

(** [.sort(([, a], [, b]) => b - a)] on entries. *)
Definition byCountDescending (entries : Bins) : Bins :=
  sortWith (fun e h => snd e <? snd h) entries.

Definition departmentLabel (item : BuildingData) : string :=
  orLabel item.(departmentName) "Unknown Department".

Definition typeLabel (item : BuildingData) : string :=
  orLabel item.(primaryPropertyType) "Unknown Type".

Definition cityLabel (item : BuildingData) : string :=
  orLabel item.(city) "Unknown City".

(** [sortedDepts] and [sortedTypes] of [renderOverviewCharts], [sortedCities]
    of [renderGeographicFootprint]. *)
Definition sortedDepts (data : list BuildingData) : Bins :=
  firstn 15 (byCountDescending (Object_entries (countBy departmentLabel data))).

Definition sortedTypes (data : list BuildingData) : Bins :=
  firstn 10 (byCountDescending (Object_entries (countBy typeLabel data))).

Definition sortedCities (data : list BuildingData) : Bins :=
  firstn 20 (byCountDescending (Object_entries (countBy cityLabel data))).

(** The [if] chain of [renderBuildingAge]. *)
Definition yearBinOf (year : Q) : string :=
  if Qeqb year 0 || Qeqb year 1899 then "Unknown/Pre-1899"
  else if Qltb year 1900 then "Pre-1900"
  else if Qltb year 1920 then "1900-1919"
  else if Qltb year 1940 then "1920-1939"
  else if Qltb year 1960 then "1940-1959"
  else if Qltb year 1980 then "1960-1979"
  else if Qltb year 2000 then "1980-1999"
  else "2000-Present".

Definition emptyYearBins : Bins :=
  [("Pre-1900", 0); ("1900-1919", 0); ("1920-1939", 0); ("1940-1959", 0);
   ("1960-1979", 0); ("1980-1999", 0); ("2000-Present", 0);
   ("Unknown/Pre-1899", 0)].

(** [yearBins] of [renderBuildingAge] after the [forEach]. *)
Definition yearBins (data : list BuildingData) : Bins :=
  fold_left (fun bins d => increment (yearBinOf d.(yearBuilt)) bins)
    data emptyYearBins.

(** The [if] chain of [renderGreenPowerCharts] for a property that uses
    electricity. *)
Definition greenBinOf (percent : Q) : string :=
  if Qeqb percent 0 then "0% Usage"
  else if Qltb 0 percent && negb (Qltb 25 percent) then "1-25%"
  else if Qltb 25 percent && negb (Qltb 50 percent) then "26-50%"
  else if Qltb 50 percent && negb (Qltb 75 percent) then "51-75%"
  else if Qltb 75 percent && negb (Qltb 100 percent) then "76-100%"
  else "Not Reported/Applicable".

Definition emptyGreenPowerBins : Bins :=
  [("0% Usage", 0); ("1-25%", 0); ("26-50%", 0); ("51-75%", 0);
   ("76-100%", 0); ("Not Reported/Applicable", 0)].

(** [greenPowerBins] of [renderGreenPowerCharts] after the [forEach]. *)
Definition greenPowerBins (data : list BuildingData) : Bins :=
  fold_left
    (fun bins d =>
       if Qltb 0 d.(totalElectricityUseKWh)
       then increment (greenBinOf d.(percentGreenPower)) bins
       else bins)
    data emptyGreenPowerBins.

(** [leedCounts] of [renderGreenPowerCharts] after the [forEach]. *)
Definition leedCounts (data : list BuildingData) : Bins :=
  fold_left
    (fun counts item =>
       if isLeedCertified item then increment "Certified" counts
       else increment "Not Certified" counts)
    data [("Certified", 0); ("Not Certified", 0)].

(** [topEnergyConsumers] of [renderEnergyConsumptionCharts]. *)
Definition topEnergyConsumers (data : list BuildingData) : list BuildingData :=
  firstn 10
    (sortWith (fun a b => Qltb a.(siteEnergyUseKbtu) b.(siteEnergyUseKbtu))
       (filter (fun d => Qltb 0 d.(siteEnergyUseKbtu)) data)).

(** [topWaterConsumers] of [renderWaterUsageCharts]. *)
Definition topWaterConsumers (data : list BuildingData) : list BuildingData :=
  firstn 10
    (sortWith (fun a b => Qltb a.(waterUseKgal) b.(waterUseKgal))
       (filter (fun d => Qltb 0 d.(waterUseKgal)) data)).





(** The records that [renderEnergyConsumptionCharts] plots on the scatter
    chart, in plotting order ([filteredScatterData] before the [map] that
    turns each record into a point). *)
Definition scatterPlotted (d : BuildingData) : bool :=
  Qltb 100 d.(propertyGFA) && Qltb d.(propertyGFA) 1000000
  && Qltb 1000 d.(siteEnergyUseKbtu) && Qltb d.(siteEnergyUseKbtu) 50000000.

Definition filteredScatterData (data : list BuildingData) : list BuildingData :=
  filter scatterPlotted data.

End Aggregation.

(* ================================================================== *)
(** * Further filter and start-up handlers *)
(* ================================================================== *)

Definition set_searchTerm (v : string) (f : FilterState) : FilterState :=
  {| departments := f.(departments);
     propertyTypes := f.(propertyTypes);
     yearRange := f.(yearRange);
     energyRange := f.(energyRange);
     gfaRange := f.(gfaRange);
     Filter.leedCertified := f.(Filter.leedCertified);
     searchTerm := v;
     selectedCity := f.(selectedCity) |}.

Definition set_leedCertified (v : option string) (f : FilterState) : FilterState :=
  {| departments := f.(departments);
     propertyTypes := f.(propertyTypes);
     yearRange := f.(yearRange);
     energyRange := f.(energyRange);
     gfaRange := f.(gfaRange);
     Filter.leedCertified := v;
     searchTerm := f.(searchTerm);
     selectedCity := f.(selectedCity) |}.

(** The [switch (filterType)] of [clearFilter]. *)
Definition cleared (filterType : string) (f : FilterState) : FilterState :=
  if String.eqb filterType "departments" then set_departments [] f
  else if String.eqb filterType "propertyTypes" then set_propertyTypes [] f
  else if String.eqb filterType "searchTerm" then set_searchTerm "" f
  else if String.eqb filterType "selectedCity" then set_selectedCity None f
  else if String.eqb filterType "leedCertified" then set_leedCertified None f
  else f.

(** [clearFilter(filterType)], the action of a filter chip's remove button. *)
Definition clearFilter (filterType : string) (s : AppState) : AppState :=
  updateFilteredData
    (set_currentFilters (cleared filterType s.(currentFilters)) s).

(** [window.resetDepartmentFilter()] *)
Definition resetDepartmentFilter (s : AppState) : AppState :=
  updateFilteredData
    (set_currentFilters (set_departments [] s.(currentFilters)) s).

(** [window.resetPropertyTypeFilter()] *)
Definition resetPropertyTypeFilter (s : AppState) : AppState :=
  updateFilteredData
    (set_currentFilters (set_propertyTypes [] s.(currentFilters)) s).

(** [window.filterToPropertyType(propertyType)] *)
Definition filterToPropertyType (propertyType : string) (s : AppState)
  : AppState :=
  showNotification ("Filtered to property type: " ++ propertyType) success
    (updateFilteredData
       (set_currentFilters
          (set_propertyTypes [propertyType] s.(currentFilters)) s)).

(** [Math.min(...ys)] and [Math.max(...ys)] on any argument list: without
    arguments they are [Infinity] and [-Infinity]. *)
Definition Math_min_spread (ys : list Q) : number :=
  match ys with
  | [] => Infinity
  | y :: rest => Fin (Math_min y rest)
  end.

Definition Math_max_spread (ys : list Q) : number :=
  match ys with
  | [] => NegInfinity
  | y :: rest => Fin (Math_max y rest)
  end.

(** [allBuildingData.map(b => b.yearBuilt).filter(y => y > 1800 && y < 2030)] *)
Definition plausibleYears (data : list BuildingData) : list Q :=
  filter (fun y => Qltb 1800 y && Qltb y 2030) (map yearBuilt data).

(** [initializeFilters()]: of what it does only the default year range is
    state; the check boxes and the city options it builds are page content. *)
Definition initializeFilters (s : AppState) : AppState :=
  let years := plausibleYears s.(allBuildingData) in
  let minYear := Math_min_spread years in
  let maxYear := Math_max_spread years in
  set_currentFilters (set_yearRange (minYear, maxYear) s.(currentFilters)) s.

(** The module-level variables once the dataset is fetched. *)
Definition fetched (data : list BuildingData) : AppState :=
  {| allBuildingData := data;
     filteredBuildingData := data;
     currentFilters := initialFilters;
     chartInteractionState := initialInteractionState;
     drillDownPanel := None;
     modals := [];
     notifications := [];
     downloads := [] |}.

(** [initializeApp()] from the fetched records on: [None] is the error page
    shown for an empty dataset; otherwise the active set is a copy of the
    dataset and the filters are initialised. *)
Definition initializeApp (data : list BuildingData) : option AppState :=
  if List.length data =? 0 then None
  else Some (initializeFilters (fetched data)).

Module ChartExport.

Import Reporting Aggregation.

(** An exported object: its keys and its values, in property order. *)
Definition ExportItem : Type := (list string * list Value)%type.

Definition countItem (labelKey : string) (entry : string * nat) : ExportItem :=
  ([labelKey; "PropertyCount"],
   [Str (fst entry); Num (inject_Z (Z.of_nat (snd entry)))]).

Definition buildingItem (item : BuildingData) : ExportItem :=
  (Object_keys item, Object_values item).

(** The [switch (type)] of [exportChartData]: the objects to export and the
    file name. *)
Definition dataToExport (type : string) (s : AppState)
  : list ExportItem * string :=
  if String.eqb type "departments"
  then (map (countItem "Department")
          (Object_entries (countBy departmentLabel s.(filteredBuildingData))),
        "department_distribution.csv")
  else if String.eqb type "propertyTypes"
  then (map (countItem "PropertyType")
          (Object_entries (countBy typeLabel s.(filteredBuildingData))),
        "property_type_distribution.csv")
  else (map buildingItem s.(filteredBuildingData), "filtered_buildings.csv").

Section Serializers.

Variable numberText : Q -> string.

(** [window.exportChartData(type)].  The header row is
    [Object.keys(dataToExport[0] || {}).join(',')]. *)
Definition exportChartData (type : string) (s : AppState) : AppState :=
  let '(items, file) := dataToExport type s in
  let headers :=
    join "," (match nth_error items 0 with
              | Some first => fst first
              | None => []
              end) in
  let rows := map (fun item => join "," (map (csvCell numberText) (snd item))) items in
  let content := join newline (headers :: rows) in
  showNotification
    ("Exported " ++ Histogram.Number_toString (Z.of_nat (List.length items))
     ++ " records to " ++ file)
    success
    (download {| filename := file; mimeType := "text/csv"; content := content |} s).

End Serializers.

End ChartExport.

(** The canvases of the building-age, green-power, department and scatter
    charts. *)
Definition ageChartId : string := canvasIdOf "buildingAgeDistribution".
Definition greenPowerChartId : string := canvasIdOf "greenPowerDistribution".
Definition deptChartId : string := canvasIdOf "deptDistribution".
Definition scatterChartId : string := canvasIdOf "energyVsGfa".

(** A filter state that restricts nothing. *)
Definition unrestricted : FilterState :=
  {| departments := [];
     propertyTypes := [];
     yearRange := (NegInfinity, Infinity);
     energyRange := (NegInfinity, Infinity);
     gfaRange := (NegInfinity, Infinity);
     Filter.leedCertified := None;
     searchTerm := "";
     selectedCity := None |}.

Module AggregationSpec.

Import Histogram.

(** [shown] is a ranked tally of [data] by [labelOf], cut at [limit]
    entries: no more than [limit] entries, no label twice, counts from the
    largest down, each count the number of records under the label and at
    least 1, and no label left out that has more records than one shown. *)
Definition RankedTally (limit : nat) (labelOf : BuildingData -> string)
    (data : list BuildingData) (shown : Bins) : Prop :=
  List.length shown <= limit
  /\ NoDup (map fst shown)
  /\ StronglySorted (fun a b => snd b <= snd a) shown
  /\ (forall label n, In (label, n) shown ->
        n = occurrences labelOf label data /\ 1 <= n)
  /\ (forall label, ~ In label (map fst shown) ->
        occurrences labelOf label data = 0
        \/ (List.length shown = limit
            /\ forall entry, In entry shown ->
                 occurrences labelOf label data <= snd entry)).

(** [top] are the first [limit] records of [data] with a positive [key],
    from the largest key down. *)
Definition TopBy (limit : nat) (key : BuildingData -> Q)
    (data top : list BuildingData) : Prop :=
  List.length top
  = Nat.min limit (List.length (filter (fun d => Qltb 0 (key d)) data))
  /\ StronglySorted (fun a b => (key b <= key a)%Q) top
  /\ (forall d, In d top -> In d data /\ (0 < key d)%Q)
  /\ (forall d, In d data -> (0 < key d)%Q ->
        In d top \/ forall x, In x top -> (key d <= key x)%Q).

End AggregationSpec.

(** The operations on the comparison set, and a run of them. *)
Inductive ComparisonOp : Type :=
| Add (id : string)
| Remove (id : string)
| ClearAll.

Definition applyComparisonOp (op : ComparisonOp) (s : AppState) : AppState :=
  match op with
  | Add id => addToComparison id s
  | Remove id => removeFromComparison id s
  | ClearAll => clearAllComparison s
  end.

Definition runComparisonOps (ops : list ComparisonOp) (s : AppState) : AppState :=
  fold_left (fun s op => applyComparisonOp op s) ops s.

(* ================================================================== *)
(** * Renewable adoption by property type *)
(* ================================================================== *)

Module GroupRate.

Import Aggregation.

(** [Record<string, { total: number; withRenewable: number }>], keys in
    insertion order. *)
Definition Stats : Type := list (string * (nat * nat)).

(** One step of the [reduce] in [renderEfficiencyAnalysis]: create the entry
    of [type] when it is missing, count the building, and count it as
    renewable when it is.  As for [countBy], keys are taken to be none of
    the inherited names. *)
Fixpoint tally (type : string) (renewable : bool) (acc : Stats) : Stats :=
  match acc with
  | [] => [(type, (1, if renewable then 1 else 0))]
  | (k, (total, withRenewable)) :: rest =>
      if String.eqb k type
      then (k, (total + 1, if renewable then withRenewable + 1 else withRenewable))
             :: rest
      else (k, (total, withRenewable)) :: tally type renewable rest
  end.

(** [hasRenewable > 0] *)
Definition isRenewable (building : BuildingData) : bool :=
  Qltb 0 building.(hasRenewable).

(** [renewableByType] *)
Definition renewableByType (data : list BuildingData) : Stats :=
  fold_left
    (fun acc building => tally (typeLabel building) (isRenewable building) acc)
    data [].

(** [Object.entries] of such an object, in the key order of JavaScript. *)
Definition entriesOf (stats : Stats) : Stats :=
  sortWith (fun e h => (indexOf (fst h) <? indexOf (fst e))%Z)
    (filter (fun kv => isArrayIndex (fst kv)) stats)
  ++ filter (fun kv => negb (isArrayIndex (fst kv))) stats.

Record AdoptionRow : Type := mkAdoptionRow {
  type : string;
  adoptionRate : Q;
  total : nat;
  withRenewable : nat
}.

(** [([type, stats]) => ({ type, adoptionRate: (stats.withRenewable /
    stats.total) * 100, total: stats.total, withRenewable:
    stats.withRenewable })] *)
Definition adoptionRow (entry : string * (nat * nat)) : AdoptionRow :=
  {| type := fst entry;
     adoptionRate :=
       (inject_Z (Z.of_nat (snd (snd entry)))
        / inject_Z (Z.of_nat (fst (snd entry))) * 100)%Q;
     total := fst (snd entry);
     withRenewable := snd (snd entry) |}.

(** [renewableAdoptionData]: the types with at least 5 buildings, by
    adoption rate from the highest down, the first 12. *)
Definition renewableAdoptionData (data : list BuildingData) : list AdoptionRow :=
  firstn 12
    (sortWith (fun a b => Qltb a.(adoptionRate) b.(adoptionRate))
       (map adoptionRow
          (filter (fun entry => 5 <=? fst (snd entry))
             (entriesOf (renewableByType data))))).

(** The buildings of a type, and the renewable ones among them. *)
Definition buildingsOfType (label : string) (data : list BuildingData) : nat :=
  List.length (filter (fun b => String.eqb (typeLabel b) label) data).

Definition renewableOfType (label : string) (data : list BuildingData) : nat :=
  List.length
    (filter (fun b => String.eqb (typeLabel b) label && isRenewable b) data).

(** [stats[label]], zeros when the key is missing. *)
Fixpoint statsOf (label : string) (stats : Stats) : nat * nat :=
  match stats with
  | [] => (0, 0)
  | (k, v) :: rest => if String.eqb k label then v else statsOf label rest
  end.

End GroupRate.

(* ================================================================== *)
(** * Properties *)
(* ================================================================== *)

Section JSFacts.

Lemma Qltb_false_iff (x y : Q) : Qltb x y = false <-> (y <= x)%Q.
Proof.
  unfold Qltb, Qle. rewrite Z.ltb_ge. reflexivity.
Qed.

Lemma lt_false_iff (a b : number) : lt a b = false <-> le b a.
Proof.
  destruct a, b; simpl; try rewrite Qltb_false_iff; intuition congruence.
Qed.

Lemma Array_includes_In (arr : list string) (x : string) :
  Array_includes arr x = true <-> In x arr.
Proof.
  unfold Array_includes. rewrite existsb_exists. split.
  - intros (y & Hy & E). apply String.eqb_eq in E. now subst.
  - intros H. exists x. split; [assumption | apply String.eqb_refl].
Qed.

Lemma prefix_app (sub s : string) :
  String.prefix sub s = true <-> exists b, s = (sub ++ b)%string.
Proof.
  revert s. induction sub as [| c sub IH]; intros s; simpl.
  - destruct s; split; eauto.
  - destruct s as [| d s]; simpl.
    + split; [discriminate | intros (b & E); discriminate].
    + destruct (Ascii.ascii_dec c d) as [-> | N].
      * rewrite IH. split; intros (b & E); exists b; congruence.
      * split; [discriminate | intros (b & E); congruence].
Qed.

Lemma includes_nil (sub : string) :
  includes "" sub = String.prefix sub "" || false.
Proof. reflexivity. Qed.

Lemma includes_cons (c : ascii) (s sub : string) :
  includes (String c s) sub = String.prefix sub (String c s) || includes s sub.
Proof. reflexivity. Qed.

Lemma includes_Substring (s sub : string) :
  includes s sub = true <-> Substring sub s.
Proof.
  unfold Substring. induction s as [| c s IH].
  - rewrite includes_nil, orb_false_r, prefix_app. split.
    + intros (b & E). exists "", b. exact E.
    + intros (a & b & E). destruct a; simpl in E.
      * now exists b.
      * discriminate.
  - rewrite includes_cons, orb_true_iff, prefix_app, IH. split.
    + intros [(b & E) | (a & b & E)].
      * exists "", b. exact E.
      * exists (String c a), b. simpl. now rewrite E.
    + intros (a & b & E). destruct a as [| d a]; simpl in E.
      * left. now exists b.
      * right. exists a, b. congruence.
Qed.

Lemma truthy_false (s : string) : truthy s = false <-> s = "".
Proof.
  unfold truthy. rewrite negb_false_iff. apply String.eqb_eq.
Qed.

Lemma truthy_true (s : string) : truthy s = true <-> s <> "".
Proof.
  unfold truthy. rewrite negb_true_iff. apply String.eqb_neq.
Qed.

End JSFacts.

Section FilterEngine.

Variable f : FilterState.

Lemma membership_check (sel : list string) (x : string) :
  (0 <? List.length sel) && negb (Array_includes sel x) = false
  <-> sel = [] \/ In x sel.
Proof.
  rewrite andb_false_iff, negb_false_iff, Array_includes_In, Nat.ltb_ge.
  split.
  - intros [H | H]; [left | now right].
    destruct sel; [reflexivity | simpl in H; lia].
  - intros [-> | H]; [left; simpl; lia | now right].
Qed.

Lemma range_check (x : Q) (r : number * number) :
  lt (Fin x) (fst r) || gt (Fin x) (snd r) = false <-> inRange x r.
Proof.
  unfold inRange, gt.
  rewrite orb_false_iff, !lt_false_iff. reflexivity.
Qed.

Lemma leed_check (r : BuildingData) :
  match f.(Filter.leedCertified) with
  | Some v =>
      truthy v
      && ((String.eqb v "certified" && negb (isLeedCertified r))
          || (String.eqb v "not-certified" && isLeedCertified r))
  | None => false
  end = false
  <-> leedOk f r.
Proof.
  unfold leedOk. destruct (Filter.leedCertified f) as [v |].
  - destruct (String.eqb_spec v "certified") as [-> | N1];
      [| destruct (String.eqb_spec v "not-certified") as [-> | N2]];
      destruct (isLeedCertified r); simpl; rewrite ?andb_false_r;
      intuition (try congruence; try discriminate).
  - intuition discriminate.
Qed.

Lemma search_check (r : BuildingData) :
  truthy f.(searchTerm)
  && negb (includes (searchableText r) (toLowerCase f.(searchTerm))) = false
  <-> searchOk f r.
Proof.
  unfold searchOk.
  rewrite andb_false_iff, negb_false_iff, truthy_false, includes_Substring.
  reflexivity.
Qed.

Lemma city_check (r : BuildingData) :
  match f.(selectedCity) with
  | Some c => truthy c && negb (String.eqb r.(city) c)
  | None => false
  end = false
  <-> cityOk f r.
Proof.
  unfold cityOk. destruct (selectedCity f) as [c |].
  - rewrite andb_false_iff, negb_false_iff, truthy_false, String.eqb_eq.
    split.
    + intros [E | E] c' [= <-] N; [contradiction | assumption].
    + intros H. destruct (String.eqb_spec c "") as [E | N];
        [now left | right; now apply H].
  - split; [| reflexivity]. intros _ c [=].
Qed.

(** The callback of [applyFilters] accepts exactly the records that
    satisfy every predicate of the contract. *)
Lemma keep_satisfiesAll (r : BuildingData) :
  keep f r = true <-> satisfiesAll f r.
Proof.
  unfold satisfiesAll, departmentOk, propertyTypeOk.
  rewrite <- !membership_check, <- !range_check, <- leed_check,
    <- search_check, <- city_check.
  unfold keep.
  repeat match goal with
         | |- context [if ?c then false else _] =>
             destruct c; [intuition discriminate |]
         end.
  intuition reflexivity.
Qed.

End FilterEngine.

(* ------------------------------------------------------------------ *)
(** ** Filter engine: stability and exactness *)

Section Filtering.

Context {A : Type}.

Lemma filter_Subsequence (p : A -> bool) (l : list A) :
  Subsequence (filter p l) l.
Proof.
  induction l as [| x l IH]; simpl.
  - constructor.
  - destruct (p x); now constructor.
Qed.

Lemma filter_all (p : A -> bool) (l : list A) :
  (forall x, In x l -> p x = true) -> filter p l = l.
Proof.
  induction l as [| x l IH]; intros H; simpl.
  - reflexivity.
  - rewrite (H x (or_introl eq_refl)). f_equal.
    apply IH. intros y Hy. apply H. now right.
Qed.

Lemma filter_Selection (p : A -> bool) (P : A -> Prop) (l : list A) :
  (forall x, p x = true <-> P x) -> Selection P (filter p l) l.
Proof.
  intros H. induction l as [| x l IH]; simpl.
  - constructor.
  - destruct (p x) eqn:E.
    + constructor; [now apply H | assumption].
    + constructor; [| assumption].
      intros HP. apply H in HP. congruence.
Qed.

End Filtering.

(** Membership in the active set. *)
Lemma applyFilters_In (f : FilterState) (data : list BuildingData)
    (r : BuildingData) :
  In r (applyFilters f data) <-> In r data /\ satisfiesAll f r.
Proof.
  unfold applyFilters. rewrite filter_In, keep_satisfiesAll. reflexivity.
Qed.

(** C1.  For every record array and every filter state, the result of
    [applyFilters] is a subsequence of the input (input order, no record used
    twice); it takes exactly the positions whose record satisfies every
    predicate of the contract, AND-combined; so a record is in the output if
    and only if it is in the input and satisfies them all. *)
Theorem applyFilters_stable_exact (f : FilterState) (data : list BuildingData) :
  Subsequence (applyFilters f data) data
  /\ Selection (satisfiesAll f) (applyFilters f data) data
  /\ (forall r, In r (applyFilters f data) <-> In r data /\ satisfiesAll f r).
Proof.
  unfold applyFilters. split; [| split].
  - apply filter_Subsequence.
  - apply filter_Selection. intros r. apply keep_satisfiesAll.
  - intros r. apply (applyFilters_In f data r).
Qed.

(** C2.  With nothing selected (no departments, no property types, LEED
    filter [null], empty search term, no city) and ranges that contain the
    year, energy use and floor area of every record, [applyFilters] returns
    its input unchanged. *)
Theorem applyFilters_empty_state_identity
    (f : FilterState) (data : list BuildingData) :
  f.(departments) = [] ->
  f.(propertyTypes) = [] ->
  f.(Filter.leedCertified) = None ->
  f.(searchTerm) = "" ->
  f.(selectedCity) = None ->
  (forall r, In r data ->
     inRange r.(yearBuilt) f.(yearRange)
     /\ inRange r.(siteEnergyUseKbtu) f.(energyRange)
     /\ inRange r.(propertyGFA) f.(gfaRange)) ->
  applyFilters f data = data.
Proof.
  intros Hd Ht Hl Hs Hc Hr. unfold applyFilters.
  apply filter_all. intros r Hin. apply keep_satisfiesAll.
  destruct (Hr r Hin) as (Hy & He & Hg).
  unfold satisfiesAll, departmentOk, propertyTypeOk, leedOk, searchOk, cityOk.
  rewrite Hd, Ht, Hl, Hs, Hc.
  repeat split; auto; try discriminate;
    try apply Hy; try apply He; try apply Hg.
Qed.

Lemma applyFilters_empty_state_identity_witness :
  applyFilters Samples.openFilters Samples.dataset = Samples.dataset.
Proof.
  apply (applyFilters_empty_state_identity Samples.openFilters Samples.dataset);
    try reflexivity.
  intros r Hin. simpl in Hin.
  destruct Hin as [<- | [<- | [<- | []]]]; vm_compute; intuition discriminate.
Defined.

(* ------------------------------------------------------------------ *)
(** ** Click handlers and the filter state *)

Section Handlers.


Lemma bool_eq_by_false (a b : bool) :
  (a = false <-> b = false) -> a = b.
Proof. destruct a, b; intuition congruence. Qed.

(** The department test of [applyFilters] only reads which names are
    selected, not their order or multiplicity. *)
Lemma department_test_ext (l1 l2 : list string) (x : string) :
  (forall d, In d l1 <-> In d l2) ->
  (0 <? List.length l1) && negb (Array_includes l1 x)
  = (0 <? List.length l2) && negb (Array_includes l2 x).
Proof.
  intros H. apply bool_eq_by_false. rewrite !membership_check.
  assert (E : l1 = [] <-> l2 = []).
  { split; intros ->.
    - destruct l2 as [| d l2]; [reflexivity |].
      destruct (proj2 (H d) (or_introl eq_refl)).
    - destruct l1 as [| d l1]; [reflexivity |].
      destruct (proj1 (H d) (or_introl eq_refl)). }
  rewrite E, (H x). reflexivity.
Qed.





Lemma In_without (name d : string) (l : list string) :
  In d (filter (fun d => negb (String.eqb d name)) l) <-> In d l /\ d <> name.
Proof.
  rewrite filter_In, negb_true_iff, String.eqb_neq. reflexivity.
Qed.

Lemma without_absent (name : string) (l : list string) :
  ~ In name l -> filter (fun d => negb (String.eqb d name)) l = l.
Proof.
  intros H. apply filter_all. intros d Hd.
  apply negb_true_iff, String.eqb_neq. intros ->. contradiction.
Qed.

Lemma toggled_twice_members (name : string) (l : list string) (d : string) :
  In d (toggled name (toggled name l)) <-> In d l.
Proof.
  unfold toggled at 2. destruct (Array_includes l name) eqn:E.
  - apply Array_includes_In in E.
    unfold toggled.
    replace (Array_includes (filter _ l) name) with false.
    + rewrite in_app_iff, In_without. simpl.
      destruct (String.eqb_spec d name) as [-> | N];
        intuition (try congruence).
    + symmetry. apply not_true_is_false. intros H.
      apply Array_includes_In, In_without in H. now destruct H.
  - unfold toggled.
    replace (Array_includes (l ++ [name]) name) with true.
    + rewrite In_without, in_app_iff. simpl.
      assert (~ In name l).
      { intros H. apply Array_includes_In in H. congruence. }
      intuition (subst; try congruence; try contradiction).
    + symmetry. apply Array_includes_In, in_app_iff. right. now left.
Qed.

Lemma toggled_twice_absent (name : string) (l : list string) :
  ~ In name l -> toggled name (toggled name l) = l.
Proof.
  intros H. unfold toggled at 2.
  replace (Array_includes l name) with false.
  - unfold toggled.
    replace (Array_includes (l ++ [name]) name) with true.
    + rewrite filter_app, without_absent by assumption. simpl.
      rewrite String.eqb_refl. simpl. apply app_nil_r.
    + symmetry. apply Array_includes_In, in_app_iff. right. now left.
  - symmetry. apply not_true_is_false. intros E.
    now apply Array_includes_In in E.
Qed.

End Handlers.


(** Every recomputation leaves the active set in step with the filters: it
    is [applyFilters] of the dataset under the current filter state. *)
Lemma updateFilteredData_in_step (s : AppState) :
  let s' := updateFilteredData s in
  filteredBuildingData s'
  = applyFilters (currentFilters s') (allBuildingData s').
Proof. reflexivity. Qed.




(** C9.  [handleGreenPowerBinClick] changes no field of the filter state
    other than [energyRange]: "0% Usage" sets it to [0, 0], "1-25%" sets it
    to [1, 25], and any other label -- the remaining bins of the chart
    among them -- leaves the filter state as it was. *)
Theorem handleGreenPowerBinClick_frame (binLabel : string) (s : AppState) :
  let f := currentFilters s in
  let f' := currentFilters (handleGreenPowerBinClick binLabel s) in
  f' = set_energyRange f'.(energyRange) f
  /\ (binLabel = "0% Usage" -> f'.(energyRange) = (Fin 0, Fin 0))
  /\ (binLabel = "1-25%" -> f'.(energyRange) = (Fin 1, Fin 25))
  /\ (binLabel <> "0% Usage" -> binLabel <> "1-25%" -> f' = f)
  /\ Forall (fun other =>
               currentFilters (handleGreenPowerBinClick other s) = f)
       ["26-50%"; "51-75%"; "76-100%"; "Not Reported/Applicable"].
Proof.
  cbv zeta. unfold handleGreenPowerBinClick. simpl.
  split; [| split; [| split; [| split]]].
  - destruct (String.eqb_spec binLabel "0% Usage");
      [| destruct (String.eqb_spec binLabel "1-25%")];
      try reflexivity.
    now destruct (currentFilters s).
  - now intros ->.
  - now intros ->.
  - intros N1 N2.
    apply String.eqb_neq in N1, N2. now rewrite N1, N2.
  - repeat constructor.
Qed.

(* ------------------------------------------------------------------ *)
(** ** Reset *)

Section MinMax.

Lemma Qltb_true_iff (x y : Q) : Qltb x y = true <-> (x < y)%Q.
Proof. unfold Qltb, Qlt. apply Z.ltb_lt. Qed.

Lemma Qeqb_true_iff (x y : Q) : Qeqb x y = true <-> (x == y)%Q.
Proof. unfold Qeqb, Qeq. apply Z.eqb_eq. Qed.

Lemma Qmin2_cases (a b : Q) :
  (Qmin2 a b = a \/ Qmin2 a b = b)
  /\ (Qmin2 a b <= a)%Q /\ (Qmin2 a b <= b)%Q.
Proof.
  unfold Qmin2. destruct (Qltb b a) eqn:E.
  - apply Qltb_true_iff in E. repeat split; auto.
    + now apply Qlt_le_weak.
    + apply Qle_refl.
  - apply Qltb_false_iff in E. repeat split; auto. apply Qle_refl.
Qed.

Lemma Qmax2_cases (a b : Q) :
  (Qmax2 a b = a \/ Qmax2 a b = b)
  /\ (a <= Qmax2 a b)%Q /\ (b <= Qmax2 a b)%Q.
Proof.
  unfold Qmax2. destruct (Qltb a b) eqn:E.
  - apply Qltb_true_iff in E. repeat split; auto.
    + now apply Qlt_le_weak.
    + apply Qle_refl.
  - apply Qltb_false_iff in E. repeat split; auto. apply Qle_refl.
Qed.

(** [Math.min] returns one of its arguments, below all of them. *)
Lemma Math_min_spec (y : Q) (ys : list Q) :
  In (Math_min y ys) (y :: ys)
  /\ forall z, In z (y :: ys) -> (Math_min y ys <= z)%Q.
Proof.
  unfold Math_min. revert y.
  induction ys as [| a ys IH]; intros y; simpl.
  - split; [now left |]. intros z [<- | []]. apply Qle_refl.
  - destruct (IH (Qmin2 y a)) as (Hin & Hle).
    destruct (Qmin2_cases y a) as (Hc & Hy & Ha).
    split.
    + destruct Hin as [Hin | Hin]; [| now right; right].
      rewrite <- Hin. destruct Hc as [-> | ->]; [now left | right; now left].
    + intros z [<- | [<- | Hz]].
      * eapply Qle_trans; [apply Hle; now left | exact Hy].
      * eapply Qle_trans; [apply Hle; now left | exact Ha].
      * apply Hle. now right.
Qed.

(** [Math.max] returns one of its arguments, above all of them. *)
Lemma Math_max_spec (y : Q) (ys : list Q) :
  In (Math_max y ys) (y :: ys)
  /\ forall z, In z (y :: ys) -> (z <= Math_max y ys)%Q.
Proof.
  unfold Math_max. revert y.
  induction ys as [| a ys IH]; intros y; simpl.
  - split; [now left |]. intros z [<- | []]. apply Qle_refl.
  - destruct (IH (Qmax2 y a)) as (Hin & Hle).
    destruct (Qmax2_cases y a) as (Hc & Hy & Ha).
    split.
    + destruct Hin as [Hin | Hin]; [| now right; right].
      rewrite <- Hin. destruct Hc as [-> | ->]; [now left | right; now left].
    + intros z [<- | [<- | Hz]].
      * eapply Qle_trans; [exact Hy | apply Hle; now left].
      * eapply Qle_trans; [exact Ha | apply Hle; now left].
      * apply Hle. now right.
Qed.

End MinMax.

(** The [yearBuilt] values that [resetAllFilters] keeps: those strictly
    between 1800 and 2030, in dataset order. *)
Lemma plausibleYears_In (data : list BuildingData) (y : Q) :
  In y (filter (fun y => Qltb 1800 y && Qltb y 2030) (map yearBuilt data))
  <-> (exists r, yearBuilt r = y /\ In r data) /\ (1800 < y)%Q /\ (y < 2030)%Q.
Proof.
  rewrite filter_In, in_map_iff, andb_true_iff, !Qltb_true_iff. reflexivity.
Qed.

(** C10.  When the dataset has a record whose [yearBuilt] lies strictly
    between 1800 and 2030, [resetAllFilters] sets the year range to the
    least and the greatest of the [yearBuilt] values in that window (the
    other filters go back to their defaults); every record of the recomputed
    active set then has its year in that range, so no record with
    [yearBuilt] 0 is in it, and when the dataset holds such a record the
    active set is not the full dataset. *)
Theorem resetAllFilters_drops_unknown_years (s : AppState) :
  (exists r, In r (allBuildingData s)
             /\ (1800 < yearBuilt r)%Q /\ (yearBuilt r < 2030)%Q) ->
  let years := filter (fun y => Qltb 1800 y && Qltb y 2030)
                 (map yearBuilt (allBuildingData s)) in
  let s' := resetAllFilters s in
  exists minYear maxYear,
    currentFilters s' = set_yearRange (Fin minYear, Fin maxYear) initialFilters
    /\ In minYear years /\ In maxYear years
    /\ (forall y, In y years -> (minYear <= y)%Q /\ (y <= maxYear)%Q)
    /\ filteredBuildingData s' = applyFilters (currentFilters s') (allBuildingData s)
    /\ (forall r, In r (filteredBuildingData s') ->
          (minYear <= yearBuilt r)%Q /\ (yearBuilt r <= maxYear)%Q)
    /\ (forall r, (yearBuilt r == 0)%Q -> ~ In r (filteredBuildingData s'))
    /\ ((exists r, In r (allBuildingData s) /\ (yearBuilt r == 0)%Q) ->
        filteredBuildingData s' <> allBuildingData s).
Proof.
  intros (r0 & Hr0 & Hlo & Hhi). cbv zeta.
  unfold resetAllFilters.
  assert (Hlen : (0 <? List.length (allBuildingData s)) = true).
  { apply Nat.ltb_lt. destruct (allBuildingData s); [destruct Hr0 | simpl; lia]. }
  rewrite Hlen.
  assert (Hmem : In (yearBuilt r0)
                   (filter (fun y => Qltb 1800 y && Qltb y 2030)
                      (map yearBuilt (allBuildingData s)))).
  { apply plausibleYears_In. eauto. }
  destruct (filter (fun y => Qltb 1800 y && Qltb y 2030)
              (map yearBuilt (allBuildingData s))) as [| y ys] eqn:Ey;
    [destruct Hmem |].
  destruct (Math_min_spec y ys) as (Hmin_in & Hmin_le).
  destruct (Math_max_spec y ys) as (Hmax_in & Hmax_le).
  exists (Math_min y ys), (Math_max y ys).
  assert (Hrange : forall r,
             In r (applyFilters
                     (set_yearRange (Fin (Math_min y ys), Fin (Math_max y ys))
                        initialFilters) (allBuildingData s)) ->
             (Math_min y ys <= yearBuilt r)%Q /\ (yearBuilt r <= Math_max y ys)%Q).
  { intros r Hr. apply applyFilters_In in Hr.
    destruct Hr as (_ & Hsat). apply Hsat. }
  assert (Hzero : forall r, (yearBuilt r == 0)%Q ->
             ~ In r (applyFilters
                       (set_yearRange (Fin (Math_min y ys), Fin (Math_max y ys))
                          initialFilters) (allBuildingData s))).
  { intros r Hz Hr. apply Hrange in Hr. destruct Hr as (Hr & _).
    assert (Hw : (1800 < Math_min y ys)%Q).
    { rewrite <- Ey in Hmin_in. now apply plausibleYears_In in Hmin_in. }
    rewrite Hz in Hr.
    apply (Qlt_irrefl 0). eapply Qlt_le_trans; [| exact Hr].
    eapply Qlt_trans; [| exact Hw]. reflexivity. }
  simpl. repeat split; auto.
  - now apply Hrange.
  - now apply Hrange.
  - intros (r & Hr & Hz) E. apply (Hzero r Hz).
    unfold initialFilters. rewrite E. exact Hr.
Qed.

Lemma resetAllFilters_drops_unknown_years_witness :
  exists minYear maxYear,
    currentFilters (resetAllFilters (Samples.loaded Samples.dataset initialFilters))
    = set_yearRange (Fin minYear, Fin maxYear) initialFilters
    /\ filteredBuildingData
         (resetAllFilters (Samples.loaded Samples.dataset initialFilters))
       <> Samples.dataset.
Proof.
  destruct (resetAllFilters_drops_unknown_years
              (Samples.loaded Samples.dataset initialFilters))
    as (lo & hi & Hf & _ & _ & _ & _ & _ & _ & Hne).
  - exists Samples.capitol. split; [now left |]. split; reflexivity.
  - exists lo, hi. split; [exact Hf |].
    apply Hne. exists Samples.depot. split; [right; now left | reflexivity].
Defined.

(* ------------------------------------------------------------------ *)
(** ** Histograms *)

Module HistogramFacts.

Import Histogram.

Lemma total_increment (label : string) (bins : Bins) :
  total (increment label bins) = S (total bins).
Proof.
  induction bins as [| [k v] rest IH]; simpl.
  - reflexivity.
  - destruct (String.eqb k label); simpl; [lia | rewrite IH; lia].
Qed.

Lemma countOf_increment (label other : string) (bins : Bins) :
  countOf other (increment label bins)
  = (if String.eqb label other then 1 else 0) + countOf other bins.
Proof.
  induction bins as [| [k v] rest IH]; simpl.
  - now destruct (String.eqb label other).
  - destruct (String.eqb_spec k label) as [-> | N]; simpl.
    + destruct (String.eqb label other); lia.
    + destruct (String.eqb_spec k other) as [-> | N'].
      * apply String.eqb_neq in N. rewrite String.eqb_sym in N.
        now rewrite N.
      * exact IH.
Qed.

Lemma keys_increment (label key : string) (bins : Bins) :
  In key (map fst (increment label bins))
  <-> key = label \/ In key (map fst bins).
Proof.
  induction bins as [| [k v] rest IH]; simpl.
  - intuition.
  - destruct (String.eqb_spec k label) as [-> | N]; simpl.
    + intuition.
    + rewrite IH. intuition.
Qed.

Lemma NoDup_increment (label : string) (bins : Bins) :
  NoDup (map fst bins) -> NoDup (map fst (increment label bins)).
Proof.
  induction bins as [| [k v] rest IH]; simpl; intros H.
  - constructor; [intros [] | constructor].
  - inversion H as [| ? ? Hk Hrest]; subst.
    destruct (String.eqb_spec k label) as [-> | N]; simpl.
    + now constructor.
    + constructor; [| now apply IH].
      rewrite keys_increment. intros [-> | Hin]; contradiction.
Qed.

Section Filling.

Context {V : Type}.
Variable labelOf : V -> string.

Lemma total_fill (values : list V) (bins : Bins) :
  total (fill labelOf values bins) = List.length values + total bins.
Proof.
  unfold fill. revert bins.
  induction values as [| v values IH]; intros bins; simpl.
  - reflexivity.
  - rewrite IH, total_increment. lia.
Qed.

Lemma countOf_fill (label : string) (values : list V) (bins : Bins) :
  countOf label (fill labelOf values bins)
  = occurrences labelOf label values + countOf label bins.
Proof.
  unfold fill, occurrences. revert bins.
  induction values as [| v values IH]; intros bins; simpl.
  - reflexivity.
  - rewrite IH, countOf_increment.
    destruct (String.eqb (labelOf v) label); simpl; lia.
Qed.

Lemma NoDup_fill (values : list V) (bins : Bins) :
  NoDup (map fst bins) -> NoDup (map fst (fill labelOf values bins)).
Proof.
  unfold fill. revert bins.
  induction values as [| v values IH]; intros bins H; simpl.
  - exact H.
  - apply IH. now apply NoDup_increment.
Qed.

End Filling.

(** Sorting rearranges the entries and nothing else. *)
Lemma insertSorted_Permutation (e : string * nat) (sorted : Bins) :
  Permutation (e :: sorted) (insertSorted e sorted).
Proof.
  induction sorted as [| h rest IH]; simpl.
  - apply Permutation_refl.
  - destruct (0 <? compareBins e h)%Z.
    + eapply perm_trans; [apply perm_swap |]. now apply perm_skip.
    + apply Permutation_refl.
Qed.

Lemma sortBins_Permutation (bins : Bins) : Permutation bins (sortBins bins).
Proof.
  induction bins as [| e rest IH]; simpl.
  - apply Permutation_refl.
  - eapply perm_trans; [| apply insertSorted_Permutation].
    now apply perm_skip.
Qed.

Lemma total_Permutation (b1 b2 : Bins) :
  Permutation b1 b2 -> total b1 = total b2.
Proof.
  induction 1 as [| [k v] l1 l2 _ IH | [k1 v1] [k2 v2] l | l1 l2 l3 _ IH1 _ IH2];
    simpl in *; lia.
Qed.

Lemma countOf_entry (label : string) (n : nat) (bins : Bins) :
  NoDup (map fst bins) -> In (label, n) bins -> countOf label bins = n.
Proof.
  induction bins as [| [k v] rest IH]; simpl; intros Hnd Hin.
  - destruct Hin.
  - inversion Hnd as [| ? ? Hk Hrest]; subst.
    destruct Hin as [[= -> ->] | Hin].
    + now rewrite String.eqb_refl.
    + destruct (String.eqb_spec k label) as [-> | N].
      * exfalso. apply Hk. apply (in_map fst) in Hin. exact Hin.
      * now apply IH.
Qed.

Lemma countOf_absent (label : string) (bins : Bins) :
  ~ In label (map fst bins) -> countOf label bins = 0.
Proof.
  induction bins as [| [k v] rest IH]; simpl; intros H.
  - reflexivity.
  - destruct (String.eqb_spec k label) as [-> | N].
    + exfalso. apply H. now left.
    + apply IH. intros Hin. apply H. now right.
Qed.

Lemma key_entry (label : string) (bins : Bins) :
  In label (map fst bins) -> exists n, In (label, n) bins.
Proof.
  intros H. apply in_map_iff in H. destruct H as ([k v] & E & Hin).
  simpl in E. subst. now exists v.
Qed.

Lemma countOf_Permutation (label : string) (b1 b2 : Bins) :
  NoDup (map fst b1) -> Permutation b1 b2 ->
  countOf label b1 = countOf label b2.
Proof.
  intros Hnd Hp.
  assert (Hnd2 : NoDup (map fst b2)).
  { eapply Permutation_NoDup; [apply Permutation_map; exact Hp | exact Hnd]. }
  destruct (in_dec string_dec label (map fst b1)) as [Hin | Hout].
  - destruct (key_entry _ _ Hin) as (n & Hn).
    rewrite (countOf_entry label n b1 Hnd Hn).
    symmetry. apply countOf_entry; [exact Hnd2 |].
    eapply Permutation_in; eassumption.
  - rewrite (countOf_absent _ _ Hout). symmetry. apply countOf_absent.
    intros Hin. apply Hout.
    eapply Permutation_in; [| exact Hin].
    apply Permutation_sym, Permutation_map. exact Hp.
Qed.

(** A positive maximum gives a positive bin width; the fallback covers a
    quotient that rounds to 0. *)
Lemma binSizeFor_positive (max : Q) (numBins fallback : Z) :
  (0 < max)%Q -> (0 < numBins)%Z -> (0 < fallback)%Z ->
  (0 < binSizeFor max numBins fallback)%Z.
Proof.
  intros Hmax Hn Hf. unfold binSizeFor.
  destruct (Z.eqb_spec (Qceiling (max / inject_Z numBins)) 0) as [E | N];
    [exact Hf |].
  assert (H : (0 <= Qceiling (max / inject_Z numBins))%Z).
  { change 0%Z with (Qceiling 0). apply Qceiling_resp_le.
    apply Qlt_le_weak, Qlt_shift_div_l.
    - change 0%Q with (inject_Z 0). now rewrite <- Zlt_Qlt.
    - now rewrite Qmult_0_l. }
  lia.
Qed.

End HistogramFacts.

Section HistogramTotals.

Import Histogram HistogramFacts.

Context {V : Type}.
Variable labelOf : V -> string.

(** A counter filled from empty holds every value once, under its label. *)
Lemma filled_counts (values : list V) :
  total (fill labelOf values []) = List.length values
  /\ NoDup (map fst (fill labelOf values []))
  /\ forall label,
       countOf label (fill labelOf values []) = occurrences labelOf label values.
Proof.
  split; [| split].
  - rewrite total_fill. simpl. lia.
  - apply NoDup_fill. constructor.
  - intros label. rewrite countOf_fill. simpl. lia.
Qed.

(** Sorting the entries keeps all of that. *)
Lemma sorted_filled_counts (values : list V) :
  total (sortBins (fill labelOf values [])) = List.length values
  /\ NoDup (map fst (sortBins (fill labelOf values [])))
  /\ forall label,
       countOf label (sortBins (fill labelOf values []))
       = occurrences labelOf label values.
Proof.
  destruct (filled_counts values) as (Ht & Hn & Hc).
  pose proof (sortBins_Permutation (fill labelOf values [])) as Hp.
  split; [| split].
  - rewrite <- (total_Permutation _ _ Hp). exact Ht.
  - eapply Permutation_NoDup; [apply Permutation_map; exact Hp | exact Hn].
  - intros label. rewrite <- (countOf_Permutation label _ _ Hn Hp). apply Hc.
Qed.

End HistogramTotals.

Section BinWidth.

Import Histogram HistogramFacts.

Lemma Math_max_ge_first (y : Q) (ys : list Q) : (y <= Math_max y ys)%Q.
Proof. apply Math_max_spec. now left. Qed.

(** With exact division a value lies in the bin it is counted in:
    [binStart <= value < binStart + binSize]. *)
Lemma value_in_its_bin (value : Q) (binSize : Z) :
  (0 < binSize)%Z ->
  (inject_Z (binStartOf value binSize) <= value)%Q
  /\ (value < inject_Z (binStartOf value binSize + binSize))%Q.
Proof.
  intros Hb. unfold binStartOf.
  assert (Hq : (0 < inject_Z binSize)%Q).
  { change 0%Q with (inject_Z 0). now rewrite <- Zlt_Qlt. }
  assert (Hne : ~ (inject_Z binSize == 0)%Q).
  { intros E. rewrite E in Hq. now apply Qlt_irrefl in Hq. }
  set (x := (value / inject_Z binSize)%Q).
  assert (Hx : (x * inject_Z binSize == value)%Q).
  { unfold x. rewrite Qmult_comm. now apply Qmult_div_r. }
  split.
  - rewrite inject_Z_mult. rewrite <- Hx at 1.
    apply Qmult_le_compat_r; [apply Qfloor_le | now apply Qlt_le_weak].
  - replace (Qfloor x * binSize + binSize)%Z
      with ((Qfloor x + 1) * binSize)%Z by ring.
    rewrite inject_Z_mult. rewrite <- Hx at 1.
    apply Qmult_lt_compat_r; [exact Hq | apply Qlt_floor].
Qed.

End BinWidth.

(** C3.  Both numeric histograms -- water usage (10 bins aimed at, entries
    sorted by lower bound) and energy intensity (15 bins aimed at) -- count
    every qualifying value exactly once: the bin counts add up to the number
    of qualifying values, no bin label is listed twice, and the count of a
    bin is the number of qualifying values whose label
    [floor(value / binSize) * binSize .. + binSize - 1] it is, for one
    positive bin width. *)
Theorem histogram_counts_each_value_once (data : list BuildingData) :
  (Histogram.total (Histogram.waterBins data)
   = List.length (Histogram.waterUsePositive data)
   /\ NoDup (map fst (Histogram.waterBins data))
   /\ exists binSize,
        (0 < binSize)%Z
        /\ forall label,
             Histogram.countOf label (Histogram.waterBins data)
             = Histogram.occurrences
                 (fun d => Histogram.waterBinLabel d.(waterUseKgal) binSize)
                 label (Histogram.waterUsePositive data))
  /\ (Histogram.total (Histogram.energyIntensityBins data)
      = List.length (Histogram.energyIntensityData data)
      /\ NoDup (map fst (Histogram.energyIntensityBins data))
      /\ exists binSize,
           (0 < binSize)%Z
           /\ forall label,
                Histogram.countOf label (Histogram.energyIntensityBins data)
                = Histogram.occurrences
                    (fun i => Histogram.intensityBinLabel i binSize)
                    label (Histogram.energyIntensityData data)).
Proof.
  split.
  - unfold Histogram.waterBins.
    destruct (Histogram.waterUsePositive data) as [| d0 ds] eqn:E.
    + split; [reflexivity | split].
      * constructor; [intros [] | constructor].
      * exists 1%Z. split; [lia |]. intros label.
        unfold Histogram.countOf, Histogram.occurrences.
        now destruct (String.eqb "No Water Usage Data" label).
    + set (binSize := Histogram.binSizeFor _ _ _).
      destruct (sorted_filled_counts
                  (fun d => Histogram.waterBinLabel d.(waterUseKgal) binSize)
                  (d0 :: ds)) as (Ht & Hn & Hc).
      split; [exact Ht | split; [exact Hn |]].
      exists binSize. split; [| exact Hc].
      apply HistogramFacts.binSizeFor_positive; try lia.
      assert (Hd0 : In d0 (Histogram.waterUsePositive data)).
      { rewrite E. now left. }
      apply filter_In in Hd0. destruct Hd0 as (_ & Hpos).
      apply Qltb_true_iff in Hpos.
      eapply Qlt_le_trans; [exact Hpos | apply Math_max_ge_first].
  - unfold Histogram.energyIntensityBins.
    destruct (Histogram.energyIntensityData data) as [| i0 rest] eqn:E.
    + split; [reflexivity | split].
      * constructor.
      * exists 1%Z. split; [lia |]. reflexivity.
    + set (binSize := Histogram.binSizeFor _ _ _).
      destruct (filled_counts
                  (fun i => Histogram.intensityBinLabel i binSize)
                  (i0 :: rest)) as (Ht & Hn & Hc).
      split; [exact Ht | split; [exact Hn |]].
      exists binSize. split; [| exact Hc].
      apply HistogramFacts.binSizeFor_positive; try lia.
      assert (Hi0 : In i0 (Histogram.energyIntensityData data)).
      { rewrite E. now left. }
      unfold Histogram.energyIntensityData in Hi0.
      apply in_map_iff in Hi0. destruct Hi0 as (d & <- & Hd).
      apply filter_In in Hd. destruct Hd as (_ & Hd).
      apply andb_true_iff in Hd. destruct Hd as (Hd & _).
      apply andb_true_iff in Hd. destruct Hd as (Hpos & _).
      apply Qltb_true_iff in Hpos.
      eapply Qlt_le_trans; [exact Hpos | apply Math_max_ge_first].
Qed.

(** When no value qualifies, the water histogram is the single placeholder
    bin and the energy-intensity histogram is empty. *)
Lemma waterBins_no_data (data : list BuildingData) :
  Histogram.waterUsePositive data = [] ->
  Histogram.waterBins data = [("No Water Usage Data", 0)].
Proof. unfold Histogram.waterBins. now intros ->. Qed.

Lemma energyIntensityBins_no_data (data : list BuildingData) :
  Histogram.energyIntensityData data = [] ->
  Histogram.energyIntensityBins data = [].
Proof. unfold Histogram.energyIntensityBins. now intros ->. Qed.

(** C8.  On a dataset without a qualifying value (one record, no water use,
    no energy intensity) the water histogram is the single bin
    "No Water Usage Data" with count 0, but the energy-intensity histogram
    is the empty bin list: it has no placeholder bin. *)
Theorem no_data_bin_missing_for_energy_intensity :
  Histogram.waterUsePositive [Samples.depot] = []
  /\ Histogram.energyIntensityData [Samples.depot] = []
  /\ Histogram.waterBins [Samples.depot] = [("No Water Usage Data", 0)]
  /\ Histogram.energyIntensityBins [Samples.depot] = [].
Proof. repeat split. Qed.

(* ------------------------------------------------------------------ *)
(** ** Export *)

Section ExportFacts.

Import Reporting.

Variable numberText : Q -> string.
Variable JSON_stringify : list BuildingData -> string.

(** With an empty active set the CSV branch of [exportFilteredData] ends in
    an uncaught [TypeError]; the state is untouched. *)
Lemma exportFilteredData_csv_empty (s : AppState) :
  filteredBuildingData s = [] ->
  exportFilteredData numberText JSON_stringify csv s
  = Throws (TypeError "Cannot convert undefined or null to object") s.
Proof. unfold exportFilteredData. now intros ->. Qed.

(** [exportBuildingsList] checks for the empty list first. *)
Lemma exportBuildingsList_empty (label chartId : string) (s : AppState) :
  getRelatedBuildings label chartId s = [] ->
  exportBuildingsList numberText label chartId s
  = Returns (showNotification "No buildings to export" warning s).
Proof. unfold exportBuildingsList. now intros ->. Qed.

End ExportFacts.

(** C4.  Exporting an empty record array to CSV: [exportBuildingsList]
    shows the warning "No buildings to export" and downloads nothing;
    [exportFilteredData] downloads nothing either but shows no warning: it
    stops with a [TypeError] when it reads the keys of the missing first
    record. *)
Theorem csv_export_of_empty_dataset
    (numberText : Q -> string) (JSON_stringify : list BuildingData -> string) :
  let s := Samples.loaded [] initialFilters in
  Reporting.exportFilteredData numberText JSON_stringify Reporting.csv s
  = Reporting.Throws
      (Reporting.TypeError "Cannot convert undefined or null to object") s
  /\ notifications s = [] /\ downloads s = []
  /\ exists s',
       Reporting.exportBuildingsList numberText "Sacramento" cityChartId s
       = Reporting.Returns s'
       /\ notifications s' = [mkNotification "No buildings to export" warning]
       /\ downloads s' = [].
Proof.
  cbv zeta. repeat split.
  eexists. repeat split.
Qed.

(* ------------------------------------------------------------------ *)
(** ** Comparison set *)

Section Comparison.

Context {A : Type}.
Variable p : A -> bool.

Lemma findIndexFrom_range (arr : list A) (i : Z) :
  (0 <= i)%Z ->
  findIndexFrom p arr i = (-1)%Z \/ (i <= findIndexFrom p arr i)%Z.
Proof.
  revert i. induction arr as [| x rest IH]; intros i Hi; simpl.
  - now left.
  - destruct (p x); [right; lia |].
    destruct (IH (i + 1)%Z) as [H | H]; [lia | now left | right; lia].
Qed.

(** [findIndex] answers [-1] exactly when no element passes the test. *)
Lemma findIndex_none (arr : list A) :
  findIndex p arr = (-1)%Z <-> filter p arr = [].
Proof.
  unfold findIndex.
  assert (G : forall i, (0 <= i)%Z ->
                findIndexFrom p arr i = (-1)%Z <-> filter p arr = []).
  { induction arr as [| x rest IH]; intros i Hi; simpl.
    - tauto.
    - destruct (p x).
      + split; [lia | discriminate].
      + apply IH. lia. }
  apply G. lia.
Qed.

End Comparison.

Section ComparisonSet.

Lemma entriesFor_app (id : string) (l1 l2 : list BuildingData) :
  entriesFor id (l1 ++ l2) = entriesFor id l1 + entriesFor id l2.
Proof. unfold entriesFor. now rewrite filter_app, length_app. Qed.

Lemma entriesFor_absent (id : string) (items : list BuildingData) :
  ~ In id (map propertyId items) -> entriesFor id items = 0.
Proof.
  unfold entriesFor. induction items as [| x rest IH]; simpl; intros H.
  - reflexivity.
  - destruct (String.eqb_spec (propertyId x) id) as [E | N].
    + exfalso. apply H. now left.
    + apply IH. intros Hin. apply H. now right.
Qed.

(** In a list that is unique by property id an identifier has at most one
    entry. *)
Lemma entriesFor_unique (id : string) (items : list BuildingData) :
  NoDup (map propertyId items) -> entriesFor id items <= 1.
Proof.
  induction items as [| x rest IH]; simpl; intros H.
  - unfold entriesFor. simpl. lia.
  - inversion H as [| ? ? Hx Hrest]; subst.
    change (x :: rest) with ([x] ++ rest). rewrite entriesFor_app.
    unfold entriesFor at 1. simpl.
    destruct (String.eqb_spec (propertyId x) id) as [E | N]; simpl.
    + rewrite entriesFor_absent; [lia | now rewrite <- E].
    + now apply IH.
Qed.

Lemma entriesFor_In (id : string) (items : list BuildingData) :
  entriesFor id items = 0 <-> ~ In id (map propertyId items).
Proof.
  split; [| apply entriesFor_absent].
  unfold entriesFor. intros H Hin.
  apply in_map_iff in Hin. destruct Hin as (x & E & Hx).
  assert (Hf : In x (filter (fun item => String.eqb (propertyId item) id) items)).
  { apply filter_In. split; [exact Hx | now apply String.eqb_eq]. }
  destruct (filter _ items); [destruct Hf | discriminate].
Qed.

(** The test of [addToComparison]: is the identifier already listed? *)
Lemma listed_iff (id : string) (items : list BuildingData) :
  (findIndex (fun item => String.eqb (propertyId item) id) items =? -1)%Z = true
  <-> entriesFor id items = 0.
Proof.
  rewrite Z.eqb_eq, findIndex_none. unfold entriesFor.
  split; [now intros -> | apply length_zero_iff_nil].
Qed.

(** The three ways [addToComparison] can go. *)
Lemma addToComparison_new (id : string) (s : AppState) (building : BuildingData) :
  find (fun b => String.eqb b.(propertyId) id) (allBuildingData s) = Some building ->
  entriesFor id (selectedItems (chartInteractionState s)) = 0 ->
  addToComparison id s
  = showNotification
      ("Added " ++ dq ++ building.(propertyName) ++ dq ++ " to comparison")
      success
      (set_selectedItems
         (selectedItems (chartInteractionState s) ++ [building]) s).
Proof.
  intros Ef E0. unfold addToComparison. rewrite Ef.
  apply listed_iff in E0. now rewrite E0.
Qed.

Lemma addToComparison_listed (id : string) (s : AppState) (building : BuildingData) :
  find (fun b => String.eqb b.(propertyId) id) (allBuildingData s) = Some building ->
  entriesFor id (selectedItems (chartInteractionState s)) <> 0 ->
  addToComparison id s
  = showNotification
      (dq ++ building.(propertyName) ++ dq ++ " is already in comparison")
      warning s.
Proof.
  intros Ef E0. unfold addToComparison. rewrite Ef.
  destruct (findIndex _ _ =? -1)%Z eqn:Ei; [| reflexivity].
  apply listed_iff in Ei. contradiction.
Qed.

Lemma addToComparison_unknown (id : string) (s : AppState) :
  find (fun b => String.eqb b.(propertyId) id) (allBuildingData s) = None ->
  addToComparison id s = s.
Proof. intros Ef. unfold addToComparison. now rewrite Ef. Qed.

Lemma NoDup_snoc (x : string) (l : list string) :
  ~ In x l -> NoDup l -> NoDup (l ++ [x]).
Proof.
  intros Hx Hl.
  apply Permutation_NoDup with (l := x :: l).
  - apply Permutation_cons_append.
  - now constructor.
Qed.

End ComparisonSet.

(** Uniqueness by property id is an invariant of the comparison list: it
    holds of the empty list the page starts with and every operation of the
    comparison set keeps it. *)
Lemma removeAt_incl {A : Type} (i : nat) (l : list A) (x : A) :
  In x (removeAt i l) -> In x l.
Proof.
  revert i. induction l as [| y l IH]; intros [| i]; simpl; auto.
  intros [-> | H]; [now left | right; eauto].
Qed.

Lemma removeAt_map {A B : Type} (f : A -> B) (i : nat) (l : list A) :
  map f (removeAt i l) = removeAt i (map f l).
Proof.
  revert i. induction l as [| y l IH]; intros [| i]; simpl; auto.
  now rewrite IH.
Qed.

Lemma NoDup_removeAt {A : Type} (i : nat) (l : list A) :
  NoDup l -> NoDup (removeAt i l).
Proof.
  revert i. induction l as [| y l IH]; intros [| i] H; simpl; auto;
    inversion H as [| ? ? Hy Hl]; subst; auto.
  constructor; [| now apply IH].
  intros Hin. apply Hy. eapply removeAt_incl, Hin.
Qed.

Lemma comparison_list_stays_unique (id : string) (s : AppState) :
  NoDup (map propertyId (selectedItems (chartInteractionState s))) ->
  NoDup (map propertyId
           (selectedItems (chartInteractionState (addToComparison id s))))
  /\ NoDup (map propertyId
              (selectedItems (chartInteractionState (removeFromComparison id s))))
  /\ NoDup (map propertyId
              (selectedItems (chartInteractionState (clearAllComparison s)))).
Proof.
  intros Hnd. split; [| split].
  - destruct (find (fun b => String.eqb b.(propertyId) id) (allBuildingData s))
      as [building |] eqn:Ef.
    + pose proof (find_some _ _ Ef) as (_ & Hid). apply String.eqb_eq in Hid.
      destruct (Nat.eq_dec
                  (entriesFor id (selectedItems (chartInteractionState s))) 0)
        as [E0 | N0].
      * rewrite (addToComparison_new id s building Ef E0). simpl.
        rewrite map_app. simpl. apply NoDup_snoc; [| exact Hnd].
        rewrite Hid. now apply entriesFor_In.
      * now rewrite (addToComparison_listed id s building Ef N0).
    + now rewrite (addToComparison_unknown id s Ef).
  - unfold removeFromComparison.
    destruct (negb _); [| exact Hnd].
    destruct (nth_error _ _); [| exact Hnd].
    simpl. rewrite removeAt_map. now apply NoDup_removeAt.
  - simpl. constructor.
Qed.

(** C5 (as amended).  On a comparison list that is unique by property id:
    for an identifier that names a record of the dataset, two successive
    [addToComparison] calls leave exactly one entry for it, the second call
    leaves the list as the first left it and shows the "already in
    comparison" warning, and the list stays unique by property id; for an
    identifier that names no record, both calls change nothing (no entry,
    no notification). *)
Theorem addToComparison_twice (id : string) (s : AppState) :
  NoDup (map propertyId (selectedItems (chartInteractionState s))) ->
  let s1 := addToComparison id s in
  let s2 := addToComparison id s1 in
  match find (fun b => String.eqb b.(propertyId) id) (allBuildingData s) with
  | Some building =>
      entriesFor id (selectedItems (chartInteractionState s2)) = 1
      /\ selectedItems (chartInteractionState s2)
         = selectedItems (chartInteractionState s1)
      /\ notifications s2
         = notifications s1
           ++ [mkNotification
                 (dq ++ building.(propertyName) ++ dq ++ " is already in comparison")
                 warning]
      /\ NoDup (map propertyId (selectedItems (chartInteractionState s2)))
  | None => s2 = s
  end.
Proof.
  intros Hnd. cbv zeta.
  destruct (find _ (allBuildingData s)) as [building |] eqn:Ef.
  - pose proof (find_some _ _ Ef) as (_ & Hid). apply String.eqb_eq in Hid.
    destruct (Nat.eq_dec
                (entriesFor id (selectedItems (chartInteractionState s))) 0)
      as [E0 | N0].
    + (* the first call adds the building, the second finds it listed *)
      rewrite (addToComparison_new id s building Ef E0).
      assert (E1 : entriesFor id
                     (selectedItems (chartInteractionState s) ++ [building]) = 1).
      { rewrite entriesFor_app, E0. unfold entriesFor. simpl.
        apply String.eqb_eq in Hid. now rewrite Hid. }
      rewrite (addToComparison_listed id _ building);
        [| exact Ef | simpl; rewrite E1; discriminate].
      simpl. repeat split; try assumption.
      rewrite map_app. simpl. apply NoDup_snoc; [| exact Hnd].
      rewrite Hid. now apply entriesFor_In.
    + (* the identifier was listed already: two warnings *)
      rewrite (addToComparison_listed id s building Ef N0).
      rewrite (addToComparison_listed id _ building); [| exact Ef | exact N0].
      simpl. repeat split; try assumption.
      pose proof (entriesFor_unique id _ Hnd). lia.
  - rewrite (addToComparison_unknown id s Ef).
    exact (addToComparison_unknown id s Ef).
Qed.

Lemma addToComparison_twice_witness :
  entriesFor "P1"
    (selectedItems
       (chartInteractionState
          (addToComparison "P1"
             (addToComparison "P1"
                (Samples.loaded Samples.dataset initialFilters))))) = 1.
Proof.
  pose proof (addToComparison_twice "P1"
                (Samples.loaded Samples.dataset initialFilters)) as H.
  simpl in H. apply H. constructor.
Defined.

(** An identifier that names no record: nothing is added and nothing is
    shown, by either call. *)
Lemma addToComparison_unknown_id :
  let s := Samples.loaded Samples.dataset initialFilters in
  let s2 := addToComparison "P9" (addToComparison "P9" s) in
  entriesFor "P9" (selectedItems (chartInteractionState s2)) = 0
  /\ entriesFor "P9" (selectedItems (chartInteractionState s2)) <> 1
  /\ notifications s2 = [].
Proof. repeat split. discriminate. Qed.

(* ------------------------------------------------------------------ *)
(** ** City selection *)

Section CitySelection.

(** A click on an element of the geography chart matches none of the four
    canvas tests of [handleChartClick]: it only (re)builds the drill-down
    panel. *)
Lemma handleChartClick_city
    (labels : list string) (element : InteractionItem)
    (others : list InteractionItem) (s : AppState) :
  handleChartClick labels (element :: others) cityChartId s
  = showDrillDownPanel (nth element.(index) labels "") cityChartId s.
Proof. reflexivity. Qed.

Lemma showDrillDownPanel_frame (label chartId : string) (s : AppState) :
  showDrillDownPanel label chartId s
  = set_drillDownPanel (drillDownPanel (showDrillDownPanel label chartId s)) s.
Proof.
  unfold showDrillDownPanel. now destruct (getRelatedBuildings label chartId s).
Qed.

(** On the geography chart [filterToCategory] takes its city branch. *)
Lemma filterToCategory_city (label : string) (s : AppState) :
  filterToCategory label cityChartId s
  = set_drillDownPanel None
      (updateFilteredData
         (showNotification ("Filtered to city: " ++ label) success
            (set_currentFilters
               (set_selectedCity (Some label) (currentFilters s)) s))).
Proof. reflexivity. Qed.

(** Selecting a city adds the test [item.city === city] to the others. *)
Lemma keep_selectedCity (c : string) (f : FilterState) (r : BuildingData) :
  c <> "" ->
  keep (set_selectedCity (Some c) f) r
  = keep (set_selectedCity None f) r && String.eqb r.(city) c.
Proof.
  intros Hc. apply truthy_true in Hc. unfold keep. simpl. rewrite Hc.
  repeat match goal with
         | |- context [if ?b then false else _] =>
             lazymatch b with
             | context [String.eqb (city r) c] => fail
             | false => fail
             | _ => destruct b; [reflexivity |]
             end
         end.
  now destruct (String.eqb (city r) c).
Qed.

Lemma applyFilters_selectedCity
    (c : string) (f : FilterState) (data : list BuildingData) :
  c <> "" ->
  applyFilters (set_selectedCity (Some c) f) data
  = filter (fun r => String.eqb r.(city) c)
      (applyFilters (set_selectedCity None f) data).
Proof.
  intros Hc. unfold applyFilters.
  induction data as [| r data IH]; simpl; [reflexivity |].
  rewrite (keep_selectedCity c f r Hc), IH.
  destruct (keep (set_selectedCity None f) r); simpl;
    [| reflexivity].
  now destruct (String.eqb (city r) c).
Qed.

End CitySelection.

(** C6 (as amended).  A click on an element of the geography chart leaves
    the filter state and the active set as they are; it opens the
    drill-down panel for the clicked city when the active set has records
    of that city.  The panel's "Filter to This Category" action for
    "Sacramento" then sets [selectedCity] to "Sacramento", changes no other
    filter, and recomputes the active set as exactly the records of the
    dataset whose city is "Sacramento" among those that pass the other
    active predicates, in dataset order. *)
Theorem city_selection_through_drill_down
    (labels : list string) (elements : list InteractionItem) (s : AppState) :
  let s1 := handleChartClick labels elements cityChartId s in
  let s2 := filterToCategory "Sacramento" cityChartId s1 in
  let others := set_selectedCity None (currentFilters s) in
  (currentFilters s1 = currentFilters s
   /\ filteredBuildingData s1 = filteredBuildingData s
   /\ allBuildingData s1 = allBuildingData s
   /\ (forall element rest,
         elements = element :: rest ->
         nth element.(index) labels "" = "Sacramento" ->
         (exists r, In r (filteredBuildingData s) /\ r.(city) = "Sacramento") ->
         drillDownPanel s1 = Some ("Sacramento", cityChartId)))
  /\ (selectedCity (currentFilters s2) = Some "Sacramento"
      /\ currentFilters s2
         = set_selectedCity (Some "Sacramento") (currentFilters s)
      /\ filteredBuildingData s2
         = filter (fun r => String.eqb r.(city) "Sacramento")
             (applyFilters others (allBuildingData s))
      /\ (forall r, In r (filteredBuildingData s2) <->
                    In r (allBuildingData s)
                    /\ r.(city) = "Sacramento"
                    /\ satisfiesAll others r)).
Proof.
  cbv zeta.
  assert (H1 : currentFilters (handleChartClick labels elements cityChartId s)
               = currentFilters s
               /\ filteredBuildingData (handleChartClick labels elements cityChartId s)
                  = filteredBuildingData s
               /\ allBuildingData (handleChartClick labels elements cityChartId s)
                  = allBuildingData s).
  { destruct elements as [| element rest]; [repeat split |].
    rewrite handleChartClick_city, showDrillDownPanel_frame. repeat split. }
  destruct H1 as (Hf & Hd & Ha).
  split; [split; [exact Hf | split; [exact Hd | split; [exact Ha |]]] |].
  - intros element rest -> Hl (r & Hr & Hc).
    rewrite handleChartClick_city, Hl. unfold showDrillDownPanel.
    change (getRelatedBuildings "Sacramento" cityChartId s)
      with (filter (fun b => String.eqb b.(city) "Sacramento")
              (filteredBuildingData s)).
    assert (Hin : In r (filter (fun b => String.eqb b.(city) "Sacramento")
                          (filteredBuildingData s))).
    { apply filter_In. split; [exact Hr | now apply String.eqb_eq]. }
    destruct (filter _ (filteredBuildingData s)); [destruct Hin | reflexivity].
  - rewrite filterToCategory_city. simpl. rewrite Hf, Ha.
    assert (Hs : "Sacramento" <> "") by discriminate.
    split; [reflexivity | split; [reflexivity | split]].
    + apply applyFilters_selectedCity, Hs.
    + intros r. rewrite (applyFilters_selectedCity _ _ _ Hs), filter_In.
      rewrite String.eqb_eq, applyFilters_In. tauto.
Qed.

(** The click on the chart element alone selects no city: on the loaded
    sample dataset, with no city selected, a click on the "Sacramento" bar
    leaves [selectedCity] at [null] and the active set at all three records
    (one of them in Davis); only the panel opens. *)
Lemma city_bar_click_selects_nothing :
  let s := Samples.loaded Samples.dataset Samples.openFilters in
  let s1 := handleChartClick ["Sacramento"; "Davis"] [mkInteractionItem 0 0]
              cityChartId s in
  selectedCity (currentFilters s1) = None
  /\ selectedCity (currentFilters s1) <> Some "Sacramento"
  /\ filteredBuildingData s1 = [Samples.capitol; Samples.depot; Samples.lab]
  /\ city Samples.depot = "Davis"
  /\ drillDownPanel s1 = Some ("Sacramento", cityChartId).
Proof. repeat split. discriminate. Qed.

(* ------------------------------------------------------------------ *)
(** ** The embedding on the sample records *)

Example search_ignores_case :
  map propertyId
    (applyFilters
       {| departments := [];
          propertyTypes := [];
          yearRange := (NegInfinity, Infinity);
          energyRange := (Fin 0, Infinity);
          gfaRange := (Fin 0, Infinity);
          Filter.leedCertified := None;
          searchTerm := "WATER lab";
          selectedCity := None |}
       Samples.dataset)
  = ["P3"].
Proof. reflexivity. Qed.

Example default_year_range_drops_year_zero :
  map propertyId (applyFilters initialFilters Samples.dataset) = ["P1"; "P3"].
Proof. reflexivity. Qed.

Example leed_status_of_samples :
  map isLeedCertified Samples.dataset = [true; false; false].
Proof. reflexivity. Qed.

Example waterBins_of_samples :
  Histogram.waterBins Samples.dataset
  = [("2,400-3,599 kgal", 1); ("10,800-11,999 kgal", 1)].
Proof. reflexivity. Qed.

Example energyIntensityBins_of_samples :
  Histogram.energyIntensityBins Samples.dataset
  = [("48-55", 1); ("120-127", 1)].
Proof. reflexivity. Qed.

Example bins_are_sorted_by_lower_bound :
  Histogram.sortBins
    [("1,200-2,399 kgal", 2); ("0-1,199 kgal", 5); ("10,800-11,999 kgal", 1)]
  = [("0-1,199 kgal", 5); ("1,200-2,399 kgal", 2); ("10,800-11,999 kgal", 1)].
Proof. reflexivity. Qed.

Example department_click_on_then_off :
  departments
    (currentFilters
       (handleDepartmentClick "Transportation"
          (handleDepartmentClick "Transportation"
             (Samples.loaded Samples.dataset Samples.openFilters))))
  = [].
Proof. reflexivity. Qed.

(* ================================================================== *)
(** * Further properties of the filter engine and its handlers *)
(* ================================================================== *)

Section FilterAlgebra.

Lemma filter_Subsequence_impl {A : Type} (p q : A -> bool) (l : list A) :
  (forall x, p x = true -> q x = true) ->
  Subsequence (filter p l) (filter q l).
Proof.
  intros H. induction l as [| x l IH]; simpl.
  - constructor.
  - destruct (p x) eqn:Ep.
    + rewrite (H x Ep). now constructor.
    + destruct (q x); [now constructor | exact IH].
Qed.

Lemma filter_idempotent {A : Type} (p : A -> bool) (l : list A) :
  filter p (filter p l) = filter p l.
Proof.
  apply filter_all. intros x Hx. now apply filter_In in Hx.
Qed.

Lemma satisfiesAll_cleared (t : string) (f : FilterState) (r : BuildingData) :
  satisfiesAll f r -> satisfiesAll (cleared t f) r.
Proof.
  intros (Hd & Ht & Hy & He & Hg & Hl & Hs & Hc). unfold cleared.
  repeat match goal with
         | |- context [String.eqb t ?lit] => destruct (String.eqb t lit)
         end;
    (split; [| split; [| split; [| split; [| split; [| split; [| split]]]]]]);
    try assumption.
  - now left.
  - now left.
  - now left.
  - intros c [=].
  - split; intros [=].
Qed.

Lemma keep_cleared (t : string) (f : FilterState) (r : BuildingData) :
  keep f r = true -> keep (cleared t f) r = true.
Proof. rewrite !keep_satisfiesAll. apply satisfiesAll_cleared. Qed.

End FilterAlgebra.

(** Filtering is idempotent and works record by record. *)
Lemma applyFilters_idempotent_and_additive
    (f : FilterState) (data more : list BuildingData) :
  applyFilters f (applyFilters f data) = applyFilters f data
  /\ applyFilters f (data ++ more) = applyFilters f data ++ applyFilters f more.
Proof.
  unfold applyFilters. split; [apply filter_idempotent | apply filter_app].
Qed.

(** X1.  Removing a filter chip only widens the active set: every record
    that passed the filters before [clearFilter] is in the recomputed active
    set, in the same order; the recomputed set is drawn from the dataset; a
    filter type other than the five known ones changes no filter. *)
Theorem clearFilter_only_widens (filterType : string) (s : AppState) :
  let s' := clearFilter filterType s in
  Subsequence (applyFilters (currentFilters s) (allBuildingData s))
    (filteredBuildingData s')
  /\ Subsequence (filteredBuildingData s') (allBuildingData s)
  /\ (~ In filterType
        ["departments"; "propertyTypes"; "searchTerm"; "selectedCity";
         "leedCertified"] ->
      currentFilters s' = currentFilters s).
Proof.
  cbv zeta. unfold clearFilter. simpl. split; [| split].
  - apply filter_Subsequence_impl. intros r. apply keep_cleared.
  - apply filter_Subsequence.
  - intros H. unfold cleared.
    repeat match goal with
           | |- context [String.eqb filterType ?lit] =>
               destruct (String.eqb_spec filterType lit) as [-> | _];
               [exfalso; apply H; simpl; tauto |]
           end.
    reflexivity.
Qed.

Section PropertyTypeToggle.

Lemma set_propertyTypes_same (f : FilterState) :
  set_propertyTypes f.(propertyTypes) f = f.
Proof. now destruct f. Qed.

Lemma keep_propertyTypes_ext (l : list string) (f : FilterState) (r : BuildingData) :
  (forall t, In t l <-> In t f.(propertyTypes)) ->
  keep (set_propertyTypes l f) r = keep f r.
Proof.
  intros H. unfold keep. simpl.
  now rewrite (department_test_ext l (propertyTypes f) _ H).
Qed.

Lemma handlePropertyTypeClick_filters (name : string) (s : AppState) :
  currentFilters (handlePropertyTypeClick name s)
  = set_propertyTypes (toggled name (propertyTypes (currentFilters s)))
      (currentFilters s).
Proof.
  unfold handlePropertyTypeClick, toggled. simpl.
  now destruct (Array_includes _ _).
Qed.

End PropertyTypeToggle.

(** X2.  Two successive property-type clicks with the same label leave the
    same property types selected (the same filter state when the type was
    not selected at first), change no other filter, and the active set
    recomputed after the second click is the one of the starting filter
    state. *)
Theorem property_type_toggle_round_trip (name : string) (s : AppState) :
  let f := currentFilters s in
  let s2 := handlePropertyTypeClick name (handlePropertyTypeClick name s) in
  let f2 := currentFilters s2 in
  (forall t, In t f2.(propertyTypes) <-> In t f.(propertyTypes))
  /\ f2 = set_propertyTypes f2.(propertyTypes) f
  /\ (~ In name f.(propertyTypes) -> f2 = f)
  /\ filteredBuildingData s2 = applyFilters f (allBuildingData s).
Proof.
  cbv zeta.
  assert (E : currentFilters
                (handlePropertyTypeClick name (handlePropertyTypeClick name s))
              = set_propertyTypes
                  (toggled name (toggled name (propertyTypes (currentFilters s))))
                  (currentFilters s)).
  { rewrite !handlePropertyTypeClick_filters. reflexivity. }
  split; [| split; [| split]].
  - rewrite E. intros t. apply toggled_twice_members.
  - rewrite E. reflexivity.
  - intros H. rewrite E, toggled_twice_absent by assumption.
    apply set_propertyTypes_same.
  - change (filteredBuildingData
              (handlePropertyTypeClick name (handlePropertyTypeClick name s)))
      with (applyFilters
              (currentFilters
                 (handlePropertyTypeClick name (handlePropertyTypeClick name s)))
              (allBuildingData s)).
    rewrite E. unfold applyFilters. apply filter_ext. intros r.
    apply keep_propertyTypes_ext. intros t. apply toggled_twice_members.
Qed.

(** X3.  With no department selected, a click on a department bar whose
    label no record of the dataset carries as its department name empties
    the active set.  The bar "Unknown Department", which stands for the
    records with an empty department name, is such a label. *)
Theorem department_click_on_foreign_label (label : string) (s : AppState) :
  departments (currentFilters s) = [] ->
  (forall r, In r (allBuildingData s) -> r.(departmentName) <> label) ->
  filteredBuildingData (handleDepartmentClick label s) = []
  /\ departments (currentFilters (handleDepartmentClick label s)) = [label].
Proof.
  intros Hd Hr. unfold handleDepartmentClick. rewrite Hd. simpl. split; [| reflexivity].
  unfold applyFilters.
  assert (G : forall l : list BuildingData,
             (forall r, In r l -> r.(departmentName) <> label) ->
             filter
               (keep (set_departments [label] (currentFilters s))) l = []).
  { induction l as [| r l IH]; intros H; simpl; [reflexivity |].
    replace (keep (set_departments [label] (currentFilters s)) r) with false.
    - apply IH. intros x Hx. apply H. now right.
    - symmetry. unfold keep. simpl.
      assert (N : String.eqb (departmentName r) label = false).
      { apply String.eqb_neq, H. now left. }
      unfold Array_includes. simpl. now rewrite N. }
  now apply G.
Qed.

Lemma department_click_on_foreign_label_witness :
  Aggregation.departmentLabel
    (Samples.building "P4" "Yard" "" "Other" "Davis" 1990 500 10 0 0 "")
  = "Unknown Department"
  /\ filteredBuildingData
       (handleDepartmentClick "Unknown Department"
          (Samples.loaded
             [Samples.building "P4" "Yard" "" "Other" "Davis" 1990 500 10 0 0 ""]
             Samples.openFilters)) = [].
Proof.
  split; [reflexivity |].
  apply (department_click_on_foreign_label "Unknown Department"
           (Samples.loaded
              [Samples.building "P4" "Yard" "" "Other" "Davis" 1990 500 10 0 0 ""]
              Samples.openFilters)).
  - reflexivity.
  - intros r [<- | []]. discriminate.
Defined.

(* ------------------------------------------------------------------ *)
(** ** Removing from the comparison set *)

Section FindIndex.

Context {A : Type}.
Variable p : A -> bool.

(** A hit of [findIndex] is the position of the first element that passes
    the test. *)
Lemma findIndexFrom_first (arr : list A) (i : Z) :
  filter p arr <> [] ->
  exists before x after,
    arr = before ++ x :: after
    /\ p x = true
    /\ filter p before = []
    /\ findIndexFrom p arr i = (i + Z.of_nat (List.length before))%Z.
Proof.
  revert i. induction arr as [| y rest IH]; intros i H; simpl in *.
  - contradiction.
  - destruct (p y) eqn:Ey.
    + exists [], y, rest. simpl. repeat split; auto. lia.
    + destruct (IH (i + 1)%Z H) as (before & x & after & -> & Hx & Hb & Hi).
      exists (y :: before), x, after. simpl. rewrite Ey.
      repeat split; auto. rewrite Hi. lia.
Qed.

Lemma removeAt_middle (before after : list A) (x : A) :
  removeAt (List.length before) (before ++ x :: after) = before ++ after.
Proof.
  induction before as [| y before IH]; simpl; [reflexivity | now rewrite IH].
Qed.

Lemma nth_error_middle (before after : list A) (x : A) :
  nth_error (before ++ x :: after) (List.length before) = Some x.
Proof.
  induction before as [| y before IH]; simpl; [reflexivity | exact IH].
Qed.

End FindIndex.

Lemma findIndexFrom_hit {A : Type} (p : A -> bool)
    (before after : list A) (x : A) (i : Z) :
  filter p before = [] -> p x = true ->
  findIndexFrom p (before ++ x :: after) i
  = (i + Z.of_nat (List.length before))%Z.
Proof.
  revert i. induction before as [| y before IH]; intros i Hb Hx; simpl.
  - rewrite Hx. lia.
  - simpl in Hb. destruct (p y); [discriminate |].
    rewrite IH by assumption. lia.
Qed.

(** What [removeFromComparison] does when the first entry carrying the
    identifier is [removed]. *)
Lemma removeFromComparison_listed
    (id : string) (s : AppState) (before after : list BuildingData)
    (removed : BuildingData) :
  selectedItems (chartInteractionState s) = before ++ removed :: after ->
  entriesFor id before = 0 ->
  removed.(propertyId) = id ->
  removeFromComparison id s
  = showNotification
      ("Removed " ++ dq ++ removed.(propertyName) ++ dq ++ " from comparison")
      info (set_selectedItems (before ++ after) s).
Proof.
  intros E Hb Hr. unfold removeFromComparison, findIndex. rewrite E.
  rewrite findIndexFrom_hit.
  - replace (0 + Z.of_nat (List.length before) =? -1)%Z with false
      by (symmetry; apply Z.eqb_neq; lia).
    simpl. now rewrite Nat2Z.id, nth_error_middle, removeAt_middle.
  - now apply length_zero_iff_nil.
  - now apply String.eqb_eq.
Qed.

(** X4.  [removeFromComparison] takes out the first entry that carries the
    identifier and nothing else: the entries before and after it stay, in
    order, and one "Removed ..." notification is shown; when no entry
    carries the identifier the state is left as it is. *)
Theorem removeFromComparison_first_entry (id : string) (s : AppState) :
  let items := selectedItems (chartInteractionState s) in
  let s' := removeFromComparison id s in
  (entriesFor id items = 0 -> s' = s)
  /\ (entriesFor id items <> 0 ->
      exists before removed after,
        items = before ++ removed :: after
        /\ removed.(propertyId) = id
        /\ entriesFor id before = 0
        /\ selectedItems (chartInteractionState s') = before ++ after
        /\ notifications s'
           = notifications s
             ++ [mkNotification
                   ("Removed " ++ dq ++ removed.(propertyName) ++ dq
                    ++ " from comparison") info]).
Proof.
  cbv zeta. split.
  - intros H. unfold removeFromComparison. apply listed_iff in H. now rewrite H.
  - intros H.
    assert (Hf : filter (fun item => String.eqb (propertyId item) id)
                   (selectedItems (chartInteractionState s)) <> []).
    { intros E. apply H. unfold entriesFor. now rewrite E. }
    destruct (findIndexFrom_first _ _ 0%Z Hf)
      as (before & removed & after & E & Hp & Hb & _).
    apply String.eqb_eq in Hp.
    assert (Hb' : entriesFor id before = 0).
    { unfold entriesFor. now rewrite Hb. }
    exists before, removed, after.
    rewrite (removeFromComparison_listed id s before after removed E Hb' Hp).
    repeat split; auto.
Qed.

(** X5.  Removing undoes adding: for an identifier of a record of the
    dataset that is not in the comparison list, [addToComparison] followed
    by [removeFromComparison] gives back the list as it was. *)
Theorem removeFromComparison_undoes_add
    (id : string) (s : AppState) (building : BuildingData) :
  find (fun b => String.eqb b.(propertyId) id) (allBuildingData s)
  = Some building ->
  entriesFor id (selectedItems (chartInteractionState s)) = 0 ->
  selectedItems
    (chartInteractionState (removeFromComparison id (addToComparison id s)))
  = selectedItems (chartInteractionState s).
Proof.
  intros Ef E0.
  pose proof (find_some _ _ Ef) as (_ & Hid). apply String.eqb_eq in Hid.
  rewrite (addToComparison_new id s building Ef E0).
  rewrite (removeFromComparison_listed id _
             (selectedItems (chartInteractionState s)) [] building);
    try assumption; try reflexivity.
  simpl. apply app_nil_r.
Qed.

Lemma removeFromComparison_undoes_add_witness :
  selectedItems
    (chartInteractionState
       (removeFromComparison "P2"
          (addToComparison "P2"
             (addToComparison "P1"
                (Samples.loaded Samples.dataset initialFilters)))))
  = [Samples.capitol].
Proof.
  apply (removeFromComparison_undoes_add "P2"
           (addToComparison "P1"
              (Samples.loaded Samples.dataset initialFilters))
           Samples.depot); reflexivity.
Defined.

(* ------------------------------------------------------------------ *)
(** ** Fixed-bin counts: building age, green power, LEED *)

Section FixedBins.

Import Histogram HistogramFacts Aggregation.

Lemma Qeqb_false_iff (x y : Q) : Qeqb x y = false <-> ~ (x == y)%Q.
Proof.
  rewrite <- Qeqb_true_iff. destruct (Qeqb x y); intuition congruence.
Qed.

(** A counter whose keys are all there already keeps its keys. *)
Lemma increment_present_keys (label : string) (bins : Bins) :
  In label (map fst bins) ->
  map fst (increment label bins) = map fst bins.
Proof.
  induction bins as [| [k v] rest IH]; simpl; intros H.
  - destruct H.
  - destruct (String.eqb_spec k label) as [-> | N]; simpl; [reflexivity |].
    f_equal. apply IH. destruct H as [H | H]; [contradiction | exact H].
Qed.

Lemma fill_present_keys {V : Type} (labelOf : V -> string)
    (values : list V) (bins : Bins) :
  (forall v, In (labelOf v) (map fst bins)) ->
  map fst (fill labelOf values bins) = map fst bins.
Proof.
  intros H. unfold fill. revert bins H.
  induction values as [| v values IH]; intros bins H; simpl.
  - reflexivity.
  - rewrite IH.
    + apply increment_present_keys, H.
    + intros w. rewrite increment_present_keys by apply H. apply H.
Qed.

(** A loop that counts only the values passing a test counts the values of
    the filtered array. *)
Lemma conditional_fill {V : Type} (test : V -> bool) (labelOf : V -> string)
    (values : list V) (bins : Bins) :
  fold_left (fun bins v => if test v then increment (labelOf v) bins else bins)
    values bins
  = fill labelOf (filter test values) bins.
Proof.
  unfold fill. revert bins.
  induction values as [| v values IH]; intros bins; simpl.
  - reflexivity.
  - destruct (test v); simpl; apply IH.
Qed.

Lemma occurrences_as_filter {V : Type} (labelOf : V -> string)
    (label : string) (values : list V) :
  occurrences labelOf label values
  = List.length (filter (fun v => String.eqb (labelOf v) label) values).
Proof. reflexivity. Qed.

Lemma filter_length_ext {V : Type} (p q : V -> bool) (values : list V) :
  (forall v, In v values -> p v = q v) ->
  List.length (filter p values) = List.length (filter q values).
Proof.
  intros H. induction values as [| v values IH]; simpl; [reflexivity |].
  rewrite (H v (or_introl eq_refl)).
  destruct (q v); simpl; rewrite IH; auto; intros w Hw; apply H; now right.
Qed.

Lemma yearBinOf_known (year : Q) :
  In (yearBinOf year) (map fst emptyYearBins).
Proof.
  unfold yearBinOf.
  repeat match goal with
         | |- context [if ?c then _ else _] => destruct c
         end; simpl; tauto.
Qed.

Lemma greenBinOf_known (percent : Q) :
  In (greenBinOf percent) (map fst emptyGreenPowerBins).
Proof.
  unfold greenBinOf.
  repeat match goal with
         | |- context [if ?c then _ else _] => destruct c
         end; simpl; tauto.
Qed.

End FixedBins.

Ltac q2prop :=
  repeat match goal with
         | H : Qltb _ _ = true |- _ => apply Qltb_true_iff in H
         | H : Qltb _ _ = false |- _ => apply Qltb_false_iff in H
         | H : Qeqb _ _ = true |- _ => apply Qeqb_true_iff in H
         | H : Qeqb _ _ = false |- _ => apply Qeqb_false_iff in H
         end.

Ltac qcases :=
  repeat match goal with
         | |- context [Qltb ?a ?b] => destruct (Qltb a b) eqn:?
         | |- context [Qeqb ?a ?b] => destruct (Qeqb a b) eqn:?
         end;
  q2prop; simpl.

Section AgeBins.

Import Histogram HistogramFacts Aggregation.

(** The drill-down test of a building-age bar against the bin the chart
    counted the year in. *)
Lemma inAgeBin_yearBinOf (label : string) (year : Q) :
  In label ["1900-1919"; "1920-1939"; "1940-1959"; "1960-1979"; "1980-1999";
            "2000-Present"; "Unknown/Pre-1899"] ->
  inAgeBin label year = String.eqb (yearBinOf year) label.
Proof.
  intros H. simpl in H.
  repeat (destruct H as [<- | H]); try contradiction;
    unfold inAgeBin, yearBinOf; simpl; qcases;
    try reflexivity; exfalso; lra.
Qed.

Lemma inAgeBin_pre1900 (year : Q) :
  inAgeBin "Pre-1900" year = Qltb 0 year && Qltb year 1900.
Proof. reflexivity. Qed.

(** For one year: in the "Pre-1900" drill-down or negative, as often as
    counted under "Pre-1900" or equal to 1899. *)
Lemma pre1900_balance (year : Q) :
  Nat.b2n (Qltb 0 year && Qltb year 1900) + Nat.b2n (Qltb year 0)
  = Nat.b2n (String.eqb (yearBinOf year) "Pre-1900") + Nat.b2n (Qeqb year 1899).
Proof.
  unfold yearBinOf. qcases; try reflexivity; exfalso; lra.
Qed.

Lemma balanced_counts {V : Type} (a b c d : V -> bool) (values : list V) :
  (forall v, Nat.b2n (a v) + Nat.b2n (b v) = Nat.b2n (c v) + Nat.b2n (d v)) ->
  List.length (filter a values) + List.length (filter b values)
  = List.length (filter c values) + List.length (filter d values).
Proof.
  intros H. induction values as [| v values IH]; simpl; [reflexivity |].
  specialize (H v).
  destruct (a v), (b v), (c v), (d v); simpl in *; lia.
Qed.

End AgeBins.

Section RelatedBuildings.

Lemma getRelatedBuildings_age (label : string) (s : AppState) :
  label <> "" ->
  getRelatedBuildings label ageChartId s
  = filter (fun b => inAgeBin label b.(yearBuilt)) (filteredBuildingData s).
Proof.
  intros H. apply truthy_true in H. unfold getRelatedBuildings.
  rewrite H. reflexivity.
Qed.

Lemma getRelatedBuildings_greenPower (label : string) (s : AppState) :
  label <> "" ->
  getRelatedBuildings label greenPowerChartId s
  = filter (fun b => inGreenPowerBin label b.(percentGreenPower))
      (filteredBuildingData s).
Proof.
  intros H. apply truthy_true in H. unfold getRelatedBuildings.
  rewrite H. reflexivity.
Qed.

Lemma inGreenPowerBin_greenBinOf (label : string) (percent : Q) :
  In label ["0% Usage"; "1-25%"; "26-50%"; "51-75%"; "76-100%"] ->
  inGreenPowerBin label percent = String.eqb (Aggregation.greenBinOf percent) label.
Proof.
  intros H. simpl in H.
  repeat (destruct H as [<- | H]); try contradiction;
    unfold inGreenPowerBin, Aggregation.greenBinOf; simpl; qcases;
    try reflexivity; exfalso; lra.
Qed.

Lemma filter_length_le {V : Type} (p : V -> bool) (values : list V) :
  List.length (filter p values) <= List.length values.
Proof.
  induction values as [| v values IH]; simpl; [lia |].
  destruct (p v); simpl; lia.
Qed.

Lemma filter_filter_length {V : Type} (p q : V -> bool) (values : list V) :
  List.length (filter p (filter q values))
  = List.length (filter (fun v => q v && p v) values).
Proof.
  induction values as [| v values IH]; simpl; [reflexivity |].
  destruct (q v); simpl; [destruct (p v); simpl; now rewrite IH | exact IH].
Qed.

End RelatedBuildings.

(** Per bin, the count of [yearBins] is the number of records of the bin. *)
Lemma yearBins_count_every_record_aux (data : list BuildingData) (label : string) :
  Histogram.countOf label (Aggregation.yearBins data)
  = List.length
      (filter (fun d => String.eqb (Aggregation.yearBinOf d.(yearBuilt)) label)
         data).
Proof.
  change (Aggregation.yearBins data)
    with (Histogram.fill (fun d => Aggregation.yearBinOf d.(yearBuilt)) data
            Aggregation.emptyYearBins).
  rewrite HistogramFacts.countOf_fill.
  assert (E : Histogram.countOf label Aggregation.emptyYearBins = 0).
  { unfold Aggregation.emptyYearBins, Histogram.countOf.
    repeat match goal with
           | |- context [String.eqb ?k label] => destruct (String.eqb k label)
           end; reflexivity. }
  rewrite E. unfold Histogram.occurrences. lia.
Qed.

(** X6.  The building-age chart counts every record in exactly one of its
    eight bins: the counts add up to the number of records, the bins stay
    the eight initial ones in their order, and each count is the number of
    records whose year falls in that bin. *)
Theorem yearBins_count_every_record (data : list BuildingData) :
  Histogram.total (Aggregation.yearBins data) = List.length data
  /\ map fst (Aggregation.yearBins data)
     = ["Pre-1900"; "1900-1919"; "1920-1939"; "1940-1959"; "1960-1979";
        "1980-1999"; "2000-Present"; "Unknown/Pre-1899"]
  /\ forall label,
       Histogram.countOf label (Aggregation.yearBins data)
       = Histogram.occurrences
           (fun d => Aggregation.yearBinOf d.(yearBuilt)) label data.
Proof.
  change (Aggregation.yearBins data)
    with (Histogram.fill (fun d => Aggregation.yearBinOf d.(yearBuilt)) data
            Aggregation.emptyYearBins).
  split; [| split].
  - rewrite HistogramFacts.total_fill. simpl. lia.
  - rewrite fill_present_keys; [reflexivity |].
    intros d. apply yearBinOf_known.
  - intros label.
    change (Histogram.fill (fun d => Aggregation.yearBinOf d.(yearBuilt)) data
              Aggregation.emptyYearBins)
      with (Aggregation.yearBins data).
    apply yearBins_count_every_record_aux.
Qed.

(** X7.  The building-age drill-down against the chart, on one active set:
    for every bar but "Pre-1900" the drill-down lists as many buildings as
    the bar counts.  The "Pre-1900" drill-down takes the years strictly
    between 0 and 1900: it adds the records of 1899, which the chart counts
    under "Unknown/Pre-1899", and leaves out the records with a negative
    year, which the chart counts under "Pre-1900". *)
Theorem age_drill_down_against_bars (s : AppState) :
  let active := filteredBuildingData s in
  (forall label,
     In label ["1900-1919"; "1920-1939"; "1940-1959"; "1960-1979";
               "1980-1999"; "2000-Present"; "Unknown/Pre-1899"] ->
     List.length (getRelatedBuildings label ageChartId s)
     = Histogram.countOf label (Aggregation.yearBins active))
  /\ List.length (getRelatedBuildings "Pre-1900" ageChartId s)
     + List.length (filter (fun d => Qltb d.(yearBuilt) 0) active)
     = Histogram.countOf "Pre-1900" (Aggregation.yearBins active)
       + List.length (filter (fun d => Qeqb d.(yearBuilt) 1899) active).
Proof.
  cbv zeta. split.
  - intros label H.
    assert (Hne : label <> "").
    { simpl in H. intros ->.
      repeat (destruct H as [H | H]; [discriminate |]). exact H. }
    rewrite (getRelatedBuildings_age label s Hne).
    rewrite yearBins_count_every_record_aux.
    apply filter_length_ext. intros d _. now apply inAgeBin_yearBinOf.
  - rewrite getRelatedBuildings_age by discriminate.
    rewrite yearBins_count_every_record_aux.
    apply (balanced_counts
             (fun d => inAgeBin "Pre-1900" (yearBuilt d))
             (fun d => Qltb (yearBuilt d) 0)
             (fun d => String.eqb (Aggregation.yearBinOf (yearBuilt d)) "Pre-1900")
             (fun d => Qeqb (yearBuilt d) 1899)).
    intros d. rewrite inAgeBin_pre1900. apply pre1900_balance.
Qed.

Section GreenPowerBins.

Import Histogram HistogramFacts Aggregation.

Lemma greenPowerBins_as_fill (data : list BuildingData) :
  greenPowerBins data
  = fill (fun d => greenBinOf d.(percentGreenPower))
      (filter (fun d => Qltb 0 d.(totalElectricityUseKWh)) data)
      emptyGreenPowerBins.
Proof.
  unfold greenPowerBins.
  apply (conditional_fill (fun d => Qltb 0 d.(totalElectricityUseKWh))
           (fun d => greenBinOf d.(percentGreenPower))).
Qed.

Lemma greenPowerBins_count (data : list BuildingData) (label : string) :
  countOf label (greenPowerBins data)
  = List.length
      (filter (fun d => String.eqb (greenBinOf d.(percentGreenPower)) label)
         (filter (fun d => Qltb 0 d.(totalElectricityUseKWh)) data)).
Proof.
  rewrite greenPowerBins_as_fill, countOf_fill.
  assert (E : countOf label emptyGreenPowerBins = 0).
  { unfold emptyGreenPowerBins, countOf.
    repeat match goal with
           | |- context [String.eqb ?k label] => destruct (String.eqb k label)
           end; reflexivity. }
  rewrite E. unfold occurrences. lia.
Qed.

Lemma leedCounts_as_fill (data : list BuildingData) :
  leedCounts data
  = fill (fun item => if isLeedCertified item then "Certified" else "Not Certified")
      data [("Certified", 0); ("Not Certified", 0)].
Proof.
  unfold leedCounts, fill.
  generalize [("Certified", 0); ("Not Certified", 0)].
  induction data as [| item data IH]; intros counts; simpl; [reflexivity |].
  rewrite IH. now destruct (isLeedCertified item).
Qed.

(** With nothing else restricted, the LEED filter keeps a record by its
    certification alone. *)
Lemma keep_leed_only (value : string) (r : BuildingData) :
  keep (set_leedCertified (Some value) unrestricted) r
  = negb (truthy value
          && ((String.eqb value "certified" && negb (isLeedCertified r))
              || (String.eqb value "not-certified" && isLeedCertified r))).
Proof.
  unfold keep. simpl.
  now destruct (truthy value
                && ((String.eqb value "certified" && negb (isLeedCertified r))
                    || (String.eqb value "not-certified" && isLeedCertified r))).
Qed.

End GreenPowerBins.

(** X8.  The green-power chart counts every record that uses electricity in
    exactly one of its six bins and no other record: the counts add up to
    the number of records with [totalElectricityUseKWh > 0], the bins stay
    the six initial ones, and each count is the number of such records whose
    percentage falls in the bin. *)
Theorem greenPowerBins_count_electricity_users (data : list BuildingData) :
  let users := filter (fun d => Qltb 0 d.(totalElectricityUseKWh)) data in
  Histogram.total (Aggregation.greenPowerBins data) = List.length users
  /\ map fst (Aggregation.greenPowerBins data)
     = ["0% Usage"; "1-25%"; "26-50%"; "51-75%"; "76-100%";
        "Not Reported/Applicable"]
  /\ forall label,
       Histogram.countOf label (Aggregation.greenPowerBins data)
       = Histogram.occurrences
           (fun d => Aggregation.greenBinOf d.(percentGreenPower)) label users.
Proof.
  cbv zeta. split; [| split].
  - rewrite greenPowerBins_as_fill, HistogramFacts.total_fill. simpl. lia.
  - rewrite greenPowerBins_as_fill, fill_present_keys; [reflexivity |].
    intros d. apply greenBinOf_known.
  - intros label. apply greenPowerBins_count.
Qed.

(** X9.  The green-power drill-down against the chart, on one active set:
    for each of the five percentage bars the bar counts the buildings of the
    drill-down that use electricity, so the drill-down lists at least as
    many buildings as the bar shows; it has no test for electricity use.
    For the bar "Not Reported/Applicable" the drill-down finds no building,
    whatever the bar counts. *)
Theorem greenPower_drill_down_against_bars (s : AppState) :
  let active := filteredBuildingData s in
  (forall label,
     In label ["0% Usage"; "1-25%"; "26-50%"; "51-75%"; "76-100%"] ->
     Histogram.countOf label (Aggregation.greenPowerBins active)
     = List.length
         (filter (fun d => Qltb 0 d.(totalElectricityUseKWh))
            (getRelatedBuildings label greenPowerChartId s))
     /\ Histogram.countOf label (Aggregation.greenPowerBins active)
        <= List.length (getRelatedBuildings label greenPowerChartId s))
  /\ getRelatedBuildings "Not Reported/Applicable" greenPowerChartId s = [].
Proof.
  cbv zeta. split.
  - intros label H.
    assert (Hne : label <> "").
    { simpl in H. intros ->.
      repeat (destruct H as [H | H]; [discriminate |]). exact H. }
    rewrite (getRelatedBuildings_greenPower label s Hne), greenPowerBins_count.
    assert (E : List.length
                  (filter
                     (fun d => String.eqb
                                 (Aggregation.greenBinOf (percentGreenPower d)) label)
                     (filter (fun d => Qltb 0 (totalElectricityUseKWh d))
                        (filteredBuildingData s)))
                = List.length
                    (filter (fun d => Qltb 0 (totalElectricityUseKWh d))
                       (filter
                          (fun b => inGreenPowerBin label (percentGreenPower b))
                          (filteredBuildingData s)))).
    { rewrite !filter_filter_length. apply filter_length_ext. intros d _.
      rewrite (inGreenPowerBin_greenBinOf label _ H). apply andb_comm. }
    split; [exact E |].
    rewrite E. apply filter_length_le.
  - rewrite getRelatedBuildings_greenPower by discriminate.
    induction (filteredBuildingData s) as [| d l IH]; simpl; [reflexivity | exact IH].
Qed.

(** X10.  The LEED pie counts every record once, as "Certified" or as "Not
    Certified", and its two slices are as large as the active sets that the
    LEED filter values "certified" and "not-certified" produce when no other
    filter restricts. *)
Theorem leedCounts_match_leed_filter (data : list BuildingData) :
  Histogram.total (Aggregation.leedCounts data) = List.length data
  /\ Histogram.countOf "Certified" (Aggregation.leedCounts data)
     = List.length
         (applyFilters (set_leedCertified (Some "certified") unrestricted) data)
  /\ Histogram.countOf "Not Certified" (Aggregation.leedCounts data)
     = List.length
         (applyFilters (set_leedCertified (Some "not-certified") unrestricted)
            data).
Proof.
  rewrite leedCounts_as_fill. split; [| split].
  - rewrite HistogramFacts.total_fill. simpl. lia.
  - rewrite HistogramFacts.countOf_fill. simpl. rewrite Nat.add_0_r.
    unfold Histogram.occurrences, applyFilters.
    apply filter_length_ext. intros r _. rewrite keep_leed_only.
    now destruct (isLeedCertified r).
  - rewrite HistogramFacts.countOf_fill. simpl. rewrite Nat.add_0_r.
    unfold Histogram.occurrences, applyFilters.
    apply filter_length_ext. intros r _. rewrite keep_leed_only.
    now destruct (isLeedCertified r).
Qed.

(* ------------------------------------------------------------------ *)
(** ** Sorting, ranking and cutting *)

Section StableSort.

Import Aggregation.

Context {A : Type}.
Variable after : A -> A -> bool.

Lemma insertBy_Permutation (e : A) (sorted : list A) :
  Permutation (e :: sorted) (insertBy after e sorted).
Proof.
  induction sorted as [| h rest IH]; simpl.
  - apply Permutation_refl.
  - destruct (after e h).
    + eapply perm_trans; [apply perm_swap |]. now apply perm_skip.
    + apply Permutation_refl.
Qed.

Lemma sortWith_Permutation (arr : list A) : Permutation arr (sortWith after arr).
Proof.
  induction arr as [| e rest IH]; simpl.
  - apply Permutation_refl.
  - eapply perm_trans; [| apply insertBy_Permutation]. now apply perm_skip.
Qed.

Lemma sortWith_length (arr : list A) :
  List.length (sortWith after arr) = List.length arr.
Proof. symmetry. apply Permutation_length, sortWith_Permutation. Qed.

(** [R a b]: [a] may stand before [b]. *)
Variable R : A -> A -> Prop.
Hypothesis R_trans : forall a b c, R a b -> R b c -> R a c.
Hypothesis after_false : forall a b, after a b = false -> R a b.
Hypothesis after_true : forall a b, after a b = true -> R b a.

Lemma insertBy_sorted (e : A) (sorted : list A) :
  StronglySorted R sorted -> StronglySorted R (insertBy after e sorted).
Proof.
  induction sorted as [| h rest IH]; intros Hs; simpl.
  - constructor; [constructor | constructor].
  - apply StronglySorted_inv in Hs. destruct Hs as (Hrest & Hh).
    destruct (after e h) eqn:E.
    + constructor; [now apply IH |].
      apply Forall_forall. intros x Hx.
      apply (Permutation_in _ (Permutation_sym (insertBy_Permutation e rest))) in Hx.
      destruct Hx as [<- | Hx]; [now apply after_true |].
      rewrite Forall_forall in Hh. now apply Hh.
    + constructor; [now constructor |].
      constructor; [now apply after_false |].
      apply Forall_forall. intros x Hx. rewrite Forall_forall in Hh.
      eapply R_trans; [apply after_false, E | now apply Hh].
Qed.

Lemma sortWith_sorted (arr : list A) : StronglySorted R (sortWith after arr).
Proof.
  induction arr as [| e rest IH]; simpl; [constructor |].
  now apply insertBy_sorted.
Qed.

End StableSort.

Section Cutting.

Context {A : Type}.
Variable R : A -> A -> Prop.

Lemma StronglySorted_firstn (n : nat) (l : list A) :
  StronglySorted R l -> StronglySorted R (firstn n l).
Proof.
  revert n. induction l as [| x l IH]; intros [| n] H; simpl; try constructor.
  - apply StronglySorted_inv in H. now apply IH.
  - apply StronglySorted_inv in H. destruct H as (_ & H).
    apply Forall_forall. intros y Hy. rewrite Forall_forall in H.
    apply H. rewrite <- (firstn_skipn n l). apply in_or_app. now left.
Qed.

(** In a sorted array every element cut off stands behind every element
    kept. *)
Lemma StronglySorted_cut (n : nat) (l : list A) (x y : A) :
  StronglySorted R l -> In x (firstn n l) -> In y (skipn n l) -> R x y.
Proof.
  revert n. induction l as [| z l IH]; intros [| n] H Hx Hy; simpl in *;
    try contradiction.
  apply StronglySorted_inv in H. destruct H as (Hl & Hz).
  destruct Hx as [<- | Hx].
  - rewrite Forall_forall in Hz. apply Hz.
    rewrite <- (firstn_skipn n l). apply in_or_app. now right.
  - eapply IH; eassumption.
Qed.

Lemma firstn_full_or_all (n : nat) (l : list A) :
  List.length (firstn n l) = n \/ firstn n l = l.
Proof.
  destruct (Nat.le_gt_cases (List.length l) n) as [H | H].
  - right. now apply firstn_all2.
  - left. rewrite length_firstn. lia.
Qed.

End Cutting.

Section Tallies.

Import Histogram HistogramFacts Aggregation AggregationSpec.

Lemma partition_Permutation {A : Type} (p : A -> bool) (l : list A) :
  Permutation l (filter p l ++ filter (fun x => negb (p x)) l).
Proof.
  induction l as [| x l IH]; simpl; [apply Permutation_refl |].
  destruct (p x); simpl.
  - now apply perm_skip.
  - eapply perm_trans; [apply perm_skip, IH |]. apply Permutation_middle.
Qed.

(** [Object.entries] lists every entry once. *)
Lemma Object_entries_Permutation (counts : Bins) :
  Permutation counts (Object_entries counts).
Proof.
  unfold Object_entries.
  eapply perm_trans;
    [apply (partition_Permutation (fun kv => isArrayIndex (fst kv))) |].
  apply Permutation_app_tail, sortWith_Permutation.
Qed.

Lemma byCountDescending_sorted (entries : Bins) :
  StronglySorted (fun a b => snd b <= snd a) (byCountDescending entries).
Proof.
  unfold byCountDescending. apply sortWith_sorted.
  - intros a b c H1 H2. lia.
  - intros a b H. apply Nat.ltb_ge in H. exact H.
  - intros a b H. apply Nat.ltb_lt in H. lia.
Qed.

Lemma fill_keys_from_values {V : Type} (labelOf : V -> string)
    (values : list V) (bins : Bins) (key : string) :
  In key (map fst (fill labelOf values bins)) ->
  In key (map fst bins) \/ exists v, In v values /\ labelOf v = key.
Proof.
  unfold fill. revert bins.
  induction values as [| v values IH]; intros bins H; simpl in H.
  - now left.
  - apply IH in H. destruct H as [H | (w & Hw & E)].
    + apply keys_increment in H. destruct H as [-> | H]; [| now left].
      right. exists v. split; [now left | reflexivity].
    + right. exists w. split; [now right | exact E].
Qed.

Lemma occurrences_positive {V : Type} (labelOf : V -> string)
    (values : list V) (v : V) :
  In v values -> 1 <= occurrences labelOf (labelOf v) values.
Proof.
  intros H. unfold occurrences.
  assert (Hf : In v (filter (fun w => String.eqb (labelOf w) (labelOf v)) values)).
  { apply filter_In. split; [exact H | apply String.eqb_refl]. }
  destruct (filter _ values); [destruct Hf | simpl; lia].
Qed.

Lemma NoDup_firstn {A : Type} (n : nat) (l : list A) :
  NoDup l -> NoDup (firstn n l).
Proof.
  intros H. rewrite <- (firstn_skipn n l) in H.
  now apply NoDup_app_remove_r in H.
Qed.

(** The ranked, cut tally that the overview and geography charts show. *)
Lemma ranked_tally (limit : nat) (labelOf : BuildingData -> string)
    (data : list BuildingData) :
  RankedTally limit labelOf data
    (firstn limit (byCountDescending (Object_entries (countBy labelOf data)))).
Proof.
  change (countBy labelOf data) with (fill labelOf data []).
  destruct (filled_counts labelOf data) as (_ & Hnd & Hcount).
  set (counts := fill labelOf data []) in *.
  set (ranked := byCountDescending (Object_entries counts)).
  assert (Hperm : Permutation counts ranked).
  { eapply perm_trans; [apply Object_entries_Permutation |].
    apply sortWith_Permutation. }
  assert (Hndr : NoDup (map fst ranked)).
  { eapply Permutation_NoDup; [apply Permutation_map, Hperm | exact Hnd]. }
  assert (Hsorted : StronglySorted (fun a b => snd b <= snd a) ranked)
    by apply byCountDescending_sorted.
  assert (Hentry : forall label n, In (label, n) ranked ->
                     n = occurrences labelOf label data /\ 1 <= n).
  { intros label n Hin.
    apply (Permutation_in _ (Permutation_sym Hperm)) in Hin.
    assert (En : n = occurrences labelOf label data).
    { rewrite <- Hcount. symmetry. now apply countOf_entry. }
    split; [exact En |].
    apply (in_map fst) in Hin. simpl in Hin.
    apply fill_keys_from_values in Hin.
    destruct Hin as [[] | (v & Hv & <-)].
    rewrite En. now apply occurrences_positive. }
  unfold RankedTally. split; [| split; [| split; [| split]]].
  - apply firstn_le_length.
  - rewrite <- firstn_map. now apply NoDup_firstn.
  - now apply StronglySorted_firstn.
  - intros label n Hin. apply Hentry.
    rewrite <- (firstn_skipn limit ranked). apply in_or_app. now left.
  - intros label Hout.
    destruct (Nat.eq_dec (occurrences labelOf label data) 0) as [E0 | N0];
      [now left | right].
    assert (Hkey : In label (map fst counts)).
    { destruct (in_dec string_dec label (map fst counts)) as [H | H];
        [exact H |].
      exfalso. apply N0. rewrite <- Hcount. now apply countOf_absent. }
    destruct (key_entry _ _ Hkey) as (n & Hn).
    apply (Permutation_in _ Hperm) in Hn.
    destruct (Hentry label n Hn) as (En & _).
    rewrite <- (firstn_skipn limit ranked) in Hn.
    apply in_app_or in Hn. destruct Hn as [Hn | Hn].
    { exfalso. apply Hout. apply (in_map fst) in Hn. exact Hn. }
    split.
    + destruct (firstn_full_or_all limit ranked) as [H | H]; [exact H |].
      exfalso. rewrite <- (firstn_skipn limit ranked) in H at 2.
      rewrite <- (app_nil_r (firstn limit ranked)) in H at 1.
      apply app_inv_head in H. rewrite <- H in Hn. destruct Hn.
    + intros entry He. rewrite <- En.
      apply (StronglySorted_cut (fun a b => snd b <= snd a) limit ranked
               entry (label, n) Hsorted He Hn).
Qed.

End Tallies.

(** X11.  For labels that are none of the names an object inherits, the
    department, property-type and city charts each show a ranked tally: at
    most 15, 10 and 20 entries, no label twice, counts from the largest
    down, each count the number of records under that label (an empty name
    counts under "Unknown Department", "Unknown Type" or "Unknown City"),
    every shown count at least 1, and a label that is left out has no more
    records than any label shown.  Before the cut the counts add up to the
    number of records. *)
Theorem overview_charts_show_ranked_tallies (data : list BuildingData) :
  Aggregation.ownKeys Aggregation.departmentLabel data = true ->
  Aggregation.ownKeys Aggregation.typeLabel data = true ->
  Aggregation.ownKeys Aggregation.cityLabel data = true ->
  AggregationSpec.RankedTally 15 Aggregation.departmentLabel data
    (Aggregation.sortedDepts data)
  /\ AggregationSpec.RankedTally 10 Aggregation.typeLabel data
       (Aggregation.sortedTypes data)
  /\ AggregationSpec.RankedTally 20 Aggregation.cityLabel data
       (Aggregation.sortedCities data)
  /\ Histogram.total
       (Aggregation.Object_entries
          (Aggregation.countBy Aggregation.cityLabel data))
     = List.length data.
Proof.
  intros _ _ _.
  split; [| split; [| split]]; try apply ranked_tally.
  rewrite <- (HistogramFacts.total_Permutation _ _
                (Object_entries_Permutation _)).
  change (Aggregation.countBy Aggregation.cityLabel data)
    with (Histogram.fill Aggregation.cityLabel data []).
  rewrite HistogramFacts.total_fill. simpl. lia.
Qed.

Lemma overview_charts_show_ranked_tallies_witness :
  Aggregation.ownKeys Aggregation.departmentLabel Samples.dataset = true
  /\ AggregationSpec.RankedTally 15 Aggregation.departmentLabel Samples.dataset
       (Aggregation.sortedDepts Samples.dataset).
Proof.
  split; [reflexivity |].
  exact (proj1 (overview_charts_show_ranked_tallies Samples.dataset
                  eq_refl eq_refl eq_refl)).
Defined.

Section Ranking.

Import Aggregation AggregationSpec.

Variable key : BuildingData -> Q.

Lemma descending_sorted (arr : list BuildingData) :
  StronglySorted (fun a b => (key b <= key a)%Q)
    (sortWith (fun a b => Qltb (key a) (key b)) arr).
Proof.
  apply sortWith_sorted.
  - intros a b c H1 H2. eapply Qle_trans; eassumption.
  - intros a b H. now apply Qltb_false_iff in H.
  - intros a b H. apply Qltb_true_iff in H. now apply Qlt_le_weak.
Qed.


(** The shape shared by [topEnergyConsumers] and [topWaterConsumers]. *)
Lemma top_by (limit : nat) (data : list BuildingData) :
  TopBy limit key data
    (firstn limit
       (sortWith (fun a b => Qltb (key a) (key b))
          (filter (fun d => Qltb 0 (key d)) data))).
Proof.
  set (positive := filter (fun d => Qltb 0 (key d)) data).
  set (ranked := sortWith (fun a b => Qltb (key a) (key b)) positive).
  assert (Hperm : Permutation positive ranked) by apply sortWith_Permutation.
  assert (Hsorted : StronglySorted (fun a b => (key b <= key a)%Q) ranked)
    by apply descending_sorted.
  unfold TopBy. split; [| split; [| split]].
  - rewrite length_firstn. unfold ranked. now rewrite sortWith_length.
  - now apply StronglySorted_firstn.
  - intros d Hd.
    assert (Hr : In d ranked).
    { rewrite <- (firstn_skipn limit ranked). apply in_or_app. now left. }
    apply (Permutation_in _ (Permutation_sym Hperm)) in Hr.
    apply filter_In in Hr. destruct Hr as (Hin & Hpos).
    split; [exact Hin | now apply Qltb_true_iff].
  - intros d Hin Hpos.
    assert (Hr : In d ranked).
    { apply (Permutation_in _ Hperm). apply filter_In.
      split; [exact Hin | now apply Qltb_true_iff]. }
    rewrite <- (firstn_skipn limit ranked) in Hr.
    apply in_app_or in Hr. destruct Hr as [Hr | Hr]; [now left | right].
    intros x Hx.
    apply (StronglySorted_cut (fun a b => (key b <= key a)%Q) limit ranked
             x d Hsorted Hx Hr).
Qed.

End Ranking.

Section Performers.

Context {A : Type}.
Variable R : A -> A -> Prop.




End Performers.

(** X12.  The "top 10" energy and water charts show the up to ten records
    with the largest positive value, largest first: as many as there are
    records with a positive value, but no more than ten; every record shown
    is a record of the data with a positive value; and every record with a
    positive value that is not shown has a value no larger than any shown. *)
Theorem top_consumers_are_the_largest (data : list BuildingData) :
  AggregationSpec.TopBy 10 siteEnergyUseKbtu data
    (Aggregation.topEnergyConsumers data)
  /\ AggregationSpec.TopBy 10 waterUseKgal data
       (Aggregation.topWaterConsumers data).
Proof.
  split.
  - apply (top_by siteEnergyUseKbtu 10 data).
  - apply (top_by waterUseKgal 10 data).
Qed.


(* ------------------------------------------------------------------ *)
(** ** Start-up *)

Section StartUp.

(** A year range whose lower bound is [Infinity] lets no record pass. *)
Lemma keep_infinite_lower_bound (f : FilterState) (r : BuildingData) :
  fst f.(yearRange) = Infinity -> keep f r = false.
Proof.
  intros H. destruct (keep f r) eqn:E; [exfalso | reflexivity].
  apply keep_satisfiesAll in E. destruct E as (_ & _ & (Hlo & _) & _).
  rewrite H in Hlo. exact Hlo.
Qed.

Lemma initializeFilters_range (s : AppState) :
  currentFilters (initializeFilters s)
  = set_yearRange
      (Math_min_spread (plausibleYears (allBuildingData s)),
       Math_max_spread (plausibleYears (allBuildingData s)))
      (currentFilters s).
Proof. reflexivity. Qed.

End StartUp.

(** X14.  When no record has a year strictly between 1800 and 2030,
    [initializeFilters] sets the year range to [Infinity, -Infinity]: under
    it, and under any filter state with that year range, the active set of
    every record array is empty.  [resetAllFilters] in the same situation
    keeps the default range [1900, 2025]. *)
Theorem initializeFilters_without_plausible_year (s : AppState) :
  plausibleYears (allBuildingData s) = [] ->
  yearRange (currentFilters (initializeFilters s)) = (Infinity, NegInfinity)
  /\ (forall f data,
        yearRange f = yearRange (currentFilters (initializeFilters s)) ->
        applyFilters f data = [])
  /\ currentFilters (resetAllFilters s) = initialFilters.
Proof.
  intros H. rewrite initializeFilters_range, H. simpl. split; [reflexivity | split].
  - intros f data Hf. unfold applyFilters.
    induction data as [| r data IH]; simpl; [reflexivity |].
    rewrite keep_infinite_lower_bound; [exact IH | now rewrite Hf].
  - unfold resetAllFilters. unfold plausibleYears in H. rewrite H.
    now destruct (0 <? List.length (allBuildingData s)).
Qed.

Lemma initializeFilters_without_plausible_year_witness :
  yearRange
    (currentFilters (initializeFilters (fetched [Samples.depot])))
  = (Infinity, NegInfinity)
  /\ applyFilters (currentFilters (initializeFilters (fetched [Samples.depot])))
       [Samples.depot; Samples.capitol] = [].
Proof.
  destruct (initializeFilters_without_plausible_year (fetched [Samples.depot]))
    as (H1 & H2 & _).
  - reflexivity.
  - split; [exact H1 | now apply H2].
Defined.



(* ------------------------------------------------------------------ *)
(** ** The other branches of [filterToCategory] *)

Section CategoryBranches.

Lemma filterToCategory_department (label : string) (s : AppState) :
  filterToCategory label deptChartId s
  = set_drillDownPanel None
      (updateFilteredData
         (showNotification ("Filtered to department: " ++ label) success
            (set_currentFilters
               (set_departments [label] (currentFilters s)) s))).
Proof. reflexivity. Qed.

Lemma filterToCategory_age (label : string) (s : AppState) :
  filterToCategory label ageChartId s
  = set_drillDownPanel None
      (updateFilteredData
         (showNotification ("Filtered to building age: " ++ label) success
            (set_currentFilters (ageBinRange label (currentFilters s)) s))).
Proof. reflexivity. Qed.

(** One selected department adds the test [item.departmentName === label]
    to the other predicates. *)
Lemma keep_single_department (label : string) (f : FilterState) (r : BuildingData) :
  keep (set_departments [label] f) r
  = keep (set_departments [] f) r && String.eqb r.(departmentName) label.
Proof.
  unfold keep, Array_includes. simpl. rewrite orb_false_r.
  destruct (String.eqb (departmentName r) label); simpl.
  - now rewrite andb_true_r.
  - now rewrite andb_false_r.
Qed.

Lemma satisfiesAll_energyRange (lo hi : Q) (f : FilterState) (r : BuildingData) :
  satisfiesAll (set_energyRange (Fin lo, Fin hi) f) r
  <-> (lo <= r.(siteEnergyUseKbtu))%Q /\ (r.(siteEnergyUseKbtu) <= hi)%Q
      /\ satisfiesAll (set_energyRange (NegInfinity, Infinity) f) r.
Proof.
  unfold satisfiesAll, departmentOk, propertyTypeOk, inRange, leedOk,
    searchOk, cityOk. simpl. tauto.
Qed.

End CategoryBranches.

(** X16.  "Filter to This Category" on the department chart is a single
    selection: whatever was selected before, the selected departments
    become the one label, no other filter changes, and the recomputed active
    set is exactly the records of the dataset with that department name
    among those passing the other predicates, in dataset order. *)
Theorem filterToCategory_selects_one_department (label : string) (s : AppState) :
  let s' := filterToCategory label deptChartId s in
  let others := set_departments [] (currentFilters s) in
  currentFilters s' = set_departments [label] (currentFilters s)
  /\ filteredBuildingData s'
     = filter (fun r => String.eqb r.(departmentName) label)
         (applyFilters others (allBuildingData s))
  /\ (forall r, In r (filteredBuildingData s') <->
                In r (allBuildingData s)
                /\ r.(departmentName) = label
                /\ satisfiesAll others r)
  /\ drillDownPanel s' = None.
Proof.
  cbv zeta. rewrite filterToCategory_department. simpl.
  assert (E : applyFilters (set_departments [label] (currentFilters s))
                (allBuildingData s)
              = filter (fun r => String.eqb r.(departmentName) label)
                  (applyFilters (set_departments [] (currentFilters s))
                     (allBuildingData s))).
  { unfold applyFilters.
    induction (allBuildingData s) as [| r l IH]; simpl; [reflexivity |].
    rewrite keep_single_department, IH.
    destruct (keep (set_departments [] (currentFilters s)) r); simpl;
      [| reflexivity].
    now destruct (String.eqb (departmentName r) label). }
  split; [reflexivity | split; [exact E | split; [| reflexivity]]].
  intros r. rewrite E, filter_In, String.eqb_eq, applyFilters_In. tauto.
Qed.

(** X17.  The year range that "Filter to This Category" sets for a
    building-age bar, against the bin of the chart, for whole-number years:
    for the five bars from "1900-1919" to "1980-1999" a year is in the range
    exactly when the chart counts it in that bar.  The range of
    "2000-Present" ends at 2025, so it holds only years of that bar, not
    all; the range of "Unknown/Pre-1899" is everything from 0 to 1899, so it
    holds every year of that bar and the years in between as well. *)
Theorem age_filter_range_against_bins (f : FilterState) (year : Z) :
  (forall label,
     In label ["1900-1919"; "1920-1939"; "1940-1959"; "1960-1979";
               "1980-1999"] ->
     (inRange (inject_Z year) (yearRange (ageBinRange label f))
      <-> Aggregation.yearBinOf (inject_Z year) = label))
  /\ (inRange (inject_Z year) (yearRange (ageBinRange "2000-Present" f))
      <-> Aggregation.yearBinOf (inject_Z year) = "2000-Present"
          /\ (year <= 2025)%Z)
  /\ (inRange (inject_Z year) (yearRange (ageBinRange "Unknown/Pre-1899" f))
      <-> (0 <= year <= 1899)%Z)
  /\ (Aggregation.yearBinOf (inject_Z year) = "Unknown/Pre-1899"
      <-> year = 0%Z \/ year = 1899%Z).
Proof.
  assert (L : forall a b : Z, (inject_Z a <= inject_Z b)%Q <-> (a <= b)%Z).
  { intros a b. rewrite <- Zle_Qle. reflexivity. }
  assert (B : forall a b : Z, Qltb (inject_Z a) (inject_Z b) = (a <? b)%Z).
  { intros a b. unfold Qltb. simpl. now rewrite !Z.mul_1_r. }
  assert (E : forall a b : Z, Qeqb (inject_Z a) (inject_Z b) = (a =? b)%Z).
  { intros a b. unfold Qeqb. simpl. now rewrite !Z.mul_1_r. }
  unfold Aggregation.yearBinOf.
  change 0%Q with (inject_Z 0). change 1899%Q with (inject_Z 1899).
  change 1900%Q with (inject_Z 1900). change 1920%Q with (inject_Z 1920).
  change 1940%Q with (inject_Z 1940). change 1960%Q with (inject_Z 1960).
  change 1980%Q with (inject_Z 1980). change 2000%Q with (inject_Z 2000).
  rewrite !B, !E.
  split; [| split; [| split]].
  - intros label H. simpl in H.
    repeat (destruct H as [<- | H]); try contradiction;
      unfold inRange; simpl;
      match goal with
      | |- (?lo <= _)%Q /\ (_ <= ?hi)%Q <-> _ =>
          change lo with (inject_Z (Qnum lo));
          change hi with (inject_Z (Qnum hi))
      end;
      rewrite !L; simpl;
      repeat match goal with
             | |- context [(?a <? ?b)%Z] => destruct (Z.ltb_spec a b)
             | |- context [(?a =? ?b)%Z] => destruct (Z.eqb_spec a b)
             end; simpl; split; intros; try discriminate; try lia;
      try reflexivity.
  - unfold inRange; simpl.
    change 2000%Q with (inject_Z 2000). change 2025%Q with (inject_Z 2025).
    rewrite !L.
    repeat match goal with
           | |- context [(?a <? ?b)%Z] => destruct (Z.ltb_spec a b)
           | |- context [(?a =? ?b)%Z] => destruct (Z.eqb_spec a b)
           end; simpl; split; intros; try lia;
      try (split; [reflexivity | lia]);
      try (destruct H as (H & _); discriminate);
      try match goal with H : _ /\ _ |- _ => destruct H; discriminate end.
  - unfold inRange; simpl.
    change 0%Q with (inject_Z 0). change 1899%Q with (inject_Z 1899).
    rewrite !L. reflexivity.
  - repeat match goal with
           | |- context [(?a <? ?b)%Z] => destruct (Z.ltb_spec a b)
           | |- context [(?a =? ?b)%Z] => destruct (Z.eqb_spec a b)
           end; simpl; split; intros; try discriminate; try lia;
      try reflexivity.
Qed.

(** X18.  Selecting a green-power bar filters on site energy use, not on
    the green-power percentage: after a click on "0% Usage" the active set
    is exactly the records with [siteEnergyUseKbtu] equal to 0 among those
    passing the other predicates, after a click on "1-25%" exactly those
    with [siteEnergyUseKbtu] from 1 to 25; "Filter to This Category" for
    "0% Usage" gives the same active set as the click. *)
Theorem green_power_bar_filters_on_site_energy (s : AppState) :
  let others := set_energyRange (NegInfinity, Infinity) (currentFilters s) in
  (forall r,
     In r (filteredBuildingData (handleGreenPowerBinClick "0% Usage" s)) <->
     In r (allBuildingData s)
     /\ (r.(siteEnergyUseKbtu) == 0)%Q
     /\ satisfiesAll others r)
  /\ (forall r,
        In r (filteredBuildingData (handleGreenPowerBinClick "1-25%" s)) <->
        In r (allBuildingData s)
        /\ (1 <= r.(siteEnergyUseKbtu))%Q /\ (r.(siteEnergyUseKbtu) <= 25)%Q
        /\ satisfiesAll others r)
  /\ filteredBuildingData (filterToCategory "0% Usage" greenPowerChartId s)
     = filteredBuildingData (handleGreenPowerBinClick "0% Usage" s).
Proof.
  cbv zeta. split; [| split].
  - intros r.
    change (filteredBuildingData (handleGreenPowerBinClick "0% Usage" s))
      with (applyFilters (set_energyRange (Fin 0, Fin 0) (currentFilters s))
              (allBuildingData s)).
    rewrite applyFilters_In, satisfiesAll_energyRange.
    split.
    + intros (Hin & Hlo & Hhi & Hs).
      split; [exact Hin | split; [now apply Qle_antisym | exact Hs]].
    + intros (Hin & He & Hs).
      split; [exact Hin | split; [| split; [| exact Hs]]];
        rewrite He; apply Qle_refl.
  - intros r.
    change (filteredBuildingData (handleGreenPowerBinClick "1-25%" s))
      with (applyFilters (set_energyRange (Fin 1, Fin 25) (currentFilters s))
              (allBuildingData s)).
    rewrite applyFilters_In, satisfiesAll_energyRange. tauto.
  - reflexivity.
Qed.

(* ------------------------------------------------------------------ *)
(** ** Clicks on the scatter chart and the drill-down panel *)

Section ScatterClicks.

Lemma handleChartClick_scatter
    (labels : list string) (element : InteractionItem)
    (others : list InteractionItem) (s : AppState) :
  handleChartClick labels (element :: others) scatterChartId s
  = showDrillDownPanel (nth element.(index) labels "") scatterChartId
      (handleScatterPointClick element.(index) s).
Proof. reflexivity. Qed.

Lemma getRelatedBuildings_scatter (label : string) (s : AppState) :
  getRelatedBuildings label scatterChartId s = [].
Proof.
  unfold getRelatedBuildings.
  destruct (negb (truthy label) || negb (truthy scatterChartId));
    reflexivity.
Qed.

End ScatterClicks.

(** X19.  A click on point [i] of the scatter chart opens the details of
    record [i] of the active set and no drill-down panel; nothing opens
    when the active set has no record [i].  The chart plots only the records
    inside its size and energy window, so the record opened is the building
    plotted at point [i] when every record of the active set is plotted. *)
Theorem scatter_click_opens_record_of_active_set
    (labels : list string) (i : nat) (s : AppState) :
  let s' := handleChartClick labels [mkInteractionItem i 0] scatterChartId s in
  drillDownPanel s' = None
  /\ currentFilters s' = currentFilters s
  /\ modals s'
     = match nth_error (filteredBuildingData s) i with
       | Some building => modals s ++ [building]
       | None => modals s
       end
  /\ ((forall r, In r (filteredBuildingData s) ->
                 Aggregation.scatterPlotted r = true) ->
      forall plotted,
        nth_error (Aggregation.filteredScatterData (filteredBuildingData s)) i
        = Some plotted ->
        modals s' = modals s ++ [plotted]).
Proof.
  cbv zeta. rewrite handleChartClick_scatter. simpl.
  unfold showDrillDownPanel. rewrite getRelatedBuildings_scatter.
  unfold handleScatterPointClick.
  split; [reflexivity | split; [| split]].
  - now destruct (nth_error (filteredBuildingData s) i).
  - now destruct (nth_error (filteredBuildingData s) i).
  - intros Hall plotted Hp.
    unfold Aggregation.filteredScatterData in Hp.
    rewrite (filter_all _ _ Hall) in Hp. now rewrite Hp.
Qed.

(** The point and the record opened can differ: with one record outside
    the chart's window ahead of it, the building plotted at point 1 is not
    the one whose details open. *)
Example scatter_click_opens_another_building :
  let s := Samples.loaded Samples.dataset Samples.openFilters in
  nth_error (Aggregation.filteredScatterData (filteredBuildingData s)) 1
  = Some Samples.lab
  /\ modals (handleChartClick [] [mkInteractionItem 1 0] scatterChartId s)
     = [Samples.depot].
Proof. split; reflexivity. Qed.

(** X20.  After [showDrillDownPanel] the drill-down panel is open exactly
    when the clicked category has buildings in the active set, and it then
    carries the clicked label and the chart; nothing else changes; the buildings of a
    category are always records of the active set, in its order; an empty
    label, an empty chart id and a chart that is none of the five known
    kinds have no buildings, so no panel. *)
Theorem drill_down_panel_needs_related_buildings
    (label chartId : string) (s : AppState) :
  let related := getRelatedBuildings label chartId s in
  let s' := showDrillDownPanel label chartId s in
  Subsequence related (filteredBuildingData s)
  /\ (related = [] <-> drillDownPanel s' = None)
  /\ (related <> [] -> drillDownPanel s' = Some (label, chartId))
  /\ s' = set_drillDownPanel (drillDownPanel s') s
  /\ (label = "" \/ chartId = ""
      \/ (includes chartId "deptDistribution" = false
          /\ includes chartId "propertyTypes" = false
          /\ includes chartId "cityDistribution" = false
          /\ includes chartId "buildingAge" = false
          /\ includes chartId "greenPower" = false) ->
      related = []).
Proof.
  cbv zeta. split; [| split; [| split; [| split]]].
  - unfold getRelatedBuildings.
    assert (Hnil : forall l : list BuildingData, Subsequence [] l).
    { induction l; now constructor. }
    repeat match goal with
           | |- context [if ?c then _ else _] => destruct c
           end; try apply Hnil; apply filter_Subsequence.
  - unfold showDrillDownPanel.
    destruct (getRelatedBuildings label chartId s); simpl;
      split; intros; congruence.
  - unfold showDrillDownPanel.
    destruct (getRelatedBuildings label chartId s); simpl; congruence.
  - apply showDrillDownPanel_frame.
  - unfold getRelatedBuildings.
    intros [-> | [-> | (H1 & H2 & H3 & H4 & H5)]].
    + reflexivity.
    + now rewrite orb_true_r.
    + rewrite H1, H2, H3, H4, H5.
      now destruct (negb (truthy label) || negb (truthy chartId)).
Qed.

(* ------------------------------------------------------------------ *)
(** ** Chart data export and the normalizer *)

Section ChartExportFacts.

Import Reporting ChartExport.

Lemma dataToExport_empty (type : string) (s : AppState) :
  filteredBuildingData s = [] -> fst (dataToExport type s) = [].
Proof.
  intros H. unfold dataToExport. rewrite H.
  now destruct (String.eqb type "departments"),
               (String.eqb type "propertyTypes").
Qed.

Lemma exportChartData_unfold (numberText : Q -> string) (type : string)
    (s : AppState) :
  exportChartData numberText type s
  = showNotification
      ("Exported "
       ++ Histogram.Number_toString
            (Z.of_nat (List.length (fst (dataToExport type s))))
       ++ " records to " ++ snd (dataToExport type s))
      success
      (download
         {| filename := snd (dataToExport type s);
            mimeType := "text/csv";
            content :=
              join newline
                (join "," (match nth_error (fst (dataToExport type s)) 0 with
                           | Some first => fst first
                           | None => []
                           end)
                 :: map (fun item => join "," (map (csvCell numberText) (snd item)))
                      (fst (dataToExport type s))) |} s).
Proof.
  unfold exportChartData. now destruct (dataToExport type s).
Qed.

End ChartExportFacts.

(** X21.  [exportChartData] has no guard for an empty active set and needs
    none: for every export type it downloads one CSV file and shows one
    success notification, and leaves filters, active set and comparison
    list alone; with an empty active set the file is empty and the
    notification reports 0 records. *)
Theorem exportChartData_on_empty_active_set
    (numberText : Q -> string) (type : string) (s : AppState) :
  let s' := ChartExport.exportChartData numberText type s in
  let file := snd (ChartExport.dataToExport type s) in
  (exists text,
     downloads s'
     = downloads s ++ [mkDownload file "text/csv" text]
     /\ (filteredBuildingData s = [] -> text = ""))
  /\ (exists message,
        notifications s' = notifications s ++ [mkNotification message success]
        /\ (filteredBuildingData s = [] ->
            message = ("Exported 0 records to " ++ file)%string))
  /\ In file ["department_distribution.csv"; "property_type_distribution.csv";
              "filtered_buildings.csv"]
  /\ currentFilters s' = currentFilters s
  /\ filteredBuildingData s' = filteredBuildingData s
  /\ chartInteractionState s' = chartInteractionState s.
Proof.
  cbv zeta. rewrite exportChartData_unfold. simpl.
  split; [| split; [| split; [| repeat split]]].
  - eexists. split; [reflexivity |].
    intros H. now rewrite (dataToExport_empty type s H).
  - eexists. split; [reflexivity |].
    intros H. now rewrite (dataToExport_empty type s H).
  - unfold ChartExport.dataToExport.
    destruct (String.eqb type "departments"),
             (String.eqb type "propertyTypes"); simpl; tauto.
Qed.

(** X22.  [getNumericValue] never returns [NaN], whatever [parseFloat]
    does: a missing value, [null], a [NaN] number, a string that is empty
    or only white space, an unparsable string and a value of another type
    all become 0; a number that is not [NaN] is returned as it is; a string
    is parsed with its commas taken out. *)
Theorem getNumericValue_never_NaN
    (parseFloat : string -> Normalizer.Double) (value : Normalizer.RawValue) :
  Normalizer.getNumericValue parseFloat value <> Normalizer.NaN
  /\ (forall n, Normalizer.getNumericValue parseFloat
                  (Normalizer.RawNumber (Normalizer.Val n))
                = Normalizer.Val n)
  /\ (forall text,
        trim text <> "" ->
        Normalizer.getNumericValue parseFloat (Normalizer.RawString text)
        = Normalizer.orZero (parseFloat (Histogram.removeCommas text)))
  /\ (forall text,
        trim text = "" ->
        Normalizer.getNumericValue parseFloat (Normalizer.RawString text)
        = Normalizer.Val (Fin 0)).
Proof.
  split; [| split; [| split]].
  - destruct value as [| | [| n] | text |]; simpl; try discriminate.
    destruct (String.eqb (trim text) ""); [discriminate |].
    destruct (parseFloat _); discriminate.
  - reflexivity.
  - intros text H. simpl. apply String.eqb_neq in H. now rewrite H.
  - intros text H. simpl. now rewrite H.
Qed.


(* ------------------------------------------------------------------ *)
(** ** Invariants over runs and over the histogram *)

Section Runs.

Lemma comparison_ops_keep_data (op : ComparisonOp) (s : AppState) :
  allBuildingData (applyComparisonOp op s) = allBuildingData s
  /\ currentFilters (applyComparisonOp op s) = currentFilters s
  /\ filteredBuildingData (applyComparisonOp op s) = filteredBuildingData s.
Proof.
  destruct op as [id | id |]; simpl.
  - unfold addToComparison.
    destruct (find _ (allBuildingData s)); [| repeat split].
    destruct (findIndex _ _ =? -1)%Z; repeat split.
  - unfold removeFromComparison.
    destruct (negb _); [| repeat split].
    destruct (nth_error _ _); repeat split.
  - repeat split.
Qed.

End Runs.

(** Every operation of the comparison set keeps the list unique by
    property id. *)
Lemma comparison_list_stays_unique_ops (op : ComparisonOp) (s : AppState) :
  NoDup (map propertyId (selectedItems (chartInteractionState s))) ->
  NoDup (map propertyId
           (selectedItems (chartInteractionState (applyComparisonOp op s)))).
Proof.
  intros H. destruct op as [id | id |]; simpl.
  - now apply (comparison_list_stays_unique id s).
  - now apply (comparison_list_stays_unique id s).
  - constructor.
Qed.

(** X23.  From the page as [initializeApp] leaves it, whatever is added to,
    removed from or cleared out of the comparison set, in any order and any
    number of times, the list never holds two entries with the same
    property id, every entry is a record of the dataset, and the dataset,
    the filters and the active set stay those of the loaded page. *)
Theorem comparison_set_invariant
    (data : list BuildingData) (s0 : AppState) (ops : list ComparisonOp) :
  initializeApp data = Some s0 ->
  let s := runComparisonOps ops s0 in
  NoDup (map propertyId (selectedItems (chartInteractionState s)))
  /\ incl (selectedItems (chartInteractionState s)) data
  /\ allBuildingData s = data
  /\ currentFilters s = currentFilters s0
  /\ filteredBuildingData s = filteredBuildingData s0.
Proof.
  intros Hinit. unfold initializeApp in Hinit.
  destruct (List.length data =? 0); [discriminate |].
  injection Hinit as <-.
  cbv zeta. unfold runComparisonOps.
  assert (G : forall ops s,
             NoDup (map propertyId (selectedItems (chartInteractionState s))) ->
             incl (selectedItems (chartInteractionState s)) (allBuildingData s) ->
             let s' := fold_left (fun s op => applyComparisonOp op s) ops s in
             NoDup (map propertyId (selectedItems (chartInteractionState s')))
             /\ incl (selectedItems (chartInteractionState s')) (allBuildingData s)
             /\ allBuildingData s' = allBuildingData s
             /\ currentFilters s' = currentFilters s
             /\ filteredBuildingData s' = filteredBuildingData s).
  { clear. induction ops as [| op ops IH]; intros s Hnd Hin; simpl.
    - repeat split; assumption.
    - destruct (comparison_ops_keep_data op s) as (Ea & Ef & Ed).
      destruct (IH (applyComparisonOp op s)) as (H1 & H2 & H3 & H4 & H5).
      + now apply comparison_list_stays_unique_ops.
      + rewrite Ea. destruct op as [id | id |]; simpl.
        * unfold addToComparison.
          destruct (find _ (allBuildingData s)) as [b |] eqn:Efind;
            [| exact Hin].
          destruct (findIndex _ _ =? -1)%Z; simpl; [| exact Hin].
          apply incl_app; [exact Hin |].
          intros x [<- | []]. now apply find_some in Efind.
        * unfold removeFromComparison.
          destruct (negb _); [| exact Hin].
          destruct (nth_error _ _); [| exact Hin].
          simpl. intros x Hx. apply Hin. eapply removeAt_incl, Hx.
        * intros x [].
      + rewrite Ea in H2, H3. rewrite Ef in H4. rewrite Ed in H5.
        repeat split; assumption. }
  apply (G ops (initializeFilters (fetched data))); simpl;
    [constructor | intros x []].
Qed.

Lemma comparison_set_invariant_witness :
  let s0 := initializeFilters (fetched Samples.dataset) in
  let s := runComparisonOps
             [Add "P1"; Add "P3"; Add "P1"; Remove "P2"; Remove "P1"; Add "P9"]
             s0 in
  initializeApp Samples.dataset = Some s0
  /\ NoDup (map propertyId (selectedItems (chartInteractionState s)))
  /\ currentFilters s = currentFilters s0.
Proof.
  intros s0 s.
  destruct (comparison_set_invariant Samples.dataset s0
              [Add "P1"; Add "P3"; Add "P1"; Remove "P2"; Remove "P1"; Add "P9"]
              eq_refl) as (Hnd & _ & _ & Hf & _).
  split; [reflexivity | split; [exact Hnd | exact Hf]].
Defined.

Section WaterBinBounds.

Import Histogram HistogramFacts.

Lemma binSizeFor_covers (max : Q) (numBins fallback : Z) :
  (0 < max)%Q -> (0 < numBins)%Z -> (0 < fallback)%Z ->
  (max <= inject_Z numBins * inject_Z (binSizeFor max numBins fallback))%Q.
Proof.
  intros Hmax Hn Hf. unfold binSizeFor.
  assert (Hq : (0 < inject_Z numBins)%Q).
  { change 0%Q with (inject_Z 0). now rewrite <- Zlt_Qlt. }
  assert (Hc : (max / inject_Z numBins
                <= inject_Z (Qceiling (max / inject_Z numBins)))%Q)
    by apply Qle_ceiling.
  assert (Hpos : (0 < max / inject_Z numBins)%Q).
  { apply Qlt_shift_div_l; [exact Hq | now rewrite Qmult_0_l]. }
  destruct (Z.eqb_spec (Qceiling (max / inject_Z numBins)) 0) as [E | N].
  - exfalso. rewrite E in Hc. change (inject_Z 0) with 0%Q in Hc. lra.
  - assert (Hm : (max / inject_Z numBins * inject_Z numBins == max)%Q).
    { field. intros E. rewrite E in Hq. now apply Qlt_irrefl in Hq. }
    apply (Qmult_le_compat_r _ _ (inject_Z numBins)) in Hc;
      [| now apply Qlt_le_weak].
    rewrite Hm in Hc. rewrite Qmult_comm. exact Hc.
Qed.

End WaterBinBounds.

(** X24.  In the water histogram the bin width is positive and, with exact
    division, every value counted lies in its bin,
    [binStart <= value < binStart + binSize], where [binStart] is one of
    the eleven multiples [0, binSize, ..., 10 * binSize] of the width. *)
Theorem water_values_lie_in_their_bins
    (data : list BuildingData) (d0 : BuildingData) (ds : list BuildingData) :
  Histogram.waterUsePositive data = d0 :: ds ->
  let binSize :=
    Histogram.binSizeFor
      (Math_max d0.(waterUseKgal) (map waterUseKgal ds)) 10 100 in
  (0 < binSize)%Z
  /\ forall d, In d (d0 :: ds) ->
       let binStart := Histogram.binStartOf d.(waterUseKgal) binSize in
       (inject_Z binStart <= d.(waterUseKgal))%Q
       /\ (d.(waterUseKgal) < inject_Z (binStart + binSize))%Q
       /\ exists k, (0 <= k <= 10)%Z /\ binStart = (k * binSize)%Z.
Proof.
  intros E. cbv zeta.
  set (top := Math_max (waterUseKgal d0) (map waterUseKgal ds)).
  assert (Hpos : forall d, In d (d0 :: ds) -> (0 < waterUseKgal d)%Q).
  { intros d Hd. rewrite <- E in Hd. apply filter_In in Hd.
    destruct Hd as (_ & Hd). now apply Qltb_true_iff. }
  assert (Htop : forall d, In d (d0 :: ds) -> (waterUseKgal d <= top)%Q).
  { intros d Hd. apply Math_max_spec.
    change (waterUseKgal d0 :: map waterUseKgal ds)
      with (map waterUseKgal (d0 :: ds)).
    now apply in_map. }
  assert (Htop0 : (0 < top)%Q).
  { eapply Qlt_le_trans; [apply (Hpos d0); now left | apply Htop; now left]. }
  assert (Hb : (0 < Histogram.binSizeFor top 10 100)%Z).
  { apply HistogramFacts.binSizeFor_positive; [exact Htop0 | lia | lia]. }
  split; [exact Hb |].
  intros d Hd.
  destruct (value_in_its_bin (waterUseKgal d) _ Hb) as (Hlo & Hhi).
  split; [exact Hlo | split; [exact Hhi |]].
  exists (Qfloor (waterUseKgal d / inject_Z (Histogram.binSizeFor top 10 100))).
  split; [| reflexivity].
  assert (Hq : (0 < inject_Z (Histogram.binSizeFor top 10 100))%Q).
  { change 0%Q with (inject_Z 0). now rewrite <- Zlt_Qlt. }
  split.
  - change 0%Z with (Qfloor 0). apply Qfloor_resp_le.
    apply Qlt_le_weak, Qlt_shift_div_l; [exact Hq |].
    rewrite Qmult_0_l. now apply Hpos.
  - change 10%Z with (Qfloor 10). apply Qfloor_resp_le.
    apply Qle_shift_div_r; [exact Hq |].
    eapply Qle_trans; [now apply Htop |].
    apply (binSizeFor_covers top 10 100); [exact Htop0 | lia | lia].
Qed.

Lemma water_values_lie_in_their_bins_witness :
  (0 < Histogram.binSizeFor
         (Math_max Samples.capitol.(waterUseKgal)
            (map waterUseKgal [Samples.lab])) 10 100)%Z.
Proof.
  apply (water_values_lie_in_their_bins Samples.dataset Samples.capitol
           [Samples.lab]).
  reflexivity.
Defined.

(* ------------------------------------------------------------------ *)
(** ** Renewable adoption by property type *)

Section GroupRateFacts.

Import Aggregation GroupRate.

Lemma statsOf_tally (type other : string) (renewable : bool) (acc : Stats) :
  statsOf other (tally type renewable acc)
  = if String.eqb type other
    then (fst (statsOf other acc) + 1,
          if renewable then snd (statsOf other acc) + 1
          else snd (statsOf other acc))
    else statsOf other acc.
Proof.
  induction acc as [| [k [t w]] rest IH]; simpl.
  - destruct (String.eqb type other); [now destruct renewable | reflexivity].
  - destruct (String.eqb_spec k type) as [-> | N]; simpl.
    + destruct (String.eqb type other); [reflexivity | reflexivity].
    + destruct (String.eqb_spec k other) as [-> | N'].
      * apply String.eqb_neq in N. rewrite String.eqb_sym in N.
        now rewrite N.
      * exact IH.
Qed.

Lemma keys_tally (type key : string) (renewable : bool) (acc : Stats) :
  In key (map fst (tally type renewable acc))
  <-> key = type \/ In key (map fst acc).
Proof.
  induction acc as [| [k [t w]] rest IH]; simpl.
  - intuition.
  - destruct (String.eqb_spec k type) as [-> | N]; simpl.
    + intuition.
    + rewrite IH. intuition.
Qed.

Lemma NoDup_tally (type : string) (renewable : bool) (acc : Stats) :
  NoDup (map fst acc) -> NoDup (map fst (tally type renewable acc)).
Proof.
  induction acc as [| [k [t w]] rest IH]; simpl; intros H.
  - constructor; [intros [] | constructor].
  - inversion H as [| ? ? Hk Hrest]; subst.
    destruct (String.eqb_spec k type) as [-> | N]; simpl.
    + now constructor.
    + constructor; [| now apply IH].
      rewrite keys_tally. intros [-> | Hin]; contradiction.
Qed.

(** After the [reduce], the entry of a type holds its number of buildings
    and its number of renewable buildings. *)
Lemma renewableByType_stats (data : list BuildingData) (label : string) :
  NoDup (map fst (renewableByType data))
  /\ statsOf label (renewableByType data)
     = (buildingsOfType label data, renewableOfType label data).
Proof.
  unfold renewableByType, buildingsOfType, renewableOfType.
  assert (G : forall acc : Stats,
             NoDup (map fst acc) ->
             NoDup (map fst
                      (fold_left
                         (fun acc b => tally (typeLabel b) (isRenewable b) acc)
                         data acc))
             /\ statsOf label
                  (fold_left
                     (fun acc b => tally (typeLabel b) (isRenewable b) acc)
                     data acc)
                = (fst (statsOf label acc)
                   + List.length
                       (filter (fun b => String.eqb (typeLabel b) label) data),
                   snd (statsOf label acc)
                   + List.length
                       (filter (fun b => String.eqb (typeLabel b) label
                                         && isRenewable b) data))).
  { induction data as [| b data IH]; intros acc Hnd; simpl.
    - split; [exact Hnd |]. rewrite !Nat.add_0_r. now destruct (statsOf label acc).
    - destruct (IH (tally (typeLabel b) (isRenewable b) acc)
                  (NoDup_tally _ _ _ Hnd)) as (H1 & H2).
      split; [exact H1 |]. rewrite H2, statsOf_tally.
      destruct (String.eqb (typeLabel b) label); simpl;
        [destruct (isRenewable b); simpl; f_equal; lia | reflexivity]. }
  destruct (G [] (NoDup_nil _)) as (H1 & H2). split; [exact H1 | exact H2].
Qed.

Lemma statsOf_entry (label : string) (v : nat * nat) (stats : Stats) :
  NoDup (map fst stats) -> In (label, v) stats -> statsOf label stats = v.
Proof.
  induction stats as [| [k u] rest IH]; simpl; intros Hnd Hin.
  - destruct Hin.
  - inversion Hnd as [| ? ? Hk Hrest]; subst.
    destruct Hin as [[= -> ->] | Hin].
    + now rewrite String.eqb_refl.
    + destruct (String.eqb_spec k label) as [-> | N].
      * exfalso. apply Hk. apply (in_map fst) in Hin. exact Hin.
      * now apply IH.
Qed.

Lemma entriesOf_Permutation (stats : Stats) : Permutation stats (entriesOf stats).
Proof.
  unfold entriesOf.
  eapply perm_trans;
    [apply (partition_Permutation (fun kv => isArrayIndex (fst kv))) |].
  apply Permutation_app_tail, sortWith_Permutation.
Qed.

(** Dropping entries keeps the keys distinct. *)
Lemma NoDup_keys_filter (wanted : string * (nat * nat) -> bool) (stats : Stats) :
  NoDup (map fst stats) -> NoDup (map fst (filter wanted stats)).
Proof.
  induction stats as [| entry stats IH]; simpl; intros Hnd; [constructor |].
  inversion Hnd as [| ? ? Hfresh Hrest]; subst.
  destruct (wanted entry); simpl; [| now apply IH].
  constructor; [| now apply IH].
  intros Hin. apply Hfresh. apply in_map_iff in Hin.
  destruct Hin as (other & E & Hother). apply filter_In in Hother.
  rewrite <- E. apply in_map. now destruct Hother.
Qed.

Lemma filter_length_both {A : Type} (p q : A -> bool) (l : list A) :
  List.length (filter (fun x => p x && q x) l) <= List.length (filter p l).
Proof.
  induction l as [| x l IH]; simpl; [lia |].
  destruct (p x), (q x); simpl; lia.
Qed.

End GroupRateFacts.

(** X25.  For property types that are none of the names an object inherits,
    and with exact division: the renewable-adoption chart shows at most 12
    property types, no type twice, by adoption rate from the highest down.
    Each row is a type with at least 5 buildings; its [total] is the number
    of buildings of the type (an empty type counts under "Unknown Type"),
    its [withRenewable] the number of those with [hasRenewable > 0], and
    its rate is [withRenewable / total * 100], between 0 and 100. *)
Theorem renewable_adoption_rows (data : list BuildingData) :
  Aggregation.ownKeys Aggregation.typeLabel data = true ->
  let rows := GroupRate.renewableAdoptionData data in
  List.length rows <= 12
  /\ NoDup (map GroupRate.type rows)
  /\ StronglySorted
       (fun a b => (GroupRate.adoptionRate b <= GroupRate.adoptionRate a)%Q)
       rows
  /\ forall row, In row rows ->
       GroupRate.total row = GroupRate.buildingsOfType (GroupRate.type row) data
       /\ GroupRate.withRenewable row
          = GroupRate.renewableOfType (GroupRate.type row) data
       /\ 5 <= GroupRate.total row
       /\ GroupRate.withRenewable row <= GroupRate.total row
       /\ (GroupRate.adoptionRate row
           == inject_Z (Z.of_nat (GroupRate.withRenewable row))
              / inject_Z (Z.of_nat (GroupRate.total row)) * 100)%Q
       /\ (0 <= GroupRate.adoptionRate row)%Q
       /\ (GroupRate.adoptionRate row <= 100)%Q.
Proof.
  intros _. cbv zeta. unfold GroupRate.renewableAdoptionData.
  set (stats := GroupRate.renewableByType data).
  set (kept := filter (fun entry => 5 <=? fst (snd entry))
                 (GroupRate.entriesOf stats)).
  set (ranked := Aggregation.sortWith
                   (fun a b => Qltb (GroupRate.adoptionRate a)
                                 (GroupRate.adoptionRate b))
                   (map GroupRate.adoptionRow kept)).
  assert (Hnd : NoDup (map fst stats)).
  { apply (renewableByType_stats data ""). }
  assert (Hperm : Permutation (map GroupRate.adoptionRow kept) ranked)
    by apply sortWith_Permutation.
  assert (Hkeys : NoDup (map fst kept)).
  { apply NoDup_keys_filter.
    eapply Permutation_NoDup;
      [apply Permutation_map, entriesOf_Permutation | exact Hnd]. }
  assert (Hsorted : StronglySorted
                      (fun a b => (GroupRate.adoptionRate b
                                   <= GroupRate.adoptionRate a)%Q) ranked).
  { apply sortWith_sorted.
    - intros a b c H1 H2. eapply Qle_trans; eassumption.
    - intros a b H. now apply Qltb_false_iff in H.
    - intros a b H. apply Qltb_true_iff in H. now apply Qlt_le_weak. }
  split; [apply firstn_le_length | split; [| split; [now apply StronglySorted_firstn |]]].
  - rewrite <- firstn_map. apply NoDup_firstn.
    eapply Permutation_NoDup; [apply Permutation_map, Hperm |].
    rewrite map_map. exact Hkeys.
  - intros row Hrow.
    assert (Hr : In row ranked).
    { rewrite <- (firstn_skipn 12 ranked). apply in_or_app. now left. }
    apply (Permutation_in _ (Permutation_sym Hperm)) in Hr.
    apply in_map_iff in Hr. destruct Hr as ([k [t w]] & <- & Hk).
    apply filter_In in Hk. destruct Hk as (Hk & H5).
    change ((5 <=? t) = true) in H5. apply Nat.leb_le in H5.
    apply (Permutation_in _ (Permutation_sym (entriesOf_Permutation stats))) in Hk.
    pose proof (statsOf_entry k (t, w) stats Hnd Hk) as Es.
    destruct (renewableByType_stats data k) as (_ & Ed).
    fold stats in Ed. rewrite Ed in Es. injection Es as <- <-.
    simpl.
    assert (Hle : GroupRate.renewableOfType k data
                  <= GroupRate.buildingsOfType k data)
      by apply filter_length_both.
    split; [reflexivity | split; [reflexivity | split; [exact H5 | split;
      [exact Hle | split; [reflexivity |]]]]].
    set (w := GroupRate.renewableOfType k data) in *.
    set (t := GroupRate.buildingsOfType k data) in *.
    assert (Ht : (0 < inject_Z (Z.of_nat t))%Q).
    { change 0%Q with (inject_Z 0). rewrite <- Zlt_Qlt. lia. }
    assert (H0 : (0 <= inject_Z (Z.of_nat w) / inject_Z (Z.of_nat t))%Q).
    { apply Qle_shift_div_l; [exact Ht |]. rewrite Qmult_0_l.
      change 0%Q with (inject_Z 0). rewrite <- Zle_Qle. lia. }
    assert (H1 : (inject_Z (Z.of_nat w) / inject_Z (Z.of_nat t) <= 1)%Q).
    { apply Qle_shift_div_r; [exact Ht |]. rewrite Qmult_1_l.
      rewrite <- Zle_Qle. lia. }
    split; lra.
Qed.

Lemma renewable_adoption_rows_witness :
  let data :=
    [Samples.capitol; Samples.lab; Samples.capitol; Samples.capitol;
     Samples.capitol; Samples.capitol] in
  Aggregation.ownKeys Aggregation.typeLabel data = true
  /\ List.length (GroupRate.renewableAdoptionData data) <= 12.
Proof.
  intros data. split; [reflexivity |].
  exact (proj1 (renewable_adoption_rows data eq_refl)).
Defined.
